(** * Component tree model of the Flutter visual builder

    A shallow embedding of the widget registry ([client/src/lib/widgets.ts]),
    of the tree helpers and event handlers of the two builder pages
    ([client/src/pages/VisualBuilder.tsx] and the enhanced builder page), and
    of the JSON document the pages export and load.

    Conventions.
    - A JavaScript value that ends up in a property map or in the exported
      document is a [json] tree.  Numbers are kept as integers: every number
      the registry declares is one, and nothing below computes with them.
    - [Record<string, any>] is a [gmap string json].
    - A function that can [throw] returns an [outcome].
    - Strings are concatenated with [+:+], lists with [++].
    - [Date.now()] and [Math.random()] are not computed: the text they
      contribute to a fresh identifier is an explicit argument ([stamp]).
    - Presentation-only registry fields ([icon], [description],
      [placeholder]) are left out of [WidgetDefinition]. *)

From stdpp Require Import gmap strings list fin_maps.
From stdpp Require Import pretty.
From Stdlib Require Import ZArith.

Open Scope string_scope.
Open Scope list_scope.
Set Warnings "-register-all".

(** ** Values *)

Inductive json : Type :=
| JNull
| JBool (b : bool)
| JNum (z : Z)
| JStr (s : string)
| JArr (items : list json)
| JObj (fields : list (string * json)).

(** The result of running a piece of code that may [throw]. *)
Inductive outcome (A : Type) : Type :=
| Returned (a : A)
| Threw (message : string).
Arguments Returned {A} a.
Arguments Threw {A} message.

(** ** The widget registry ([widgets.ts]) *)

Inductive PropType := TString | TNumber | TBoolean | TColor | TEnum | TObject.
Inductive Category := Layout | Content | Input.

Record WidgetProp := {
  prop_name : string;
  prop_type : PropType;
  prop_label : string;
  defaultValue : option json;
  options : option (list string)
}.

Record WidgetDefinition := {
  def_id : string;
  def_name : string;
  category : Category;
  canHaveChildren : bool;
  def_props : list WidgetProp;
  defaultProps : option (gmap string json)
}.

Definition prop (n : string) (t : PropType) (l : string) (d : option json) : WidgetProp :=
  {| prop_name := n; prop_type := t; prop_label := l; defaultValue := d; options := None |}.

Definition enumProp (n l d : string) (opts : list string) : WidgetProp :=
  {| prop_name := n; prop_type := TEnum; prop_label := l;
     defaultValue := Some (JStr d); options := Some opts |}.

(** No entry of the table sets the optional [defaultProps] field. *)
Definition widget (i n : string) (c : Category) (k : bool) (ps : list WidgetProp) : WidgetDefinition :=
  {| def_id := i; def_name := n; category := c; canHaveChildren := k;
     def_props := ps; defaultProps := None |}.

Definition mainAxisOptions : list string :=
  ["start"; "end"; "center"; "spaceBetween"; "spaceAround"; "spaceEvenly"].
Definition crossAxisOptions : list string :=
  ["start"; "end"; "center"; "stretch"; "baseline"].

(** The table, in source order (the order of [Object.keys]). *)
Definition FLUTTER_WIDGETS : list (string * WidgetDefinition) :=
  [ ("Scaffold", widget "Scaffold" "Scaffold" Layout true []);
    ("AppBar", widget "AppBar" "App Bar" Layout false
       [ prop "title" TString "Title" (Some (JStr "My App"));
         prop "backgroundColor" TColor "Background Color" (Some (JStr "#6200EE"));
         prop "elevation" TNumber "Elevation" (Some (JNum 4)) ]);
    ("Container", widget "Container" "Container" Layout true
       [ prop "backgroundColor" TColor "Background Color" None;
         prop "padding" TNumber "Padding" (Some (JNum 8));
         prop "margin" TNumber "Margin" (Some (JNum 0));
         prop "borderRadius" TNumber "Border Radius" (Some (JNum 0));
         prop "border" TBoolean "Add Border" (Some (JBool false)) ]);
    ("Row", widget "Row" "Row" Layout true
       [ enumProp "mainAxisAlignment" "Main Axis Alignment" "start" mainAxisOptions;
         enumProp "crossAxisAlignment" "Cross Axis Alignment" "center" crossAxisOptions ]);
    ("Column", widget "Column" "Column" Layout true
       [ enumProp "mainAxisAlignment" "Main Axis Alignment" "start" mainAxisOptions;
         enumProp "crossAxisAlignment" "Cross Axis Alignment" "center" crossAxisOptions ]);
    ("Stack", widget "Stack" "Stack" Layout true []);
    ("Positioned", widget "Positioned" "Positioned" Layout true
       [ prop "top" TNumber "Top" None;
         prop "bottom" TNumber "Bottom" None;
         prop "left" TNumber "Left" None;
         prop "right" TNumber "Right" None ]);
    ("Expanded", widget "Expanded" "Expanded" Layout true
       [ prop "flex" TNumber "Flex" (Some (JNum 1)) ]);
    ("SizedBox", widget "SizedBox" "Sized Box" Layout false
       [ prop "width" TNumber "Width" None;
         prop "height" TNumber "Height" None ]);
    ("Padding", widget "Padding" "Padding" Layout true
       [ prop "padding" TNumber "Padding" (Some (JNum 8)) ]);
    ("Center", widget "Center" "Center" Layout true []);
    ("Card", widget "Card" "Card" Layout true
       [ prop "elevation" TNumber "Elevation" (Some (JNum 1)) ]);
    ("ListView", widget "ListView" "List View" Layout false
       [ prop "itemCount" TNumber "Item Count" (Some (JNum 10)) ]);
    ("Text", widget "Text" "Text" Content false
       [ prop "text" TString "Text" (Some (JStr "Hello World"));
         prop "fontSize" TNumber "Font Size" (Some (JNum 14));
         prop "color" TColor "Color" (Some (JStr "#000000"));
         enumProp "fontWeight" "Font Weight" "normal" ["normal"; "bold"];
         enumProp "alignment" "Alignment" "left"
           ["left"; "right"; "center"; "justify"; "start"; "end"] ]);
    ("Button", widget "Button" "Button" Input false
       [ prop "text" TString "Button Text" (Some (JStr "Press me"));
         prop "onPress" TString "On Press Handler" None;
         prop "navigateTo" TString "Navigate To" None ]);
    ("TextField", widget "TextField" "Text Field" Input false
       [ prop "hintText" TString "Hint Text" None ]);
    ("Icon", widget "Icon" "Icon" Content false
       [ prop "icon" TString "Icon Name" None;
         prop "size" TNumber "Size" (Some (JNum 24));
         prop "color" TColor "Color" (Some (JStr "#000000")) ]);
    ("Image", widget "Image" "Image" Content false
       [ prop "src" TString "Image URL or Path" None;
         enumProp "fit" "Fit" "cover"
           ["cover"; "contain"; "fill"; "fitWidth"; "fitHeight"; "scaleDown"] ]) ].

Definition WIDGET_TYPES : list string := map fst FLUTTER_WIDGETS.

(** Own-key lookup in an object literal. *)
Fixpoint assoc {A : Type} (k : string) (table : list (string * A)) : option A :=
  match table with
  | [] => None
  | (k', v) :: rest => if decide (k' = k) then Some v else assoc k rest
  end.

(** [FLUTTER_WIDGETS[type]] on the keys the registry declares.  For a key
    inherited from [Object.prototype] ([constructor], [toString], ...) the
    code's lookup yields the inherited value, not [undefined]; such keys are
    not widget kinds and are outside the model. *)
Definition getWidgetDefinition (type : string) : option WidgetDefinition :=
  assoc type FLUTTER_WIDGETS.

Definition canContainWidget (parentType childType : string) : bool :=
  match getWidgetDefinition parentType with
  | None => false
  | Some parent =>
      if decide (parentType = "ListView") then true
      else if decide (parentType = "AppBar") then false
      else canHaveChildren parent
  end.

(** The default property values of a kind as the specification speaks of
    them (the code has no such function): one entry per property descriptor
    that has a [defaultValue]. *)
Definition declaredDefaults (d : WidgetDefinition) : gmap string json :=
  list_to_map
    (omap (fun p => match defaultValue p with
                    | Some v => Some (prop_name p, v)
                    | None => None
                    end)
          (def_props d)).

(** ** Component nodes ([widgets.ts]) *)

Inductive ComponentNode : Type :=
  Node {
    id : string;
    type : string;
    props : gmap string json;
    children : list ComponentNode
  }.

(** Induction over a node with the property available for every child. *)
Fixpoint ComponentNode_forall_ind (P : ComponentNode -> Prop)
    (step : forall i t p cs, Forall P cs -> P (Node i t p cs))
    (c : ComponentNode) : P c :=
  match c with
  | Node i t p cs =>
      step i t p cs
        ((fix all (l : list ComponentNode) : Forall P l :=
            match l with
            | [] => @List.Forall_nil _ P
            | x :: r => @List.Forall_cons _ P x r (ComponentNode_forall_ind P step x) (all r)
            end) cs)
  end.

(** [createDefaultComponent]: [stamp] is the text of
    [Date.now()-Math.random().toString(36).substr(2, 9)]. *)
Definition createDefaultComponent (type stamp : string) : outcome ComponentNode :=
  match getWidgetDefinition type with
  | None => Threw ("Unknown widget type: " +:+ type)
  | Some definition =>
      Returned
        {| id := type +:+ "-" +:+ stamp;
           type := type;
           props := default ∅ (defaultProps definition);
           children := [] |}
  end.

(** ** Tree helpers (identical in both builder pages) *)

(** The first non-null result of [f] over [l], as the [for ... of] loop with
    an early [return] computes it. *)
Fixpoint firstFound {A B : Type} (f : A -> option B) (l : list A) : option B :=
  match l with
  | [] => None
  | x :: rest =>
      match f x with
      | Some found => Some found
      | None => firstFound f rest
      end
  end.

Fixpoint findComponentById (component : ComponentNode) (i : string)
    : option ComponentNode :=
  match component with
  | Node ci _ _ cs =>
      if decide (ci = i) then Some component
      else firstFound (fun child => findComponentById child i) cs
  end.

Fixpoint updateComponentRecursive (component : ComponentNode) (i : string)
    (updater : ComponentNode -> ComponentNode) : ComponentNode :=
  match component with
  | Node ci t p cs =>
      if decide (ci = i) then updater component
      else Node ci t p (map (fun child => updateComponentRecursive child i updater) cs)
  end.

Definition updateComponentInTree (components : list ComponentNode) (i : string)
    (updater : ComponentNode -> ComponentNode) : list ComponentNode :=
  map (fun comp => updateComponentRecursive comp i updater) components.

(** [.filter((x) => x !== null)] over the results of a [.map]. *)
Fixpoint filterNonNull {A : Type} (l : list (option A)) : list A :=
  match l with
  | [] => []
  | Some x :: rest => x :: filterNonNull rest
  | None :: rest => filterNonNull rest
  end.

Fixpoint deleteComponentRecursive (component : ComponentNode) (i : string)
    : option ComponentNode :=
  match component with
  | Node ci t p cs =>
      if decide (ci = i) then None
      else
        Some (Node ci t p
                (filterNonNull (map (fun child => deleteComponentRecursive child i) cs)))
  end.

Definition deleteComponentFromTree (components : list ComponentNode) (i : string)
    : list ComponentNode :=
  filterNonNull (map (fun comp => deleteComponentRecursive comp i) components).

(** The updaters the handlers pass to [updateComponentInTree]. *)
Definition withProps (p : gmap string json) (comp : ComponentNode) : ComponentNode :=
  Node (id comp) (type comp) p (children comp).

Definition withNewChild (newChild : ComponentNode) (comp : ComponentNode) : ComponentNode :=
  Node (id comp) (type comp) (props comp) (children comp ++ [newChild]).

(** Every identifier of a tree, parent before children. *)
Fixpoint ids (c : ComponentNode) : list string :=
  match c with
  | Node ci _ _ cs => ci :: flat_map ids cs
  end.

Definition forestIds (components : list ComponentNode) : list string :=
  flat_map ids components.

(** ** Notifications and pages *)

Inductive toast := ToastSuccess (message : string) | ToastError (message : string).

(** Reading a property of [undefined]. *)
Definition TypeError : string := "TypeError: Cannot read properties of undefined".

(** ** The builder page of [VisualBuilder.tsx]: one list of roots *)

Module VisualBuilder.

Record State := {
  components : list ComponentNode;
  selectedId : option string;
  toasts : list toast
}.

(** [selectedId || ''] *)
Definition selectedComponent (st : State) : option ComponentNode :=
  match components st with
  | [] => None
  | first :: _ => findComponentById first (default "" (selectedId st))
  end.

(** The roots as [setComponents] receives them.  The handler appends to
    the children array of the first root in place; the store model
    ([Store] below) says what that does to the previous list. *)
Definition handleAddComponent (st : State) (type stamp : string) : outcome State :=
  match createDefaultComponent type stamp with
  | Threw m => Threw m
  | Returned newComponent =>
      Returned
        {| components :=
             match components st with
             | [] => [newComponent]
             | first :: rest => withNewChild newComponent first :: rest
             end;
           selectedId := Some (id newComponent);
           toasts := toasts st ++ [ToastSuccess ("Added " +:+ type +:+ " component")] |}
  end.

(** [if (!selectedId) return]: [null] and the empty string are falsy. *)
Definition handleUpdateProps (st : State) (p : gmap string json) : State :=
  match selectedId st with
  | None | Some "" => st
  | Some sel =>
      {| components := updateComponentInTree (components st) sel (withProps p);
         selectedId := selectedId st;
         toasts := toasts st |}
  end.

Definition handleDeleteComponent (st : State) : State :=
  match selectedId st with
  | None | Some "" => st
  | Some sel =>
      {| components := deleteComponentFromTree (components st) sel;
         selectedId := None;
         toasts := toasts st ++ [ToastSuccess "Component deleted"] |}
  end.

End VisualBuilder.

(** ** The enhanced builder page: several pages, each with its roots *)

Module VisualBuilderEnhanced.

Record PageData := {
  page_id : string;
  page_name : string;
  route : string;
  is_home : bool;
  components : list ComponentNode
}.

(** [{ ...p, components: c }] *)
Definition withComponents (p : PageData) (c : list ComponentNode) : PageData :=
  {| page_id := page_id p; page_name := page_name p; route := route p;
     is_home := is_home p; components := c |}.

Record State := {
  pages : list PageData;
  currentPageId : string;
  selectedComponentId : option string;
  toasts : list toast
}.

Definition notify (st : State) (t : toast) : State :=
  {| pages := pages st; currentPageId := currentPageId st;
     selectedComponentId := selectedComponentId st;
     toasts := toasts st ++ [t] |}.

(** [pages.find((p) => p.id === currentPageId)] *)
Definition currentPage (st : State) : option PageData :=
  List.find (fun p => bool_decide (page_id p = currentPageId st)) (pages st).

(** [findComponentById(currentPage.components[0], ...)]: on an empty root
    list the argument is [undefined] and reading its [id] throws. *)
Definition selectedComponent (st : State) : outcome (option ComponentNode) :=
  match currentPage st with
  | None => Returned None
  | Some page =>
      match components page with
      | [] => Threw TypeError
      | first :: _ =>
          Returned (findComponentById first (default "" (selectedComponentId st)))
      end
  end.

Definition handleAddComponent (st : State) (type stamp : string) : outcome State :=
  match currentPage st with
  | None => Returned st
  | Some _ =>
      match createDefaultComponent type stamp with
      | Threw m => Threw m
      | Returned newComponent =>
          Returned
            {| pages :=
                 map (fun p =>
                        if decide (page_id p ≠ currentPageId st) then p
                        else
                          withComponents p
                            match components p with
                            | [] => [newComponent]
                            | first :: rest => withNewChild newComponent first :: rest
                            end)
                     (pages st);
               currentPageId := currentPageId st;
               selectedComponentId := Some (id newComponent);
               toasts := toasts st ++ [ToastSuccess ("Added " +:+ type +:+ " component")] |}
      end
  end.

(** [`${parent?.type}`] *)
Definition optionalType (parent : option ComponentNode) : string :=
  match parent with
  | Some par => type par
  | None => "undefined"
  end.

Definition handleAddChild (st : State) (parentId childType stamp : string)
    : outcome State :=
  match currentPage st with
  | None => Returned st
  | Some page =>
      match components page with
      | [] => Threw TypeError
      | first :: _ =>
          let parent := findComponentById first parentId in
          let rejected :=
            Returned
              (notify st
                 (ToastError (optionalType parent +:+ " cannot contain " +:+ childType))) in
          match parent with
          | None => rejected
          | Some par =>
              if negb (canContainWidget (type par) childType) then rejected
              else
                match createDefaultComponent childType stamp with
                | Threw m => Threw m
                | Returned newChild =>
                    Returned
                      {| pages :=
                           map (fun p =>
                                  if decide (page_id p ≠ currentPageId st) then p
                                  else
                                    withComponents p
                                      (updateComponentInTree (components p) parentId
                                         (withNewChild newChild)))
                               (pages st);
                         currentPageId := currentPageId st;
                         selectedComponentId := Some (id newChild);
                         toasts :=
                           toasts st
                           ++ [ToastSuccess ("Added " +:+ childType +:+ " to " +:+ type par)] |}
                end
          end
      end
  end.

Definition handleUpdateProps (st : State) (p : gmap string json) : State :=
  match selectedComponentId st, currentPage st with
  | None, _ | Some "", _ | _, None => st
  | Some sel, Some _ =>
      {| pages :=
           map (fun pg =>
                  if decide (page_id pg ≠ currentPageId st) then pg
                  else
                    withComponents pg
                      (updateComponentInTree (components pg) sel (withProps p)))
               (pages st);
         currentPageId := currentPageId st;
         selectedComponentId := selectedComponentId st;
         toasts := toasts st |}
  end.

Definition handleDeleteComponent (st : State) : State :=
  match selectedComponentId st, currentPage st with
  | None, _ | Some "", _ | _, None => st
  | Some sel, Some _ =>
      {| pages :=
           map (fun pg =>
                  if decide (page_id pg ≠ currentPageId st) then pg
                  else withComponents pg (deleteComponentFromTree (components pg) sel))
               (pages st);
         currentPageId := currentPageId st;
         selectedComponentId := None;
         toasts := toasts st ++ [ToastSuccess "Component deleted"] |}
  end.

(** [updated[0].id] throws when nothing is left. *)
Definition handleDeletePage (st : State) (i : string) : outcome State :=
  if decide (length (pages st) = 1) then
    Returned (notify st (ToastError "You must have at least one page"))
  else
    let updated := filter (fun p => page_id p ≠ i) (pages st) in
    if decide (currentPageId st = i) then
      match updated with
      | [] => Threw TypeError
      | first :: _ =>
          Returned
            {| pages := updated;
               currentPageId := page_id first;
               selectedComponentId := selectedComponentId st;
               toasts := toasts st ++ [ToastSuccess "Page deleted"] |}
      end
    else
      Returned
        {| pages := updated;
           currentPageId := currentPageId st;
           selectedComponentId := selectedComponentId st;
           toasts := toasts st ++ [ToastSuccess "Page deleted"] |}.

End VisualBuilderEnhanced.

(** ** The JSON document ([handleExportJSON], [loadProject])

    [JSON.stringify] writes the own fields of every object in order and
    [JSON.parse] reads them back; the text in between is not modelled, the
    document is the [json] tree both agree on. *)

Module Document.
Import VisualBuilderEnhanced.

Fixpoint nodeToJson (c : ComponentNode) : json :=
  match c with
  | Node i t p cs =>
      JObj [ ("id", JStr i);
             ("type", JStr t);
             ("props", JObj (map_to_list p));
             ("children", JArr (map nodeToJson cs)) ]
  end.

Definition screenToJson (page : PageData) : json :=
  JObj [ ("id", JStr (page_id page));
         ("name", JStr (page_name page));
         ("route", JStr (route page));
         ("is_home", JBool (is_home page));
         ("components", JArr (map nodeToJson (components page))) ].

(** The value [handleExportJSON] stringifies; [app_name] is
    [(project?.name || 'my_app').toLowerCase().replace(/\s+/g, '_')],
    computed by the caller. *)
Definition exportDocument (app_name : string) (pages : list PageData) : json :=
  JObj [ ("app_name", JStr app_name);
         ("package_name", JStr "com.example.app");
         ("screens", JArr (map screenToJson pages)) ].

Definition handleExportJSON (app_name : string) (st : State) : json :=
  exportDocument app_name (pages st).

(** Property access [value.key]; [None] is [undefined]. *)
Definition field (k : string) (value : json) : option json :=
  match value with
  | JObj fields => assoc k fields
  | _ => None
  end.

Definition asString (value : json) : option string :=
  match value with JStr s => Some s | _ => None end.
Definition asBool (value : json) : option bool :=
  match value with JBool b => Some b | _ => None end.
Definition asObject (value : json) : option (list (string * json)) :=
  match value with JObj fields => Some fields | _ => None end.
Definition asArray (value : json) : option (list json) :=
  match value with JArr items => Some items | _ => None end.

(** The page code uses a parsed value as a [ComponentNode] without
    looking at it.  [nodeOfJson] is that reading: defined on the values
    that have the four fields with their declared types, [None] on any
    other value (which the typed model has no node for). *)
Fixpoint nodeOfJson (value : json) : option ComponentNode :=
  match value with
  | JObj fields =>
      i ← assoc "id" fields ≫= asString;
      t ← assoc "type" fields ≫= asString;
      p ← assoc "props" fields ≫= asObject;
      cs ← (fix childrenOf (l : list (string * json)) : option (list ComponentNode) :=
              match l with
              | [] => None
              | (k, v) :: rest =>
                  if decide (k = "children") then
                    match v with
                    | JArr items =>
                        (fix each (l' : list json) : option (list ComponentNode) :=
                           match l' with
                           | [] => Some []
                           | x :: r =>
                               c ← nodeOfJson x;
                               others ← each r;
                               Some (c :: others)
                           end) items
                    | _ => None
                    end
                  else childrenOf rest
              end) fields;
      Some (Node i t (list_to_map p) cs)
  | _ => None
  end.

Fixpoint nodesOfJson (items : list json) : option (list ComponentNode) :=
  match items with
  | [] => Some []
  | x :: r =>
      c ← nodeOfJson x;
      others ← nodesOfJson r;
      Some (c :: others)
  end.

(** JavaScript truthiness of a parsed value. *)
Definition truthy (value : json) : bool :=
  match value with
  | JNull => false
  | JBool b => b
  | JNum z => negb (Z.eqb z 0)
  | JStr s => negb (String.eqb s "")
  | JArr _ | JObj _ => true
  end.

(** [[createDefaultComponent('Scaffold')]] *)
Definition defaultRoots (stamp : string) : option (list ComponentNode) :=
  match createDefaultComponent "Scaffold" stamp with
  | Returned scaffold => Some [scaffold]
  | Threw _ => None
  end.

(** One element of [screens.map((screen) => ...)]:
    [components: screen.components || [createDefaultComponent('Scaffold')]].
    An array, even an empty one, is truthy; an absent or [null] field is
    not. *)
Definition pageOfScreen (stamp : string) (screen : json) : option PageData :=
  i ← field "id" screen ≫= asString;
  n ← field "name" screen ≫= asString;
  r ← field "route" screen ≫= asString;
  h ← field "is_home" screen ≫= asBool;
  cs ← match field "components" screen with
       | Some value =>
           if truthy value then asArray value ≫= nodesOfJson
           else defaultRoots stamp
       | None => defaultRoots stamp
       end;
  Some {| page_id := i; page_name := n; route := r; is_home := h; components := cs |}.

Fixpoint pagesOfScreens (stamp : string) (screens : list json) : option (list PageData) :=
  match screens with
  | [] => Some []
  | s :: r =>
      page ← pageOfScreen stamp s;
      others ← pagesOfScreens stamp r;
      Some (page :: others)
  end.

(** The part of [loadProject] after the request: [json_data] is the
    stored document.  Reading [screens] of [null] throws, and the [catch]
    reports it (the page then leaves for [/], which is no part of the
    state).  Without a [screens] array the state is left alone; [None] is a
    document whose screens are not typed as [PageData]. *)
Definition loadProject (st : State) (json_data : json) (stamp : string) : option State :=
  match json_data with
  | JNull => Some (notify st (ToastError "Failed to load project"))
  | _ =>
      match field "screens" json_data with
      | Some (JArr screens) =>
          loadedPages ← pagesOfScreens stamp screens;
          Some {| pages := loadedPages;
                  currentPageId :=
                    match loadedPages with
                    | first :: _ => page_id first
                    | [] => ""
                    end;
                  selectedComponentId := selectedComponentId st;
                  toasts := toasts st |}
      | _ => Some st
      end
  end.

(** What the round trip is compared on: kinds, properties and child
    order, without the identifiers. *)
Inductive Shape : Type :=
  ShapeOf (kind : string) (properties : gmap string json) (parts : list Shape).

Fixpoint shape (c : ComponentNode) : Shape :=
  match c with
  | Node _ t p cs => ShapeOf t p (map shape cs)
  end.

Fixpoint depth (c : ComponentNode) : nat :=
  match c with
  | Node _ _ _ cs => S (foldr Nat.max 0 (map depth cs))
  end.

End Document.

(** ** The object store

    Nodes and arrays are objects with an identity: two lists of roots can
    hold the same node, and two nodes the same [children] array.  A cell of
    the store is a node (its [children] field is the reference of an array)
    or an array of node references.  Property maps are never written to in
    place and stay values.  The helpers recurse over the store, so they take
    [fuel]; running out of it is the [RangeError] of a call stack that is
    too deep. *)

Module Store.

(** References are positions in the store. *)
Abbreviation loc := nat (only parsing).

Record object := {
  o_id : string;
  o_type : string;
  o_props : gmap string json;
  o_children : loc
}.

Inductive cell :=
| Object (o : object)
| Array (elements : list loc).

Abbreviation heap := (list cell) (only parsing).

Definition RangeError : string := "RangeError: Maximum call stack size exceeded".

(** A computation on the store that may throw. *)
Definition M (A : Type) : Type := heap -> outcome (A * heap).

Definition ret {A : Type} (a : A) : M A := fun h => Returned (a, h).

Definition bind {A B : Type} (m : M A) (k : A -> M B) : M B :=
  fun h =>
    match m h with
    | Returned (a, h') => k a h'
    | Threw e => Threw e
    end.

Definition throw {A : Type} (e : string) : M A := fun _ => Threw e.

(** A new object gets the next free reference. *)
Definition new (c : cell) : M loc := fun h => Returned (length h, h ++ [c]).

Definition getObject (l : loc) : M object :=
  fun h =>
    match h !! l with
    | Some (Object o) => Returned (o, h)
    | _ => Threw TypeError
    end.

Definition getArray (l : loc) : M (list loc) :=
  fun h =>
    match h !! l with
    | Some (Array elements) => Returned (elements, h)
    | _ => Threw TypeError
    end.

(** [array.push(x)]: the array object itself changes. *)
Definition push (array x : loc) : M unit :=
  fun h =>
    match h !! array with
    | Some (Array elements) => Returned (tt, <[array := Array (elements ++ [x])]> h)
    | _ => Threw TypeError
    end.

Notation "x <~ m ;; k" := (bind m (fun x => k))
  (at level 100, m at next level, right associativity).

(** The callback of a [.map] run on every element, first to last. *)
Fixpoint forEach {A B : Type} (f : A -> M B) (l : list A) : M (list B) :=
  match l with
  | [] => ret []
  | x :: rest =>
      y <~ f x ;;
      ys <~ forEach f rest ;;
      ret (y :: ys)
  end.

(** [createDefaultComponent] allocating its node and its empty array. *)
Definition createDefaultComponent (type stamp : string) : M loc :=
  match getWidgetDefinition type with
  | None => throw ("Unknown widget type: " +:+ type)
  | Some definition =>
      kids <~ new (Array []) ;;
      new (Object {| o_id := type +:+ "-" +:+ stamp;
                     o_type := type;
                     o_props := default ∅ (defaultProps definition);
                     o_children := kids |})
  end.

(** [handleAddComponent] of [VisualBuilder.tsx]; the result is the
    reference handed to [setComponents]. *)
Definition handleAddComponent (components : loc) (type stamp : string) : M loc :=
  newComponent <~ createDefaultComponent type stamp ;;
  elements <~ getArray components ;;
  match elements with
  | [] => new (Array [newComponent])
  | first :: _ =>
      updated <~ new (Array elements) ;;
      node <~ getObject first ;;
      _ <~ push (o_children node) newComponent ;;
      ret updated
  end.

(** The callback [handleAddComponent] of the enhanced page runs on the
    current page; the result is the [components] of the new page
    object. *)
Definition addComponentToPage (components newComponent : loc) : M loc :=
  elements <~ getArray components ;;
  updatedComponents <~ new (Array elements) ;;
  match elements with
  | [] =>
      _ <~ push updatedComponents newComponent ;;
      ret updatedComponents
  | first :: _ =>
      node <~ getObject first ;;
      _ <~ push (o_children node) newComponent ;;
      ret updatedComponents
  end.

(** [{ ...comp, props }]: a new node that shares the children array. *)
Definition withProps (p : gmap string json) (comp : loc) : M loc :=
  node <~ getObject comp ;;
  new (Object {| o_id := o_id node; o_type := o_type node;
                 o_props := p; o_children := o_children node |}).

(** [{ ...comp, children: [...comp.children, newChild] }] *)
Definition withNewChild (newChild : loc) (comp : loc) : M loc :=
  node <~ getObject comp ;;
  elements <~ getArray (o_children node) ;;
  kids <~ new (Array (elements ++ [newChild])) ;;
  new (Object {| o_id := o_id node; o_type := o_type node;
                 o_props := o_props node; o_children := kids |}).

Fixpoint updateComponentRecursive (fuel : nat) (component : loc) (i : string)
    (updater : loc -> M loc) : M loc :=
  match fuel with
  | 0 => throw RangeError
  | S fuel' =>
      node <~ getObject component ;;
      if decide (o_id node = i) then updater component
      else
        elements <~ getArray (o_children node) ;;
        updated <~ forEach (fun child => updateComponentRecursive fuel' child i updater)
                     elements ;;
        kids <~ new (Array updated) ;;
        new (Object {| o_id := o_id node; o_type := o_type node;
                       o_props := o_props node; o_children := kids |})
  end.

Definition updateComponentInTree (fuel : nat) (components : loc) (i : string)
    (updater : loc -> M loc) : M loc :=
  elements <~ getArray components ;;
  updated <~ forEach (fun comp => updateComponentRecursive fuel comp i updater)
               elements ;;
  new (Array updated).

(** The array of [.map] with its [null] entries is dropped at once; only
    the array of [.filter] is allocated. *)
Fixpoint deleteComponentRecursive (fuel : nat) (component : loc) (i : string)
    : M (option loc) :=
  match fuel with
  | 0 => throw RangeError
  | S fuel' =>
      node <~ getObject component ;;
      if decide (o_id node = i) then ret None
      else
        elements <~ getArray (o_children node) ;;
        results <~ forEach (fun child => deleteComponentRecursive fuel' child i)
                     elements ;;
        kids <~ new (Array (filterNonNull results)) ;;
        kept <~ new (Object {| o_id := o_id node; o_type := o_type node;
                               o_props := o_props node; o_children := kids |}) ;;
        ret (Some kept)
  end.

Definition deleteComponentFromTree (fuel : nat) (components : loc) (i : string)
    : M loc :=
  elements <~ getArray components ;;
  results <~ forEach (fun comp => deleteComponentRecursive fuel comp i) elements ;;
  new (Array (filterNonNull results)).

(** The tree a reference stands for, followed to a depth of [fuel]. *)
Fixpoint readNode (fuel : nat) (h : heap) (l : loc) : option ComponentNode :=
  match fuel with
  | 0 => None
  | S fuel' =>
      match h !! l with
      | Some (Object o) =>
          match h !! o_children o with
          | Some (Array elements) =>
              cs ← mapM (readNode fuel' h) elements;
              Some (Node (o_id o) (o_type o) (o_props o) cs)
          | _ => None
          end
      | _ => None
      end
  end.

Definition readRoots (fuel : nat) (h : heap) (roots : loc) : option (list ComponentNode) :=
  match h !! roots with
  | Some (Array elements) => mapM (readNode fuel h) elements
  | _ => None
  end.

End Store.

(** ** Concrete inputs *)

Import VisualBuilderEnhanced.

(** The trees used as concrete inputs below. *)
Definition sampleText : ComponentNode :=
  Node "Text-1" "Text" {[ "text" := JStr "Hi"; "color" := JStr "#ff0000" ]} [].
Definition sampleScaffold : ComponentNode :=
  Node "Scaffold-0" "Scaffold" ∅ [sampleText].
Definition sampleButton : ComponentNode :=
  Node "Button-2" "Button" {[ "text" := JStr "Go" ]} [].

Definition twoRootState : State :=
  {| pages := [ {| page_id := "page_1"; page_name := "Home"; route := "/";
                   is_home := true; components := [sampleScaffold; sampleButton] |} ];
     currentPageId := "page_1";
     selectedComponentId := Some "Button-2";
     toasts := [] |}.

Definition twoPageState : State :=
  {| pages := [ {| page_id := "page_1"; page_name := "Home"; route := "/";
                   is_home := true; components := [sampleScaffold] |};
                {| page_id := "page_2"; page_name := "Profile"; route := "/profile";
                   is_home := false; components := [sampleButton] |} ];
     currentPageId := "page_1";
     selectedComponentId := None;
     toasts := [] |}.

(** Two pages with the same identifier, as a stored document can hold
    them, and the state after loading it. *)
Definition sameIdPages : list PageData :=
  [ {| page_id := "home"; page_name := "Home"; route := "/";
       is_home := true; components := [sampleScaffold] |};
    {| page_id := "home"; page_name := "About"; route := "/about";
       is_home := false; components := [sampleButton] |} ].

Definition sameIdState : State :=
  {| pages := sameIdPages;
     currentPageId := "home";
     selectedComponentId := None;
     toasts := [] |}.

Definition textRootPage : PageData :=
  {| page_id := "page_1"; page_name := "Home"; route := "/"; is_home := true;
     components := [Node "Text-1" "Text" ∅ []] |}.

Definition textRootState : State :=
  {| pages := [textRootPage]; currentPageId := "page_1";
     selectedComponentId := None; toasts := [] |}.

(** The store of a fresh project: the [Scaffold] root (cell 1) with its
    empty children array (cell 0), and the root list (cell 2). *)
Definition scaffoldStore : Store.heap :=
  [ Store.Array [];
    Store.Object {| Store.o_id := "Scaffold-0"; Store.o_type := "Scaffold";
                    Store.o_props := ∅; Store.o_children := 0 |};
    Store.Array [1] ].

(** Settles the comparisons of field names a lookup goes through. *)
Ltac decide_keys :=
  repeat (case_decide; [try discriminate | try contradiction]).

(** ** Predicates of the statements about the store *)

(** A computation that only allocates: the store it leaves extends the
    store it started from, so no existing object was written to. *)
Definition allocates {A : Type} (m : Store.M A) : Prop :=
  forall h a h', m h = Returned (a, h') -> h `prefix_of` h'.

(** The store-level updater [updater] computes the pure updater [g]: run
    on a reference that reads as [t] (in a store extending [h0]) it
    returns, allocating only, a reference that reads as [g t], with [k]
    more fuel at most. *)
Definition refines (h0 : Store.heap) (k : nat)
    (updater : Store.loc -> Store.M Store.loc) (g : ComponentNode -> ComponentNode)
    : Prop :=
  forall fuel h l t,
    h0 `prefix_of` h ->
    Store.readNode fuel h l = Some t ->
    exists l' h',
      updater l h = Returned (l', h')
      /\ h `prefix_of` h'
      /\ Store.readNode (fuel + k) h' l' = Some (g t).

(** * Validation, the page dialogs and the panels

    The validators of [validation.ts], the page handlers of the enhanced
    builder page, and the components around the two builder pages. *)

(** Every node of a tree, parent before children: the order in which
    [findComponentById] visits them. *)
Fixpoint nodes (c : ComponentNode) : list ComponentNode :=
  match c with
  | Node _ _ _ cs => c :: flat_map nodes cs
  end.

(** ** JavaScript strings

    A string is kept as its UTF-8 bytes.  Equality, [startsWith] and the
    character classes of the regular expressions below read the same on
    bytes as on UTF-16 code units; [.length] and [.trim()] do not, and are
    computed from the bytes here. *)

Module JsString.

#[local] Open Scope nat_scope.

Definition codes (s : string) : list nat :=
  map Ascii.nat_of_ascii (String.list_ascii_of_string s).

(** UTF-16 code units a byte stands for: one for an ASCII byte and for the
    first byte of a two- or three-byte sequence, two for the first byte of a
    four-byte sequence (a surrogate pair), none for a continuation byte. *)
Definition unitsOf (b : nat) : nat :=
  if b <? 128 then 1 else if b <? 192 then 0 else if b <? 240 then 1 else 2.

(** [s.length] *)
Definition length (s : string) : nat := sum_list (map unitsOf (codes s)).

(** The three-byte sequences of the white space and line terminators:
    U+1680, U+2000 to U+200A, U+2028, U+2029, U+202F, U+205F, U+3000,
    U+FEFF. *)
Definition threeByteSpace (b1 b2 b3 : nat) : bool :=
  ((b1 =? 225) && (b2 =? 154) && (b3 =? 128))
  || ((b1 =? 226) && (b2 =? 128)
      && (((128 <=? b3) && (b3 <=? 138)) || (b3 =? 168) || (b3 =? 169) || (b3 =? 175)))
  || ((b1 =? 226) && (b2 =? 129) && (b3 =? 159))
  || ((b1 =? 227) && (b2 =? 128) && (b3 =? 128))
  || ((b1 =? 239) && (b2 =? 187) && (b3 =? 191)).

(** All of the bytes are white space or line terminators: tab, line feed,
    vertical tab, form feed, carriage return, space, U+00A0 and the
    three-byte ones. *)
Fixpoint blank (l : list nat) : bool :=
  match l with
  | [] => true
  | b1 :: r1 =>
      if (9 <=? b1) && (b1 <=? 13) || (b1 =? 32) then blank r1
      else
        match r1 with
        | [] => false
        | b2 :: r2 =>
            if (b1 =? 194) && (b2 =? 160) then blank r2
            else
              match r2 with
              | [] => false
              | b3 :: r3 => if threeByteSpace b1 b2 b3 then blank r3 else false
              end
        end
  end.

(** [s.trim() === ''] *)
Definition trimIsEmpty (s : string) : bool := blank (codes s).

(** [s.startsWith('/')] *)
Definition startsWithSlash (s : string) : bool :=
  match codes s with
  | b :: _ => b =? 47
  | [] => false
  end.

Definition isLower (b : nat) : bool := (97 <=? b) && (b <=? 122).
Definition isDigit (b : nat) : bool := (48 <=? b) && (b <=? 57).

(** [/^[a-z_][a-z0-9_]*$/] *)
Definition identifierPattern (s : string) : bool :=
  match codes s with
  | b :: r =>
      (isLower b || (b =? 95))
      && forallb (fun c => isLower c || isDigit c || (c =? 95)) r
  | [] => false
  end.

(** [(\.[a-z0-9]+)*$] after a run of [[a-z0-9]]; [started] says that the
    current run is not empty. *)
Fixpoint dottedRest (l : list nat) (started : bool) : bool :=
  match l with
  | [] => started
  | c :: r =>
      if isLower c || isDigit c then dottedRest r true
      else if c =? 46 then started && dottedRest r false
      else false
  end.

(** [/^[a-z][a-z0-9]*(\.[a-z0-9]+)*$/] *)
Definition packagePattern (s : string) : bool :=
  match codes s with
  | b :: r => isLower b && dottedRest r true
  | [] => false
  end.

(** [/^\/[a-z0-9_\-\/]*$/] *)
Definition routePattern (s : string) : bool :=
  match codes s with
  | b :: r =>
      (b =? 47)
      && forallb (fun c => isLower c || isDigit c || (c =? 95) || (c =? 45) || (c =? 47)) r
  | [] => false
  end.

End JsString.

(** ** Validation ([validation.ts]) *)

Module Validation.

#[local] Open Scope nat_scope.

Record ValidationError := {
  field : string;
  message : string
}.

Record ValidationResult := {
  isValid : bool;
  errors : list ValidationError
}.

(** [{ isValid: errors.length === 0, errors }] *)
Definition result (errors : list ValidationError) : ValidationResult :=
  {| isValid := match errors with [] => true | _ => false end; errors := errors |}.

(** [!name || name.trim() === ''] *)
Definition missing (s : string) : bool :=
  bool_decide (s = "") || JsString.trimIsEmpty s.

Definition validatePageName (name : string) : ValidationResult :=
  result
    (if missing name then
       [ {| field := "name"; message := "Page name is required" |} ]
     else if JsString.length name <? 2 then
       [ {| field := "name"; message := "Page name must be at least 2 characters" |} ]
     else if 50 <? JsString.length name then
       [ {| field := "name"; message := "Page name must be less than 50 characters" |} ]
     else []).

Definition validateRoute (route : string) (existingRoutes : list string)
    : ValidationResult :=
  result
    (if missing route then
       [ {| field := "route"; message := "Route is required" |} ]
     else if negb (JsString.startsWithSlash route) then
       [ {| field := "route"; message := "Route must start with /" |} ]
     else if negb (JsString.routePattern route) then
       [ {| field := "route";
            message := "Route can only contain lowercase letters, numbers, underscores, hyphens, and slashes" |} ]
     else if bool_decide (route ∈ existingRoutes) then
       [ {| field := "route"; message := "This route already exists" |} ]
     else []).

Definition structuralParents : list string :=
  ["Scaffold"; "Row"; "Column"; "Container"; "Stack"; "Card"; "ListView";
   "Center"; "Padding"; "Expanded"].

(** The table of [validateComponentNesting]: for a child kind, the parent
    kinds it may not be placed under. *)
Definition invalidCombinations : list (string * list string) :=
  [ ("AppBar", structuralParents);
    ("ListView", ["Scaffold"; "Row"; "Column"; "Container"; "Stack"; "Card";
                  "Center"; "Padding"; "Expanded"]);
    ("TextField", structuralParents);
    ("Button", structuralParents);
    ("Text", structuralParents);
    ("Icon", structuralParents);
    ("Image", structuralParents);
    ("SizedBox", structuralParents) ].

(** [invalidCombinations[childType]?.includes(parentType)] on the keys
    the table declares.  For a child kind that is a key inherited from
    [Object.prototype] the code's call of [includes] throws; such keys are
    outside the model, as for the registry. *)
Definition validateComponentNesting (parentType childType : string) : ValidationResult :=
  result
    (match assoc childType invalidCombinations with
     | Some parents =>
         if bool_decide (parentType ∈ parents) then
           [ {| field := "nesting";
                message := childType +:+ " cannot be a child of " +:+ parentType |} ]
         else []
     | None => []
     end).

(** A screen of the document as [handleSaveProject] builds it; the
    fields have the types of [PageData]. *)
Record Screen := {
  id : string;
  name : string;
  route : string;
  is_home : bool;
  components : list ComponentNode
}.

(** [validateScreen] on a typed screen.  [typeof screen.is_home !==
    'boolean'] and [!Array.isArray(screen.components)] are false for every
    value of the type and add no error. *)
Definition validateScreen (screen : Screen) (index : nat) : list ValidationError :=
  let prefix := "screens[" +:+ pretty index +:+ "]" in
  (if bool_decide (id screen = "") then
     [ {| field := prefix +:+ ".id"; message := "Screen id is required" |} ]
   else if negb (JsString.identifierPattern (id screen)) then
     [ {| field := prefix +:+ ".id";
          message := "Screen id must be lowercase with underscores only" |} ]
   else [])
  ++ (if bool_decide (name screen = "") then
        [ {| field := prefix +:+ ".name"; message := "Screen name is required" |} ]
      else [])
  ++ (if bool_decide (route screen = "") then
        [ {| field := prefix +:+ ".route"; message := "Screen route is required" |} ]
      else if negb (JsString.startsWithSlash (route screen)) then
        [ {| field := prefix +:+ ".route"; message := "Screen route must start with /" |} ]
      else [])
  ++ (match components screen with
      | [] =>
          [ {| field := prefix +:+ ".components";
               message := "At least one component is required" |} ]
      | _ => []
      end).

(** The document: [json_data] of the project. *)
Record JsonData := {
  app_name : string;
  package_name : string;
  screens : list Screen
}.

(** [screens.forEach((screen, index) => errors.push(...validateScreen(screen, index)))] *)
Fixpoint validateScreens (l : list Screen) (index : nat) : list ValidationError :=
  match l with
  | [] => []
  | screen :: rest => validateScreen screen index ++ validateScreens rest (S index)
  end.

(** [validateJsonData] on a typed document ([screens] is an array). *)
Definition validateJsonData (jsonData : JsonData) : list ValidationError :=
  (if bool_decide (app_name jsonData = "") then
     [ {| field := "app_name"; message := "app_name is required" |} ]
   else if negb (JsString.identifierPattern (app_name jsonData)) then
     [ {| field := "app_name";
          message := "app_name must be lowercase with underscores only" |} ]
   else [])
  ++ (if bool_decide (package_name jsonData = "") then
        [ {| field := "package_name"; message := "package_name is required" |} ]
      else if negb (JsString.packagePattern (package_name jsonData)) then
        [ {| field := "package_name";
             message := "package_name must be a valid Java package name (e.g., com.example.app)" |} ]
      else [])
  ++ (match screens jsonData with
      | [] => [ {| field := "screens"; message := "At least one screen is required" |} ]
      | l => validateScreens l 0
      end).

Record ProjectData := {
  project_name : string;
  description : string;
  json_data : JsonData
}.

(** [validateProjectForm] with all three fields present. *)
Definition validateProjectForm (data : ProjectData) : ValidationResult :=
  result
    ((if missing (project_name data) then
        [ {| field := "name"; message := "Project name is required" |} ]
      else if JsString.length (project_name data) <? 3 then
        [ {| field := "name"; message := "Project name must be at least 3 characters" |} ]
      else if 100 <? JsString.length (project_name data) then
        [ {| field := "name"; message := "Project name must be less than 100 characters" |} ]
      else [])
     ++ (if negb (bool_decide (description data = ""))
            && (500 <? JsString.length (description data)) then
           [ {| field := "description";
                message := "Description must be less than 500 characters" |} ]
         else [])
     ++ validateJsonData (json_data data)).

End Validation.


(** ** The page handlers of the enhanced builder page *)

Module EnhancedPages.
Import VisualBuilderEnhanced.

(** [Page] of the page manager: a page without its components. *)
Record Page := {
  id : string;
  name : string;
  route : string;
  is_home : bool
}.

(** The double quote of the notices. *)
Definition quote : string := String (Ascii.ascii_of_nat 34) EmptyString.

Definition handleAddPage (st : State) (page : Page) (stamp : string) : outcome State :=
  match createDefaultComponent "Scaffold" stamp with
  | Threw m => Threw m
  | Returned scaffold =>
      Returned
        {| pages :=
             pages st
             ++ [ {| page_id := id page; page_name := name page;
                     VisualBuilderEnhanced.route := route page;
                     VisualBuilderEnhanced.is_home := is_home page;
                     components := [scaffold] |} ];
           currentPageId := id page;
           selectedComponentId := selectedComponentId st;
           toasts :=
             toasts st
             ++ [ToastSuccess ("Page " +:+ quote +:+ name page +:+ quote +:+ " created")] |}
  end.

(** [Partial<Page>]: the fields an update carries. *)
Record PageUpdates := {
  new_id : option string;
  new_name : option string;
  new_route : option string;
  new_is_home : option bool
}.

(** [{ ...p, ...updates }] *)
Definition withUpdates (p : PageData) (updates : PageUpdates) : PageData :=
  {| page_id := default (page_id p) (new_id updates);
     page_name := default (page_name p) (new_name updates);
     VisualBuilderEnhanced.route := default (VisualBuilderEnhanced.route p) (new_route updates);
     VisualBuilderEnhanced.is_home :=
       default (VisualBuilderEnhanced.is_home p) (new_is_home updates);
     components := components p |}.

Definition handleUpdatePage (st : State) (i : string) (updates : PageUpdates) : State :=
  {| pages :=
       map (fun p => if decide (page_id p = i) then withUpdates p updates else p) (pages st);
     currentPageId := currentPageId st;
     selectedComponentId := selectedComponentId st;
     toasts := toasts st ++ [ToastSuccess "Page updated"] |}.

(** The part of [Project] the page reads. *)
Record Project := {
  project_name : string;
  project_description : string
}.

(** [value || fallback] on strings. *)
Definition orElse (value : option string) (fallback : string) : string :=
  match value with
  | None | Some "" => fallback
  | Some s => s
  end.

Definition screenOfPage (page : PageData) : Validation.Screen :=
  {| Validation.id := page_id page;
     Validation.name := page_name page;
     Validation.route := VisualBuilderEnhanced.route page;
     Validation.is_home := VisualBuilderEnhanced.is_home page;
     Validation.components := components page |}.

(** [projectData] of [handleSaveProject]; [app_name] is
    [(project?.name || 'my_app').toLowerCase().replace(/\s+/g, '_')],
    computed by the caller. *)
Definition projectData (project : option Project) (app_name : string) (st : State)
    : Validation.ProjectData :=
  {| Validation.project_name := orElse (project_name <$> project) "Untitled Project";
     Validation.description := orElse (project_description <$> project) "";
     Validation.json_data :=
       {| Validation.app_name := app_name;
          Validation.package_name := "com.example.app";
          Validation.screens := map screenOfPage (pages st) |} |}.

(** [handleSaveProject] up to the request: either the validation
    messages, with the notice, or the data sent to the service. *)
Definition handleSaveProject (project : option Project) (app_name : string) (st : State)
    : (State * list string) + Validation.ProjectData :=
  let data := projectData project app_name st in
  let validation := Validation.validateProjectForm data in
  if negb (Validation.isValid validation) then
    inl (notify st (ToastError "Please fix validation errors"),
         map Validation.message (Validation.errors validation))
  else inr data.

End EnhancedPages.

(** ** The page manager ([PageManager]) *)

Module PageManager.
Import VisualBuilderEnhanced.

Record Form := {
  isAddDialogOpen : bool;
  isEditDialogOpen : bool;
  editingPageId : option string;
  pageName : string;
  pageRoute : string;
  isHome : bool;
  errors : gmap string string
}.

Definition resetForm (f : Form) : Form :=
  {| isAddDialogOpen := isAddDialogOpen f;
     isEditDialogOpen := isEditDialogOpen f;
     editingPageId := editingPageId f;
     pageName := ""; pageRoute := ""; isHome := false; errors := ∅ |}.

Definition withErrors (f : Form) (newErrors : gmap string string) : Form :=
  {| isAddDialogOpen := isAddDialogOpen f;
     isEditDialogOpen := isEditDialogOpen f;
     editingPageId := editingPageId f;
     pageName := pageName f; pageRoute := pageRoute f; isHome := isHome f;
     errors := newErrors |}.

(** [if (!v.isValid) v.errors.forEach((err) => newErrors[err.field] = err.message)] *)
Definition collect (newErrors : gmap string string) (v : Validation.ValidationResult)
    : gmap string string :=
  if Validation.isValid v then newErrors
  else
    foldl (fun acc err => <[Validation.field err := Validation.message err]> acc)
      newErrors (Validation.errors v).

(** [handleAddPage]: the new form state and the page handed to
    [onAddPage], if any.  [now] is [Date.now()]. *)
Definition handleAddPage (f : Form) (pages : list PageData) (now : N)
    : Form * option EnhancedPages.Page :=
  let newErrors :=
    collect (collect ∅ (Validation.validatePageName (pageName f)))
      (Validation.validateRoute (pageRoute f) (map route pages)) in
  if decide (newErrors = ∅) then
    ({| isAddDialogOpen := false;
        isEditDialogOpen := isEditDialogOpen f;
        editingPageId := editingPageId f;
        pageName := ""; pageRoute := ""; isHome := false; errors := ∅ |},
     Some {| EnhancedPages.id := "page_" +:+ pretty now;
             EnhancedPages.name := pageName f;
             EnhancedPages.route := pageRoute f;
             EnhancedPages.is_home := isHome f |})
  else (withErrors f newErrors, None).

(** [handleEditPage]: the new form state and the arguments of
    [onUpdatePage], if it is called. *)
Definition handleEditPage (f : Form) (pages : list PageData)
    : Form * option (string * EnhancedPages.PageUpdates) :=
  match editingPageId f with
  | None | Some "" => (f, None)
  | Some editing =>
      let existingRoutes :=
        map route (filter (fun p => page_id p ≠ editing) pages) in
      let newErrors :=
        collect (collect ∅ (Validation.validatePageName (pageName f)))
          (Validation.validateRoute (pageRoute f) existingRoutes) in
      if decide (newErrors = ∅) then
        ({| isAddDialogOpen := isAddDialogOpen f;
            isEditDialogOpen := false;
            editingPageId := None;
            pageName := ""; pageRoute := ""; isHome := false; errors := ∅ |},
         Some (editing,
               {| EnhancedPages.new_id := None;
                  EnhancedPages.new_name := Some (pageName f);
                  EnhancedPages.new_route := Some (pageRoute f);
                  EnhancedPages.new_is_home := Some (isHome f) |}))
      else (withErrors f newErrors, None)
  end.

Definition handleOpenEditDialog (f : Form) (page : PageData) : Form :=
  {| isAddDialogOpen := isAddDialogOpen f;
     isEditDialogOpen := true;
     editingPageId := Some (page_id page);
     pageName := page_name page;
     pageRoute := route page;
     isHome := is_home page;
     errors := ∅ |}.

End PageManager.

(** ** The property editor ([PropertyEditor]) *)

Module PropertyEditor.

(** [handlePropChange]: the map handed to [onUpdateProps],
    [{ ...component.props, [propName]: value }]. *)
Definition handlePropChange (component : ComponentNode) (propName : string) (value : json)
    : gmap string json :=
  <[propName := value]> (props component).

(** [displayValue] of [PropertyInput]:
    [value !== undefined ? value : prop.defaultValue ?? '']. *)
Definition displayValue (value : option json) (descriptor : WidgetProp) : json :=
  match value with
  | Some v => v
  | None =>
      match defaultValue descriptor with
      | None | Some JNull => JStr ""
      | Some d => d
      end
  end.

(** [a || b] *)
Definition orElse (a b : json) : json := if Document.truthy a then a else b.

(** The form controls of [PropertyInput], each with the value it is
    given. *)
Inductive Control : Type :=
| TextInput (value : json)
| NumberInput (value : json)
| Checkbox (checked : json)
| ColorInput (value : json)
| Select (value : json) (items : list string).

(** [PropertyInput]: the controls rendered for one descriptor, by its
    type.  A colour gets a picker and a text field; the [default] branch of
    the [switch] renders nothing. *)
Definition PropertyInput (descriptor : WidgetProp) (value : option json) : list Control :=
  let shown := displayValue value descriptor in
  match prop_type descriptor with
  | TString => [TextInput shown]
  | TNumber => [NumberInput shown]
  | TBoolean => [Checkbox (orElse shown (JBool false))]
  | TColor => [ColorInput (orElse shown (JStr "#000000")); TextInput shown]
  | TEnum => [Select shown (default [] (options descriptor))]
  | TObject => []
  end.

(** What the editor shows for a component: nothing without a registered
    definition, otherwise for every descriptor, under its name, the controls
    of [PropertyInput] on [component.props[prop.name]]. *)
Definition inputs (component : ComponentNode)
    : option (list (string * list Control)) :=
  match getWidgetDefinition (type component) with
  | None => None
  | Some definition =>
      Some (map (fun descriptor =>
                   (prop_name descriptor,
                    PropertyInput descriptor (props component !! prop_name descriptor)))
              (def_props definition))
  end.

End PropertyEditor.

(** ** The component tree panel ([EnhancedComponentTree]) *)

Module EnhancedComponentTree.

(** [canHaveChildren] of [TreeNode]: whether the add-child button is
    shown. *)
Definition canHaveChildren (component : ComponentNode) : bool :=
  negb (bool_decide (type component ∈ ["Text"; "Button"; "TextField"; "Icon"; "Image"])).

(** The kind the add-child button asks for. *)
Definition buttonChildType : string := "Container".

(** [WIDGET_TYPES.slice(0, 8)]: the kinds of the add-child menu. *)
Definition menuChildTypes : list string := take 8 WIDGET_TYPES.

End EnhancedComponentTree.

(** ** The palette ([ComponentPalette]) *)

Module ComponentPalette.

Definition WIDGET_CATEGORIES : list (Category * string) :=
  [ (Layout, "Layout"); (Content, "Content"); (Input, "Input") ].

Definition sameCategory (a b : Category) : bool :=
  match a, b with
  | Layout, Layout | Content, Content | Input, Input => true
  | _, _ => false
  end.

(** [categories]: per category its label and
    [Object.values(FLUTTER_WIDGETS).filter((w) => w.category === key)]. *)
Definition categories : list (Category * (string * list WidgetDefinition)) :=
  map (fun entry =>
         (entry.1,
          (entry.2,
           List.filter (fun w => sameCategory (category w) entry.1)
             (map snd FLUTTER_WIDGETS))))
    WIDGET_CATEGORIES.

End ComponentPalette.

(** ** The canvas ([CanvasRenderer]) *)

Module CanvasRenderer.

(** The [switch] compares with [===]: only a string can match. *)
Definition getFlexJustify (alignment : option json) : string :=
  match alignment with
  | Some (JStr "start") => "flex-start"
  | Some (JStr "end") => "flex-end"
  | Some (JStr "center") => "center"
  | Some (JStr "spaceBetween") => "space-between"
  | Some (JStr "spaceAround") => "space-around"
  | Some (JStr "spaceEvenly") => "space-evenly"
  | _ => "flex-start"
  end.

Definition getFlexAlign (alignment : option json) : string :=
  match alignment with
  | Some (JStr "start") => "flex-start"
  | Some (JStr "end") => "flex-end"
  | Some (JStr "center") => "center"
  | Some (JStr "stretch") => "stretch"
  | Some (JStr "baseline") => "baseline"
  | _ => "center"
  end.

End CanvasRenderer.

(** ** The document of the builder page of [VisualBuilder.tsx] *)

Module VisualBuilderDocument.

(** The value [handleExportJSON] and [handleSaveProject] build: one
    screen, always the home screen. *)
Definition exportDocument (app_name : string) (components : list ComponentNode) : json :=
  JObj [ ("app_name", JStr app_name);
         ("package_name", JStr "com.example.app");
         ("screens",
          JArr [ JObj [ ("id", JStr "home");
                        ("name", JStr "Home");
                        ("route", JStr "/");
                        ("is_home", JBool true);
                        ("components", JArr (map Document.nodeToJson components)) ] ]) ].

Definition handleExportJSON (app_name : string) (st : VisualBuilder.State) : json :=
  exportDocument app_name (VisualBuilder.components st).

(** [value[0]].  The first unit of a non-empty string is a non-empty
    string again, which has no fields: which unit it is makes no difference
    to [loadProject]. *)
Definition first (value : json) : option json :=
  match value with
  | JArr (x :: _) => Some x
  | JStr (String c _) => Some (JStr (String c EmptyString))
  | JObj fields => assoc "0" fields
  | _ => None
  end.

Definition truthyField (k : string) (value : json) : option json :=
  match Document.field k value with
  | Some v => if Document.truthy v then Some v else None
  | None => None
  end.

(** The part of [loadProject] after the request, [json_data] being the
    stored document: only the components of the first screen are read.
    Reading [screens] of [null] throws, and the [catch] reports it (the page
    then leaves for [/], which is no part of the state).  [None] is a value
    that is not typed as a list of nodes. *)
Definition loadProject (st : VisualBuilder.State) (json_data : json)
    : option VisualBuilder.State :=
  match json_data with
  | JNull =>
      Some {| VisualBuilder.components := VisualBuilder.components st;
              VisualBuilder.selectedId := VisualBuilder.selectedId st;
              VisualBuilder.toasts :=
                VisualBuilder.toasts st ++ [ToastError "Failed to load project"] |}
  | _ =>
      match truthyField "screens" json_data with
      | None => Some st
      | Some screens =>
          match first screens with
          | None => Some st
          | Some screen =>
              if Document.truthy screen then
                match truthyField "components" screen with
                | None => Some st
                | Some components =>
                    nodes ← Document.asArray components ≫= Document.nodesOfJson;
                    Some {| VisualBuilder.components := nodes;
                            VisualBuilder.selectedId := VisualBuilder.selectedId st;
                            VisualBuilder.toasts := VisualBuilder.toasts st |}
                end
              else Some st
          end
      end
  end.

End VisualBuilderDocument.


(** ** Predicates of the statements about the registry *)

(** A property descriptor is consistent: it lists options exactly when it
    is an [enum], and its default value, when it has one, has the declared
    type (for an [enum], it is one of the options). *)
Definition descriptorOk (p : WidgetProp) : Prop :=
  (is_Some (options p) <-> prop_type p = TEnum)
  /\ match defaultValue p with
     | None => True
     | Some v =>
         match prop_type p with
         | TString | TColor => exists s, v = JStr s
         | TNumber => exists z, v = JNum z
         | TBoolean => exists b, v = JBool b
         | TEnum => exists s opts, v = JStr s /\ options p = Some opts /\ In s opts
         | TObject => True
         end
     end.

(** Goes through the entries of the registry, for a hypothesis
    [getWidgetDefinition k = Some d] at the head of the goal. *)
Ltac each_kind :=
  unfold getWidgetDefinition, FLUTTER_WIDGETS; cbn [assoc];
  repeat (case_decide; [intros [= <-]; subst |]);
  [ .. | discriminate ].

(** Membership in a list that is written out. *)
Ltac in_list := cbn; repeat first [left; reflexivity | right].

(** ** Predicates of the statements about pages *)

(** A page passes the screen checks of the document. *)
Definition savable (p : VisualBuilderEnhanced.PageData) : Prop :=
  JsString.identifierPattern (VisualBuilderEnhanced.page_id p) = true
  /\ VisualBuilderEnhanced.page_name p <> ""
  /\ JsString.startsWithSlash (VisualBuilderEnhanced.route p) = true
  /\ VisualBuilderEnhanced.components p <> [].

(** A form of the page dialogs, as a concrete input. *)
Definition sampleForm : PageManager.Form :=
  {| PageManager.isAddDialogOpen := true;
     PageManager.isEditDialogOpen := false;
     PageManager.editingPageId := None;
     PageManager.pageName := "Profile";
     PageManager.pageRoute := "/profile";
     PageManager.isHome := false;
     PageManager.errors := ∅ |}.

(** * Properties *)

(** ** The registry and the containment check *)

Lemma registry_keys_are_ids (k : string) (d : WidgetDefinition) :
  getWidgetDefinition k = Some d -> def_id d = k.
Proof.
  unfold getWidgetDefinition, FLUTTER_WIDGETS. cbn [assoc].
  repeat (case_decide; [intros [= <-]; subst k; reflexivity |]).
  discriminate.
Qed.

Lemma registry_declares_no_defaultProps (k : string) (d : WidgetDefinition) :
  getWidgetDefinition k = Some d -> defaultProps d = None.
Proof.
  unfold getWidgetDefinition, FLUTTER_WIDGETS. cbn [assoc].
  repeat (case_decide; [intros [= <-]; reflexivity |]).
  discriminate.
Qed.

(** C1, as stated, fails at the scrollable list: [ListView] is declared
    with [canHaveChildren = false] and [canContainWidget] accepts any child
    under it. *)
Lemma C1_counterexample_ListView :
  exists d, getWidgetDefinition "ListView" = Some d
            /\ canHaveChildren d = false
            /\ canContainWidget "ListView" "Text" = true.
Proof. eexists. repeat split; reflexivity. Qed.

(** C1 (amended): for every registered widget kind [K] other than
    [ListView] whose definition has [canHaveChildren = false], and every child
    kind [C], [canContainWidget K C] is [false]; under [ListView] every child
    kind is accepted. *)
Theorem C1_leaf_kinds_contain_nothing (K C : string) (d : WidgetDefinition) :
  getWidgetDefinition K = Some d ->
  canHaveChildren d = false ->
  K <> "ListView" ->
  canContainWidget K C = false /\ canContainWidget "ListView" C = true.
Proof.
  intros Hdef Hleaf Hlist. split; [| reflexivity].
  unfold canContainWidget. rewrite Hdef.
  destruct (decide (K = "ListView")) as [|_]; [contradiction |].
  destruct (decide (K = "AppBar")); [reflexivity | exact Hleaf].
Qed.

Lemma C1_leaf_kinds_contain_nothing_witness :
  canContainWidget "Text" "Button" = false /\ canContainWidget "ListView" "Button" = true.
Proof.
  apply (C1_leaf_kinds_contain_nothing "Text" "Button"
           (widget "Text" "Text" Content false
              [ prop "text" TString "Text" (Some (JStr "Hello World"));
                prop "fontSize" TNumber "Font Size" (Some (JNum 14));
                prop "color" TColor "Color" (Some (JStr "#000000"));
                enumProp "fontWeight" "Font Weight" "normal" ["normal"; "bold"];
                enumProp "alignment" "Alignment" "left"
                  ["left"; "right"; "center"; "justify"; "start"; "end"] ])).
  - reflexivity.
  - reflexivity.
  - discriminate.
Defined.

(** ** The default-instance factory *)

(** C4, as stated, fails at [Text]: the descriptor of [text] declares the
    default "Hello World", and the freshly created node has no [text]
    property at all. *)
Lemma C4_counterexample_Text :
  exists d n,
    getWidgetDefinition "Text" = Some d
    /\ declaredDefaults d !! "text" = Some (JStr "Hello World")
    /\ createDefaultComponent "Text" "1700000000000-k3j9x1q0z" = Returned n
    /\ props n !! "text" = None.
Proof. do 2 eexists. repeat split; vm_compute; reflexivity. Qed.

(** C4 (amended): for every registered widget kind,
    [createDefaultComponent] returns a node of that kind whose identifier
    starts with the kind, whose children list is empty, and whose props are
    the definition's [defaultProps] record when it has one and the empty map
    otherwise; no registered kind has one, so the props map of every fresh
    node is empty. *)
Theorem C4_default_component (kind stamp : string) (d : WidgetDefinition) :
  getWidgetDefinition kind = Some d ->
  exists n,
    createDefaultComponent kind stamp = Returned n
    /\ id n = kind +:+ "-" +:+ stamp
    /\ type n = kind
    /\ children n = []
    /\ props n = default ∅ (defaultProps d)
    /\ props n = ∅.
Proof.
  intros Hdef. unfold createDefaultComponent. rewrite Hdef.
  eexists. repeat split.
  cbn. rewrite (registry_declares_no_defaultProps kind d Hdef). reflexivity.
Qed.

Lemma C4_default_component_witness :
  exists n,
    createDefaultComponent "Text" "1" = Returned n
    /\ id n = "Text-1" /\ type n = "Text" /\ children n = []
    /\ props n = ∅.
Proof.
  destruct (C4_default_component "Text" "1"
              (widget "Text" "Text" Content false
                 [ prop "text" TString "Text" (Some (JStr "Hello World"));
                   prop "fontSize" TNumber "Font Size" (Some (JNum 14));
                   prop "color" TColor "Color" (Some (JStr "#000000"));
                   enumProp "fontWeight" "Font Weight" "normal" ["normal"; "bold"];
                   enumProp "alignment" "Alignment" "left"
                     ["left"; "right"; "center"; "justify"; "start"; "end"] ])
              eq_refl) as (n & Hn & Hi & Ht & Hc & _ & Hp).
  exists n. repeat split; assumption.
Defined.

(** ** Lookups, updates and deletions in a tree *)

Lemma firstFound_None {A B : Type} (f : A -> option B) (l : list A) :
  (forall x, In x l -> f x = None) -> firstFound f l = None.
Proof.
  induction l as [|x r IH]; intros Hall; [reflexivity |].
  cbn. rewrite (Hall x (or_introl eq_refl)). apply IH.
  intros y Hy. apply Hall. right. exact Hy.
Qed.

Lemma findComponentById_absent (t : ComponentNode) (i : string) :
  ~ In i (ids t) -> findComponentById t i = None.
Proof.
  induction t as [ci ty p cs IH] using ComponentNode_forall_ind.
  cbn [ids findComponentById]. intros Hnot.
  destruct (decide (ci = i)) as [->|_]; [exfalso; apply Hnot; left; reflexivity |].
  apply firstFound_None. intros x Hx.
  rewrite Forall_forall in IH. apply IH; [apply list_elem_of_In; exact Hx |].
  intros Hin. apply Hnot. right. apply in_flat_map. exists x. split; assumption.
Qed.

Lemma findComponentById_id (t n : ComponentNode) (i : string) :
  findComponentById t i = Some n -> id n = i.
Proof.
  revert n. induction t as [ci ty p cs IH] using ComponentNode_forall_ind.
  intros n. cbn [findComponentById].
  destruct (decide (ci = i)) as [->|_]; [intros [= <-]; reflexivity |].
  induction IH as [|x r Hx _ IHr]; cbn; [discriminate |].
  destruct (findComponentById x i) as [found|] eqn:Hfound.
  - intros [= <-]. apply Hx. reflexivity.
  - exact IHr.
Qed.

Lemma findComponentById_present (t : ComponentNode) (i : string) :
  In i (ids t) -> exists n, findComponentById t i = Some n.
Proof.
  destruct (findComponentById t i) as [n|] eqn:Hfind; [intros _; exists n; reflexivity |].
  intros Hin. exfalso. revert Hin Hfind.
  induction t as [ci ty p cs IH] using ComponentNode_forall_ind.
  cbn [ids findComponentById]. intros [->|Hin].
  - destruct (decide (i = i)); [discriminate | contradiction].
  - destruct (decide (ci = i)); [discriminate |].
    apply in_flat_map in Hin. destruct Hin as (x & Hx & Hix).
    induction IH as [|y r Hy _ IHr]; [destruct Hx |].
    cbn. destruct (findComponentById y i) eqn:Hy'; [discriminate |].
    destruct Hx as [->|Hx]; [intros _; exact (Hy Hix eq_refl) | exact (IHr Hx)].
Qed.

Lemma updateComponentRecursive_absent (t : ComponentNode) (i : string)
    (updater : ComponentNode -> ComponentNode) :
  ~ In i (ids t) -> updateComponentRecursive t i updater = t.
Proof.
  induction t as [ci ty p cs IH] using ComponentNode_forall_ind.
  cbn [ids updateComponentRecursive]. intros Hnot.
  destruct (decide (ci = i)) as [->|_]; [exfalso; apply Hnot; left; reflexivity |].
  f_equal. rewrite <- (map_id cs) at 2. apply map_ext_in. intros x Hx.
  rewrite Forall_forall in IH. apply IH; [apply list_elem_of_In; exact Hx |].
  intros Hin. apply Hnot. right. apply in_flat_map. exists x. split; assumption.
Qed.

Lemma updateComponentInTree_absent (T : list ComponentNode) (i : string)
    (updater : ComponentNode -> ComponentNode) :
  ~ In i (forestIds T) -> updateComponentInTree T i updater = T.
Proof.
  intros Hnot. unfold updateComponentInTree.
  rewrite <- (map_id T) at 2. apply map_ext_in. intros x Hx.
  apply updateComponentRecursive_absent.
  intros Hin. apply Hnot. apply in_flat_map. exists x. split; assumption.
Qed.

Lemma filterNonNull_map_Some {A : Type} (f : A -> option A) (l : list A) :
  (forall x, In x l -> f x = Some x) -> filterNonNull (map f l) = l.
Proof.
  induction l as [|x r IH]; intros Hall; [reflexivity |].
  cbn. rewrite (Hall x (or_introl eq_refl)). f_equal. apply IH.
  intros y Hy. apply Hall. right. exact Hy.
Qed.

Lemma deleteComponentRecursive_absent (t : ComponentNode) (i : string) :
  ~ In i (ids t) -> deleteComponentRecursive t i = Some t.
Proof.
  induction t as [ci ty p cs IH] using ComponentNode_forall_ind.
  cbn [ids deleteComponentRecursive]. intros Hnot.
  destruct (decide (ci = i)) as [->|_]; [exfalso; apply Hnot; left; reflexivity |].
  do 2 f_equal. apply filterNonNull_map_Some. intros x Hx.
  rewrite Forall_forall in IH. apply IH; [apply list_elem_of_In; exact Hx |].
  intros Hin. apply Hnot. right. apply in_flat_map. exists x. split; assumption.
Qed.

Lemma deleteComponentFromTree_absent (T : list ComponentNode) (i : string) :
  ~ In i (forestIds T) -> deleteComponentFromTree T i = T.
Proof.
  intros Hnot. unfold deleteComponentFromTree.
  apply filterNonNull_map_Some. intros x Hx.
  apply deleteComponentRecursive_absent.
  intros Hin. apply Hnot. apply in_flat_map. exists x. split; assumption.
Qed.

(** What [updateComponentRecursive] does to the first match, seen through
    the search, for a list of trees that already have the property. *)
Lemma firstFound_update_list (cs : list ComponentNode) (i : string)
    (P : gmap string json) :
  Forall (fun t => forall n, findComponentById t i = Some n ->
            findComponentById (updateComponentRecursive t i (withProps P)) i
            = Some (withProps P n)) cs ->
  forall n,
    firstFound (fun c => findComponentById c i) cs = Some n ->
    firstFound (fun c => findComponentById c i)
      (map (fun c => updateComponentRecursive c i (withProps P)) cs)
    = Some (withProps P n).
Proof.
  induction 1 as [|x r Hx _ IHr]; intros n; cbn; [discriminate |].
  destruct (findComponentById x i) as [found|] eqn:Hfound.
  - intros [= <-]. rewrite (Hx found eq_refl). reflexivity.
  - intros Hrest.
    assert (Hnot : ~ In i (ids x)).
    { intros Hin. destruct (findComponentById_present x i Hin) as [m Hm]. congruence. }
    rewrite (updateComponentRecursive_absent x i _ Hnot), Hfound.
    apply IHr. exact Hrest.
Qed.

Lemma findComponentById_update (t : ComponentNode) (i : string)
    (P : gmap string json) (n : ComponentNode) :
  findComponentById t i = Some n ->
  findComponentById (updateComponentRecursive t i (withProps P)) i
  = Some (withProps P n).
Proof.
  revert n. induction t as [ci ty p cs IH] using ComponentNode_forall_ind.
  intros n. cbn [findComponentById updateComponentRecursive].
  destruct (decide (ci = i)) as [->|Hne].
  - intros [= <-]. cbn. destruct (decide (i = i)); [reflexivity | contradiction].
  - intros Hfind. cbn [findComponentById].
    destruct (decide (ci = i)); [contradiction |].
    apply firstFound_update_list; assumption.
Qed.

Lemma deleteComponentRecursive_removes (t t' : ComponentNode) (i : string) :
  deleteComponentRecursive t i = Some t' -> ~ In i (ids t').
Proof.
  revert t'. induction t as [ci ty p cs IH] using ComponentNode_forall_ind.
  intros t'. cbn [deleteComponentRecursive].
  destruct (decide (ci = i)) as [|Hne]; [discriminate |].
  intros [= <-]. cbn [ids]. intros [Heq|Hin]; [contradiction |].
  apply in_flat_map in Hin. destruct Hin as (x & Hx & Hix).
  induction IH as [|y r Hy _ IHr]; [destruct Hx |].
  cbn in Hx. destruct (deleteComponentRecursive y i) as [y'|] eqn:Hdel.
  - destruct Hx as [<-|Hx]; [exact (Hy y' eq_refl Hix) | exact (IHr Hx)].
  - exact (IHr Hx).
Qed.

Lemma deleteComponentFromTree_removes (T : list ComponentNode) (i : string) :
  ~ In i (forestIds (deleteComponentFromTree T i)).
Proof.
  unfold deleteComponentFromTree, forestIds. intros Hin.
  apply in_flat_map in Hin. destruct Hin as (x & Hx & Hix).
  induction T as [|y r IHr]; [destruct Hx |].
  cbn in Hx. destruct (deleteComponentRecursive y i) as [y'|] eqn:Hdel.
  - destruct Hx as [<-|Hx]; [exact (deleteComponentRecursive_removes y y' i Hdel Hix) | exact (IHr Hx)].
  - exact (IHr Hx).
Qed.

(** C5, as stated, fails: with an identifier that is nowhere in the tree
    the update returns the roots it was given. *)
Lemma C5_counterexample_silent_update :
  ~ In "Icon-9" (forestIds [sampleScaffold])
  /\ updateComponentInTree [sampleScaffold] "Icon-9" (withProps {[ "size" := JNum 32 ]})
     = [sampleScaffold].
Proof.
  split; [| reflexivity].
  cbn. intros [H|[H|[]]]; discriminate.
Qed.

(** C5 (amended): for every root list [T] and identifier that resolves to
    no node of [T], [updateComponentInTree] reports nothing and returns a
    root list structurally equal to [T]; so does the handler, whose state
    is unchanged. *)
Theorem C5_update_of_missing_id_is_silent (T : list ComponentNode) (i : string)
    (P : gmap string json) (tl : list toast) :
  ~ In i (forestIds T) ->
  updateComponentInTree T i (withProps P) = T
  /\ VisualBuilder.handleUpdateProps
       {| VisualBuilder.components := T;
          VisualBuilder.selectedId := Some i;
          VisualBuilder.toasts := tl |} P
     = {| VisualBuilder.components := T;
          VisualBuilder.selectedId := Some i;
          VisualBuilder.toasts := tl |}.
Proof.
  intros Hnot. split; [apply updateComponentInTree_absent; exact Hnot |].
  destruct i as [|a s]; [reflexivity |].
  unfold VisualBuilder.handleUpdateProps.
  cbn [VisualBuilder.selectedId VisualBuilder.components VisualBuilder.toasts].
  rewrite (updateComponentInTree_absent T _ _ Hnot). reflexivity.
Qed.

Lemma C5_update_of_missing_id_is_silent_witness :
  updateComponentInTree [sampleScaffold; sampleButton] "Icon-9" (withProps ∅)
  = [sampleScaffold; sampleButton].
Proof.
  apply (C5_update_of_missing_id_is_silent [sampleScaffold; sampleButton] "Icon-9" ∅ []).
  cbn. intros [H|[H|[H|[]]]]; discriminate.
Defined.

(** C6: in a tree that contains a node with identifier [i], looking [i]
    up after [updateComponentRecursive] with the updater of
    [handleUpdateProps] finds a node whose props map is exactly the new map
    [P]: nothing of the old map survives, a key absent from [P] is absent
    from the node. *)
Theorem C6_lookup_after_update (t : ComponentNode) (i : string) (P : gmap string json) :
  In i (ids t) ->
  exists n,
    findComponentById (updateComponentRecursive t i (withProps P)) i = Some n
    /\ props n = P
    /\ (forall k, P !! k = None -> props n !! k = None).
Proof.
  intros Hin. destruct (findComponentById_present t i Hin) as [old Hold].
  exists (withProps P old). split; [apply findComponentById_update; exact Hold |].
  split; [reflexivity | intros k Hk; exact Hk].
Qed.

Lemma C6_lookup_after_update_witness :
  exists n,
    findComponentById
      (updateComponentRecursive sampleScaffold "Text-1" (withProps {[ "text" := JStr "Bye" ]}))
      "Text-1" = Some n
    /\ props n = {[ "text" := JStr "Bye" ]}
    /\ props n !! "color" = None.
Proof.
  destruct (C6_lookup_after_update sampleScaffold "Text-1" {[ "text" := JStr "Bye" ]})
    as (n & Hfind & Hprops & Hgone).
  - cbn. right. left. reflexivity.
  - exists n. split; [exact Hfind |]. split; [exact Hprops |].
    apply Hgone. reflexivity.
Defined.

(** C7: for every root list [T] and identifier that appears nowhere in
    [T], [deleteComponentFromTree] returns a root list equal to [T]. *)
Theorem C7_delete_of_missing_id_is_identity (T : list ComponentNode) (i : string) :
  ~ In i (forestIds T) -> deleteComponentFromTree T i = T.
Proof. apply deleteComponentFromTree_absent. Qed.

Lemma C7_delete_of_missing_id_is_identity_witness :
  deleteComponentFromTree [sampleScaffold; sampleButton] "Icon-9"
  = [sampleScaffold; sampleButton].
Proof.
  apply (C7_delete_of_missing_id_is_identity [sampleScaffold; sampleButton] "Icon-9").
  cbn. intros [H|[H|[H|[]]]]; discriminate.
Defined.

(** ** The selected component *)

(** C10: with pairwise distinct identifiers, a node that sits in a root
    after the first is not found by the selected-component lookup of either
    builder page (the result is [null]), although [updateComponentInTree]
    reaches and rewrites it and [deleteComponentFromTree] removes it. *)
Theorem C10_selection_sees_first_root_only (first : ComponentNode)
    (rest : list ComponentNode) (i : string) (P : gmap string json) :
  NoDup (forestIds (first :: rest)) ->
  In i (forestIds rest) ->
  VisualBuilder.selectedComponent
    {| VisualBuilder.components := first :: rest;
       VisualBuilder.selectedId := Some i;
       VisualBuilder.toasts := [] |} = None
  /\ (forall st page,
        currentPage st = Some page ->
        components page = first :: rest ->
        selectedComponentId st = Some i ->
        selectedComponent st = Returned None)
  /\ (exists n,
        firstFound (fun root => findComponentById root i)
          (updateComponentInTree (first :: rest) i (withProps P)) = Some n
        /\ props n = P)
  /\ In i (forestIds (first :: rest))
  /\ ~ In i (forestIds (deleteComponentFromTree (first :: rest) i)).
Proof.
  intros Hnd Hin.
  assert (Hfirst : ~ In i (ids first)).
  { change (forestIds (first :: rest)) with (ids first ++ forestIds rest) in Hnd.
    apply NoDup_app in Hnd. destruct Hnd as (_ & Hdisj & _).
    intros H1. apply (Hdisj i); apply list_elem_of_In; assumption. }
  assert (Hnone : findComponentById first i = None)
    by (apply findComponentById_absent; exact Hfirst).
  split; [exact Hnone |].
  split.
  { intros st page Hpage Hroots Hsel. unfold selectedComponent.
    rewrite Hpage, Hroots, Hsel. cbn. rewrite Hnone. reflexivity. }
  split.
  { assert (Hsome : exists old, firstFound (fun root => findComponentById root i) rest = Some old).
    { clear Hnd. unfold forestIds in Hin. apply in_flat_map in Hin.
      destruct Hin as (x & Hx & Hix).
      induction rest as [|y r IHr]; [destruct Hx |].
      cbn. destruct (findComponentById y i) as [found|] eqn:Hy; [eauto |].
      destruct Hx as [->|Hx]; [| exact (IHr Hx)].
      destruct (findComponentById_present x i Hix) as [m Hm]. congruence. }
    destruct Hsome as [old Hold].
    exists (withProps P old). split; [| reflexivity].
    unfold updateComponentInTree.
    apply firstFound_update_list.
    - apply Forall_forall. intros t _ n. apply findComponentById_update.
    - cbn. rewrite Hnone. exact Hold. }
  split.
  { change (forestIds (first :: rest)) with (ids first ++ forestIds rest).
    apply in_or_app. right. exact Hin. }
  apply deleteComponentFromTree_removes.
Qed.

Lemma C10_selection_sees_first_root_only_witness :
  VisualBuilder.selectedComponent
    {| VisualBuilder.components := [sampleScaffold; sampleButton];
       VisualBuilder.selectedId := Some "Button-2";
       VisualBuilder.toasts := [] |} = None
  /\ selectedComponent twoRootState = Returned None.
Proof.
  destruct (C10_selection_sees_first_root_only sampleScaffold [sampleButton] "Button-2" ∅)
    as (Hbasic & Henhanced & _).
  - apply (bool_decide_unpack _). vm_compute. exact I.
  - cbn. left. reflexivity.
  - split; [exact Hbasic |].
    apply (Henhanced twoRootState
             {| page_id := "page_1"; page_name := "Home"; route := "/";
                is_home := true; components := [sampleScaffold; sampleButton] |});
      reflexivity.
Defined.

(** ** Pages *)

Lemma filter_keeps_a_page (ps : list PageData) (i : string) :
  NoDup (map page_id ps) -> 2 <= length ps ->
  filter (fun p => page_id p ≠ i) ps ≠ [].
Proof.
  destruct ps as [|a [|b r]]; [cbn; lia | cbn; lia |]. intros Hnd _.
  cbn [map] in Hnd. apply NoDup_cons in Hnd. destruct Hnd as [Hab _].
  rewrite filter_cons. destruct (decide (page_id a ≠ i)) as [|Ha]; [discriminate |].
  rewrite filter_cons. destruct (decide (page_id b ≠ i)) as [|Hb]; [discriminate |].
  exfalso. apply Hab. apply dec_stable in Ha. apply dec_stable in Hb.
  rewrite Ha, Hb. left.
Qed.

(** On a non-empty collection of pages with distinct identifiers
    [handleDeletePage] always leaves at least one page.  On exactly one page
    it refuses: an error is reported and pages and current page stay as they
    were.  On more pages the pages with the given identifier are removed,
    and when that identifier was the current page the current page becomes
    the first remaining one. *)
Theorem handleDeletePage_keeps_a_page (st : State) (i : string) :
  NoDup (map page_id (pages st)) ->
  pages st <> [] ->
  exists st',
    handleDeletePage st i = Returned st'
    /\ pages st' <> []
    /\ (length (pages st) = 1 ->
        pages st' = pages st
        /\ currentPageId st' = currentPageId st
        /\ toasts st' = toasts st ++ [ToastError "You must have at least one page"])
    /\ (length (pages st) <> 1 ->
        pages st' = filter (fun p => page_id p ≠ i) (pages st)
        /\ (currentPageId st = i ->
            exists first, head (pages st') = Some first
                          /\ currentPageId st' = page_id first)).
Proof.
  intros Hnd Hne. unfold handleDeletePage.
  destruct (decide (length (pages st) = 1)) as [Hone|Hmore].
  - eexists. split; [reflexivity |]. cbn.
    split; [exact Hne |]. split; [auto | contradiction].
  - assert (Hlen : 2 <= length (pages st)).
    { destruct (pages st) as [|a [|b r]]; cbn in *; [contradiction | lia | lia]. }
    pose proof (filter_keeps_a_page (pages st) i Hnd Hlen) as Hkeep.
    destruct (filter (fun p => page_id p ≠ i) (pages st)) as [|first others] eqn:Hf;
      [contradiction |].
    destruct (decide (currentPageId st = i)) as [Hcur|Hcur].
    + eexists. split; [reflexivity |]. cbn.
      split; [discriminate |]. split; [contradiction |].
      intros _. split; [reflexivity |]. intros _. exists first. split; reflexivity.
    + eexists. split; [reflexivity |]. cbn.
      split; [discriminate |]. split; [contradiction |].
      intros _. split; [reflexivity |]. contradiction.
Qed.

Lemma handleDeletePage_keeps_a_page_witness :
  exists st',
    handleDeletePage twoPageState "page_1" = Returned st'
    /\ pages st' <> []
    /\ currentPageId st' = "page_2".
Proof.
  destruct (handleDeletePage_keeps_a_page twoPageState "page_1")
    as (st' & Hrun & Hkeep & _ & Hmore).
  - apply (bool_decide_unpack _). vm_compute. exact I.
  - discriminate.
  - exists st'. split; [exact Hrun |]. split; [exact Hkeep |].
    destruct Hmore as [Hpages Hcur]; [cbn; lia |].
    destruct (Hcur eq_refl) as (first & Hhead & Hid).
    rewrite Hid. rewrite Hpages in Hhead. cbn in Hhead.
    injection Hhead as <-. reflexivity.
Defined.

(** C9 at the failing input, two pages with the same identifier.  A stored
    document can hold them: its screens pass the checks of saving, and
    [loadProject] makes them the pages, the first one current.  The
    collection has two pages, so [handleDeletePage] does not refuse; its
    filter removes both, no page remains, and the fall back to the first
    remaining page throws. *)
Theorem C9_delete_page_removes_every_page :
  (forall (st : State) (stamp : string),
     Document.loadProject st (Document.exportDocument "my_app" sameIdPages) stamp
     = Some {| pages := sameIdPages;
               currentPageId := "home";
               selectedComponentId := selectedComponentId st;
               toasts := toasts st |})
  /\ Validation.validateScreens (map EnhancedPages.screenOfPage sameIdPages) 0 = []
  /\ length (pages sameIdState) = 2
  /\ filter (fun p => page_id p ≠ "home") (pages sameIdState) = []
  /\ handleDeletePage sameIdState "home" = Threw TypeError.
Proof.
  split; [| repeat split; vm_compute; reflexivity].
  intros st stamp. vm_compute. reflexivity.
Qed.

(** ** The document round trip *)

Import Document.

Lemma nodeOfJson_nodeToJson (c : ComponentNode) : nodeOfJson (nodeToJson c) = Some c.
Proof.
  induction c as [i t p cs IH] using ComponentNode_forall_ind.
  cbn -[list_to_map map_to_list]. decide_keys.
  cbn -[list_to_map map_to_list]. rewrite list_to_map_to_list.
  assert (Hkids : (fix each (l' : list json) : option (list ComponentNode) :=
                     match l' with
                     | [] => Some []
                     | x :: r =>
                         nodeOfJson x ≫= λ c, each r ≫= λ others, Some (c :: others)
                     end) (map nodeToJson cs) = Some cs).
  { induction IH as [|x r Hx _ IHr]; [reflexivity |].
    cbn [map]. rewrite Hx. cbn. rewrite IHr. reflexivity. }
  rewrite Hkids. reflexivity.
Qed.

Lemma nodesOfJson_nodeToJson (cs : list ComponentNode) :
  nodesOfJson (map nodeToJson cs) = Some cs.
Proof.
  induction cs as [|c r IH]; [reflexivity |].
  cbn. rewrite nodeOfJson_nodeToJson. cbn. rewrite IH. reflexivity.
Qed.

Lemma pageOfScreen_screenToJson (stamp : string) (page : PageData) :
  pageOfScreen stamp (screenToJson page) = Some page.
Proof.
  destruct page as [i n r h cs]. unfold pageOfScreen, screenToJson.
  cbn. decide_keys. cbn.
  rewrite nodesOfJson_nodeToJson. reflexivity.
Qed.

Lemma pagesOfScreens_screenToJson (stamp : string) (ps : list PageData) :
  pagesOfScreens stamp (map screenToJson ps) = Some ps.
Proof.
  induction ps as [|page r IH]; [reflexivity |].
  cbn [map pagesOfScreens]. rewrite pageOfScreen_screenToJson. cbn.
  rewrite IH. reflexivity.
Qed.

(** Loading an exported document gives back the very pages that were
    exported (identifiers included) and selects the first of them. *)
Lemma loadProject_exportDocument (app stamp : string) (ps : list PageData) (st : State) :
  loadProject st (exportDocument app ps) stamp
  = Some {| pages := ps;
            currentPageId := match ps with first :: _ => page_id first | [] => "" end;
            selectedComponentId := selectedComponentId st;
            toasts := toasts st |}.
Proof.
  unfold loadProject, exportDocument. cbn. decide_keys.
  rewrite pagesOfScreens_screenToJson. reflexivity.
Qed.

(** C8: loading the document exported from a list of pages succeeds and
    reconstructs as many pages, with the same route per page and, per page,
    root trees of the same shape: the same kind and the same property values
    at every position, the same child order, the same nesting depth. *)
Theorem C8_export_then_load (app stamp : string) (ps : list PageData) (st : State) :
  exists st',
    loadProject st (handleExportJSON app
                      {| pages := ps; currentPageId := currentPageId st;
                         selectedComponentId := selectedComponentId st;
                         toasts := toasts st |}) stamp = Some st'
    /\ length (pages st') = length ps
    /\ map route (pages st') = map route ps
    /\ map (fun page => map shape (components page)) (pages st')
       = map (fun page => map shape (components page)) ps
    /\ map (fun page => map depth (components page)) (pages st')
       = map (fun page => map depth (components page)) ps.
Proof.
  eexists. split; [apply loadProject_exportDocument |].
  cbn. repeat split.
Qed.

(** ** Adding components *)

(** [handleAddChild] asks [canContainWidget] before it touches the pages:
    when the parent is found in the first root and the check refuses the
    child kind, the only change is an error notice naming both kinds. *)
Lemma handleAddChild_rejected (st : State) (page : PageData) (first : ComponentNode)
    (rest : list ComponentNode) (parentId childType stamp : string) (par : ComponentNode) :
  currentPage st = Some page ->
  components page = first :: rest ->
  findComponentById first parentId = Some par ->
  canContainWidget (type par) childType = false ->
  handleAddChild st parentId childType stamp
  = Returned (notify st (ToastError (type par +:+ " cannot contain " +:+ childType))).
Proof.
  intros Hpage Hroots Hfind Hcheck. unfold handleAddChild.
  rewrite Hpage, Hroots, Hfind, Hcheck. reflexivity.
Qed.

(** Whenever [handleAddChild] changes the pages, the check had accepted the
    child kind under the kind of the parent it found. *)
Lemma handleAddChild_validated (st st' : State) (parentId childType stamp : string) :
  handleAddChild st parentId childType stamp = Returned st' ->
  pages st' <> pages st ->
  exists page first rest par,
    currentPage st = Some page
    /\ components page = first :: rest
    /\ findComponentById first parentId = Some par
    /\ canContainWidget (type par) childType = true.
Proof.
  unfold handleAddChild.
  destruct (currentPage st) as [page|]; [| intros [= <-] H; contradiction].
  destruct (components page) as [|first rest] eqn:Hroots; [discriminate |].
  destruct (findComponentById first parentId) as [par|] eqn:Hfind;
    [| intros [= <-] H; contradiction].
  destruct (canContainWidget (type par) childType) eqn:Hcheck;
    [| intros [= <-] H; contradiction].
  intros _ _. exists page, first, rest, par. repeat split; assumption.
Qed.

(** [handleAddComponent] has no refusal: for any registered kind it
    appends the new node to the children of the first root of the current
    page and reports success, whatever the kind of that root. *)
Lemma handleAddComponent_always_appends (st : State) (page : PageData)
    (type stamp : string) (d : WidgetDefinition) :
  currentPage st = Some page ->
  getWidgetDefinition type = Some d ->
  exists newComponent st',
    createDefaultComponent type stamp = Returned newComponent
    /\ handleAddComponent st type stamp = Returned st'
    /\ toasts st' = toasts st ++ [ToastSuccess ("Added " +:+ type +:+ " component")]
    /\ forall first rest,
         components page = first :: rest ->
         In (withComponents page (withNewChild newComponent first :: rest)) (pages st').
Proof.
  intros Hpage Hdef. unfold handleAddComponent, createDefaultComponent.
  rewrite Hpage, Hdef. do 2 eexists.
  split; [reflexivity |]. split; [reflexivity |]. split; [reflexivity |].
  intros first rest Hroots. cbn [pages].
  unfold currentPage in Hpage. apply find_some in Hpage. destruct Hpage as [Hin Hid].
  apply bool_decide_eq_true in Hid.
  apply in_map_iff. exists page. split; [| exact Hin].
  destruct (decide (page_id page ≠ currentPageId st)) as [Hne|_]; [contradiction |].
  rewrite Hroots. reflexivity.
Qed.

(** C2 at the failing input, a page whose only root is a [Text] node:
    [canContainWidget] refuses [Text] under [Text] and [handleAddChild]
    reports it and leaves the pages alone, but [handleAddComponent] never
    asks: it appends the new [Text] to the children of the [Text] root and
    reports success. *)
Theorem C2_add_component_skips_the_check :
  canContainWidget "Text" "Text" = false
  /\ handleAddChild textRootState "Text-1" "Text" "2"
     = Returned (notify textRootState (ToastError "Text cannot contain Text"))
  /\ handleAddComponent textRootState "Text" "2"
     = Returned
         {| pages :=
              [ withComponents textRootPage
                  [Node "Text-1" "Text" ∅ [Node "Text-2" "Text" ∅ []]] ];
            currentPageId := "page_1";
            selectedComponentId := Some "Text-2";
            toasts := [ToastSuccess "Added Text component"] |}.
Proof. repeat split; vm_compute; reflexivity. Qed.

(** * The store: which helpers write to existing objects *)

(** ** The store-level helpers only allocate *)

Lemma allocates_ret {A : Type} (a : A) : allocates (Store.ret a).
Proof. intros h b h' [= <- <-]. reflexivity. Qed.

Lemma allocates_bind {A B : Type} (m : Store.M A) (k : A -> Store.M B) :
  allocates m -> (forall a, allocates (k a)) -> allocates (Store.bind m k).
Proof.
  intros Hm Hk h b h'. unfold Store.bind.
  destruct (m h) as [[a h1]|e] eqn:Hrun; [| discriminate].
  intros Hrest. transitivity h1; [exact (Hm h a h1 Hrun) | exact (Hk a h1 b h' Hrest)].
Qed.

Lemma allocates_new (c : Store.cell) : allocates (Store.new c).
Proof. intros h l h' [= <- <-]. apply prefix_app_r. reflexivity. Qed.

Lemma allocates_getObject (l : Store.loc) : allocates (Store.getObject l).
Proof.
  intros h o h'. unfold Store.getObject.
  destruct (h !! l) as [[o'|els]|]; try discriminate. intros [= <- <-]. reflexivity.
Qed.

Lemma allocates_getArray (l : Store.loc) : allocates (Store.getArray l).
Proof.
  intros h o h'. unfold Store.getArray.
  destruct (h !! l) as [[o'|els]|]; try discriminate. intros [= <- <-]. reflexivity.
Qed.

Lemma allocates_throw {A : Type} (e : string) : allocates (@Store.throw A e).
Proof. intros h a h'. discriminate. Qed.

Lemma allocates_forEach {A B : Type} (f : A -> Store.M B) (l : list A) :
  (forall x, allocates (f x)) -> allocates (Store.forEach f l).
Proof.
  intros Hf. induction l as [|x rest IH]; cbn [Store.forEach].
  - apply allocates_ret.
  - apply allocates_bind; [apply Hf |]. intros y.
    apply allocates_bind; [exact IH |]. intros ys. apply allocates_ret.
Qed.

Create HintDb allocates.
#[local] Hint Resolve allocates_ret allocates_new allocates_getObject allocates_getArray
  allocates_throw : allocates.

Ltac allocates_step :=
  repeat first
    [ apply allocates_bind; [| intros ?]
    | apply allocates_forEach; intros ?
    | solve [auto with allocates] ].

Lemma allocates_withProps (p : gmap string json) (comp : Store.loc) : allocates (Store.withProps p comp).
Proof. unfold Store.withProps. allocates_step. Qed.

Lemma allocates_withNewChild (newChild comp : Store.loc) : allocates (Store.withNewChild newChild comp).
Proof. unfold Store.withNewChild. allocates_step. Qed.

Lemma allocates_createDefaultComponent (type stamp : string) :
  allocates (Store.createDefaultComponent type stamp).
Proof.
  unfold Store.createDefaultComponent.
  destruct (getWidgetDefinition type); allocates_step.
Qed.

Lemma allocates_updateComponentRecursive (fuel : nat) (component : Store.loc) (i : string)
    (updater : Store.loc -> Store.M Store.loc) :
  (forall l, allocates (updater l)) ->
  allocates (Store.updateComponentRecursive fuel component i updater).
Proof.
  intros Hupd. revert component.
  induction fuel as [|fuel IH]; intros component; cbn [Store.updateComponentRecursive].
  - apply allocates_throw.
  - apply allocates_bind; [apply allocates_getObject |]. intros node.
    destruct (decide (Store.o_id node = i)); [apply Hupd |].
    apply allocates_bind; [apply allocates_getArray |]. intros elements.
    apply allocates_bind; [apply allocates_forEach; intros child; apply IH |].
    intros updated. allocates_step.
Qed.

Lemma allocates_updateComponentInTree (fuel : nat) (components : Store.loc) (i : string)
    (updater : Store.loc -> Store.M Store.loc) :
  (forall l, allocates (updater l)) ->
  allocates (Store.updateComponentInTree fuel components i updater).
Proof.
  intros Hupd. unfold Store.updateComponentInTree.
  apply allocates_bind; [apply allocates_getArray |]. intros elements.
  apply allocates_bind;
    [apply allocates_forEach; intros comp; apply allocates_updateComponentRecursive, Hupd |].
  intros updated. apply allocates_new.
Qed.

Lemma allocates_deleteComponentRecursive (fuel : nat) (component : Store.loc) (i : string) :
  allocates (Store.deleteComponentRecursive fuel component i).
Proof.
  revert component.
  induction fuel as [|fuel IH]; intros component; cbn [Store.deleteComponentRecursive].
  - apply allocates_throw.
  - apply allocates_bind; [apply allocates_getObject |]. intros node.
    destruct (decide (Store.o_id node = i)); [apply allocates_ret |].
    apply allocates_bind; [apply allocates_getArray |]. intros elements.
    apply allocates_bind; [apply allocates_forEach; intros child; apply IH |].
    intros results. allocates_step.
Qed.

Lemma allocates_deleteComponentFromTree (fuel : nat) (components : Store.loc) (i : string) :
  allocates (Store.deleteComponentFromTree fuel components i).
Proof.
  unfold Store.deleteComponentFromTree.
  apply allocates_bind; [apply allocates_getArray |]. intros elements.
  apply allocates_bind;
    [apply allocates_forEach; intros comp; apply allocates_deleteComponentRecursive |].
  intros results. apply allocates_new.
Qed.

(** ** Reading is stable under allocation *)

Lemma readNode_prefix (fuel : nat) (h h' : Store.heap) (l : Store.loc) (t : ComponentNode) :
  h `prefix_of` h' -> Store.readNode fuel h l = Some t -> Store.readNode fuel h' l = Some t.
Proof.
  intros Hext. revert l t.
  induction fuel as [|fuel IH]; intros l t; cbn [Store.readNode]; [discriminate |].
  destruct (h !! l) as [[o|els]|] eqn:Hl; try discriminate.
  rewrite (prefix_lookup_Some _ _ _ _ Hl Hext).
  destruct (h !! Store.o_children o) as [[o'|els]|] eqn:Hk; try discriminate.
  rewrite (prefix_lookup_Some _ _ _ _ Hk Hext).
  destruct (mapM (Store.readNode fuel h) els) as [cs|] eqn:Hcs; [| discriminate].
  intros [= <-].
  apply mapM_Some in Hcs.
  assert (Hcs' : mapM (Store.readNode fuel h') els = Some cs).
  { apply mapM_Some. eapply Forall2_impl; [exact Hcs |]. intros e c. apply IH. }
  rewrite Hcs'. reflexivity.
Qed.

Lemma readRoots_prefix (fuel : nat) (h h' : Store.heap) (roots : Store.loc) (ts : list ComponentNode) :
  h `prefix_of` h' -> Store.readRoots fuel h roots = Some ts -> Store.readRoots fuel h' roots = Some ts.
Proof.
  intros Hext. unfold Store.readRoots.
  destruct (h !! roots) as [[o|els]|] eqn:Hl; try discriminate.
  rewrite (prefix_lookup_Some _ _ _ _ Hl Hext).
  intros Hts. apply mapM_Some in Hts. apply mapM_Some.
  eapply Forall2_impl; [exact Hts |]. intros e c. apply readNode_prefix. exact Hext.
Qed.

Lemma readNode_more_fuel (fuel fuel' : nat) (h : Store.heap) (l : Store.loc) (t : ComponentNode) :
  fuel <= fuel' -> Store.readNode fuel h l = Some t -> Store.readNode fuel' h l = Some t.
Proof.
  revert fuel' l t.
  induction fuel as [|fuel IH]; intros fuel' l t Hle; cbn [Store.readNode]; [discriminate |].
  destruct fuel' as [|fuel']; [lia |]. cbn [Store.readNode].
  destruct (h !! l) as [[o|els]|]; try discriminate.
  destruct (h !! Store.o_children o) as [[o'|els]|]; try discriminate.
  destruct (mapM (Store.readNode fuel h) els) as [cs|] eqn:Hcs; [| discriminate].
  intros [= <-].
  apply mapM_Some in Hcs.
  assert (Hcs' : mapM (Store.readNode fuel' h) els = Some cs).
  { apply mapM_Some. eapply Forall2_impl; [exact Hcs |]. intros e c. apply IH. lia. }
  rewrite Hcs'. reflexivity.
Qed.

(** ** The store-level helpers compute the trees of the pure helpers *)

Lemma lookup_new (h : Store.heap) (c : Store.cell) : (h ++ [c]) !! length h = Some c.
Proof. apply list_lookup_middle. reflexivity. Qed.

Lemma bind_returned {A B : Type} (m : Store.M A) (k : A -> Store.M B) (h h' : Store.heap) (a : A) :
  m h = Returned (a, h') -> Store.bind m k h = k a h'.
Proof. intros Hrun. unfold Store.bind. rewrite Hrun. reflexivity. Qed.

Lemma bind_getObject {B : Type} (l : Store.loc) (k : Store.object -> Store.M B) (h : Store.heap) (o : Store.object) :
  h !! l = Some (Store.Object o) -> Store.bind (Store.getObject l) k h = k o h.
Proof. intros Hl. apply bind_returned. unfold Store.getObject. rewrite Hl. reflexivity. Qed.

Lemma bind_getArray {B : Type} (l : Store.loc) (k : list Store.loc -> Store.M B) (h : Store.heap)
    (elements : list Store.loc) :
  h !! l = Some (Store.Array elements) -> Store.bind (Store.getArray l) k h = k elements h.
Proof. intros Hl. apply bind_returned. unfold Store.getArray. rewrite Hl. reflexivity. Qed.

Lemma bind_new {B : Type} (c : Store.cell) (k : Store.loc -> Store.M B) (h : Store.heap) :
  Store.bind (Store.new c) k h = k (length h) (h ++ [c]).
Proof. reflexivity. Qed.

(** What a successful read says about the store. *)
Lemma readNode_Some (fuel : nat) (h : Store.heap) (l : Store.loc) (t : ComponentNode) :
  Store.readNode fuel h l = Some t ->
  exists fuel' o elements cs,
    fuel = S fuel'
    /\ h !! l = Some (Store.Object o)
    /\ h !! Store.o_children o = Some (Store.Array elements)
    /\ Forall2 (fun e c => Store.readNode fuel' h e = Some c) elements cs
    /\ t = Node (Store.o_id o) (Store.o_type o) (Store.o_props o) cs.
Proof.
  destruct fuel as [|fuel']; cbn [Store.readNode]; [discriminate |].
  destruct (h !! l) as [[o|els]|] eqn:Hl; try discriminate.
  destruct (h !! Store.o_children o) as [[o'|els]|] eqn:Hk; try discriminate.
  destruct (mapM (Store.readNode fuel' h) els) as [cs|] eqn:Hcs; [| discriminate].
  intros [= <-]. exists fuel', o, els, cs.
  split; [reflexivity |]. split; [reflexivity |]. split; [exact Hk |].
  split; [apply mapM_Some; exact Hcs | reflexivity].
Qed.

Lemma readNode_intro (fuel : nat) (h : Store.heap) (l : Store.loc) (o : Store.object)
    (elements : list Store.loc) (cs : list ComponentNode) :
  h !! l = Some (Store.Object o) ->
  h !! Store.o_children o = Some (Store.Array elements) ->
  Forall2 (fun e c => Store.readNode fuel h e = Some c) elements cs ->
  Store.readNode (S fuel) h l = Some (Node (Store.o_id o) (Store.o_type o) (Store.o_props o) cs).
Proof.
  intros Hl Hk Hcs. cbn [Store.readNode]. rewrite Hl, Hk.
  apply mapM_Some in Hcs. rewrite Hcs. reflexivity.
Qed.

Lemma Forall2_read_prefix (fuel : nat) (h h' : Store.heap) (elements : list Store.loc)
    (cs : list ComponentNode) :
  h `prefix_of` h' ->
  Forall2 (fun e c => Store.readNode fuel h e = Some c) elements cs ->
  Forall2 (fun e c => Store.readNode fuel h' e = Some c) elements cs.
Proof.
  intros Hext Hcs. eapply Forall2_impl; [exact Hcs |].
  intros e c. apply readNode_prefix. exact Hext.
Qed.

Lemma Forall2_map_r {A B C : Type} (P : A -> C -> Prop) (g : B -> C)
    (l : list A) (k : list B) :
  Forall2 (fun x y => P x (g y)) l k -> Forall2 P l (map g k).
Proof. induction 1; cbn; constructor; assumption. Qed.

(** [forEach] threads the store through the callbacks: when every callback
    turns what [pre] says of its argument into what [post] says of its
    result, and both survive allocation, the whole loop does. *)
Lemma forEach_spec {A B C : Type} (f : A -> Store.M B)
    (pre : Store.heap -> A -> C -> Prop) (post : Store.heap -> B -> C -> Prop) (h0 : Store.heap) :
  (forall h h' a c, h `prefix_of` h' -> pre h a c -> pre h' a c) ->
  (forall h h' b c, h `prefix_of` h' -> post h b c -> post h' b c) ->
  (forall h a c, h0 `prefix_of` h -> pre h a c ->
     exists b h', f a h = Returned (b, h') /\ h `prefix_of` h' /\ post h' b c) ->
  forall l cs h,
    h0 `prefix_of` h -> Forall2 (pre h) l cs ->
    exists bs h',
      Store.forEach f l h = Returned (bs, h') /\ h `prefix_of` h' /\ Forall2 (post h') bs cs.
Proof.
  intros Hpre Hpost Hf l.
  induction l as [|a rest IH]; intros cs h Hbase Hall.
  - apply Forall2_nil_inv_l in Hall. subst cs.
    exists [], h. split; [reflexivity |]. split; [reflexivity | constructor].
  - apply Forall2_cons_inv_l in Hall. destruct Hall as (c & cs' & Hc & Hrest & ->).
    destruct (Hf h a c Hbase Hc) as (b & h1 & Hrun & Hext1 & Hb).
    destruct (IH cs' h1) as (bs & h2 & Hruns & Hext2 & Hbs).
    { transitivity h; assumption. }
    { eapply Forall2_impl; [exact Hrest |]. intros x y. apply Hpre. exact Hext1. }
    exists (b :: bs), h2. split.
    { cbn [Store.forEach]. rewrite (bind_returned _ _ _ _ _ Hrun).
      rewrite (bind_returned _ _ _ _ _ Hruns). reflexivity. }
    split; [transitivity h1; assumption |].
    constructor; [| exact Hbs]. apply (Hpost h1); assumption.
Qed.

Lemma withProps_refines (h0 : Store.heap) (p : gmap string json) :
  refines h0 0 (Store.withProps p) (withProps p).
Proof.
  intros fuel h l t _ Hread.
  destruct (readNode_Some fuel h l t Hread) as (f & o & els & cs & -> & Hl & Hk & Hcs & ->).
  exists (length h), (h ++ [Store.Object {| Store.o_id := Store.o_id o; Store.o_type := Store.o_type o;
                                     Store.o_props := p; Store.o_children := Store.o_children o |}]).
  assert (Hext : h `prefix_of` h ++ [Store.Object {| Store.o_id := Store.o_id o; Store.o_type := Store.o_type o;
                                     Store.o_props := p; Store.o_children := Store.o_children o |}])
    by (apply prefix_app_r; reflexivity).
  split; [unfold Store.withProps; rewrite (bind_getObject _ _ _ _ Hl); reflexivity |].
  split; [exact Hext |].
  rewrite Nat.add_0_r.
  apply (readNode_intro f _ _ {| Store.o_id := Store.o_id o; Store.o_type := Store.o_type o;
                                 Store.o_props := p; Store.o_children := Store.o_children o |} els cs).
  - apply lookup_new.
  - exact (prefix_lookup_Some _ _ _ _ Hk Hext).
  - exact (Forall2_read_prefix _ _ _ _ _ Hext Hcs).
Qed.

Lemma withNewChild_refines (h0 : Store.heap) (k : nat) (newChild : Store.loc) (c : ComponentNode) :
  Store.readNode k h0 newChild = Some c ->
  refines h0 k (Store.withNewChild newChild) (withNewChild c).
Proof.
  intros Hchild fuel h l t Hbase Hread.
  destruct (readNode_Some fuel h l t Hread) as (f & o & els & cs & -> & Hl & Hk & Hcs & ->).
  set (h1 := h ++ [Store.Array (els ++ [newChild])]).
  set (o' := {| Store.o_id := Store.o_id o; Store.o_type := Store.o_type o;
                Store.o_props := Store.o_props o; Store.o_children := length h |}).
  assert (Hext1 : h `prefix_of` h1) by (apply prefix_app_r; reflexivity).
  assert (Hext2 : h1 `prefix_of` h1 ++ [Store.Object o']) by (apply prefix_app_r; reflexivity).
  assert (Hext : h `prefix_of` h1 ++ [Store.Object o']) by (transitivity h1; assumption).
  exists (length h1), (h1 ++ [Store.Object o']).
  split.
  { unfold Store.withNewChild. rewrite (bind_getObject _ _ _ _ Hl).
    rewrite (bind_getArray _ _ _ _ Hk). reflexivity. }
  split; [exact Hext |].
  change (S f + k) with (S (f + k)).
  apply (readNode_intro (f + k) _ _ o' (els ++ [newChild]) (cs ++ [c])).
  - apply lookup_new.
  - apply (prefix_lookup_Some h1); [apply lookup_new | exact Hext2].
  - apply Forall2_app.
    + eapply Forall2_impl; [exact Hcs |]. intros e c' He.
      apply (readNode_prefix _ h); [exact Hext |].
      apply (readNode_more_fuel f); [lia | exact He].
    + constructor; [| constructor].
      apply (readNode_prefix _ h0); [transitivity h; assumption |].
      apply (readNode_more_fuel k); [lia | exact Hchild].
Qed.

Lemma updateComponentRecursive_refines (h0 : Store.heap) (k : nat) (i : string)
    (updater : Store.loc -> Store.M Store.loc) (g : ComponentNode -> ComponentNode) :
  refines h0 k updater g ->
  forall fuel h l t,
    h0 `prefix_of` h ->
    Store.readNode fuel h l = Some t ->
    exists l' h',
      Store.updateComponentRecursive fuel l i updater h = Returned (l', h')
      /\ h `prefix_of` h'
      /\ Store.readNode (fuel + k) h' l' = Some (updateComponentRecursive t i g).
Proof.
  intros Hupd fuel.
  induction fuel as [|f IH]; intros h l t Hbase Hread; [discriminate |].
  pose proof Hread as Hread'.
  apply readNode_Some in Hread'.
  destruct Hread' as (f' & o & els & cs & [= <-] & Hl & Hk & Hcs & ->).
  cbn [Store.updateComponentRecursive updateComponentRecursive].
  rewrite (bind_getObject _ _ _ _ Hl).
  destruct (decide (Store.o_id o = i)) as [_|_]; [exact (Hupd (S f) h l _ Hbase Hread) |].
  rewrite (bind_getArray _ _ _ _ Hk).
  destruct (forEach_spec
              (fun child => Store.updateComponentRecursive f child i updater)
              (fun h e c => Store.readNode f h e = Some c)
              (fun h e c => Store.readNode (f + k) h e = Some (updateComponentRecursive c i g))
              h0
              (fun h h' e c Hext => readNode_prefix f h h' e c Hext)
              (fun h h' e c Hext => readNode_prefix (f + k) h h' e _ Hext)
              (fun h e c Hb Hr => IH h e c Hb Hr)
              els cs h Hbase Hcs)
    as (els' & h1 & Hrun & Hext1 & Hcs').
  rewrite (bind_returned _ _ _ _ _ Hrun), bind_new.
  set (h2 := h1 ++ [Store.Array els']).
  set (o' := {| Store.o_id := Store.o_id o; Store.o_type := Store.o_type o;
                Store.o_props := Store.o_props o; Store.o_children := length h1 |}).
  assert (Hext2 : h2 `prefix_of` h2 ++ [Store.Object o']) by (apply prefix_app_r; reflexivity).
  assert (Hext12 : h1 `prefix_of` h2 ++ [Store.Object o']).
  { transitivity h2; [apply prefix_app_r; reflexivity | exact Hext2]. }
  exists (length h2), (h2 ++ [Store.Object o']).
  split; [reflexivity |].
  split; [transitivity h1; assumption |].
  change (S f + k) with (S (f + k)).
  apply (readNode_intro (f + k) _ _ o' els').
  - apply lookup_new.
  - apply (prefix_lookup_Some h2); [apply lookup_new | exact Hext2].
  - apply Forall2_map_r. eapply Forall2_impl; [exact Hcs' |].
    intros e c. apply readNode_prefix. exact Hext12.
Qed.

Lemma Forall2_filterNonNull {A B : Type} (R : A -> B -> Prop)
    (results : list (option A)) (os : list (option B)) :
  Forall2 (option_Forall2 R) results os ->
  Forall2 R (filterNonNull results) (filterNonNull os).
Proof.
  induction 1 as [|r o rs os' Hro _ IH]; cbn; [constructor |].
  destruct Hro; [constructor; assumption | exact IH].
Qed.

Lemma deleteComponentRecursive_refines (i : string) (fuel : nat) :
  forall h l t,
    Store.readNode fuel h l = Some t ->
    exists r h',
      Store.deleteComponentRecursive fuel l i h = Returned (r, h')
      /\ h `prefix_of` h'
      /\ option_Forall2 (fun l' t' => Store.readNode fuel h' l' = Some t')
           r (deleteComponentRecursive t i).
Proof.
  induction fuel as [|f IH]; intros h l t Hread; [discriminate |].
  apply readNode_Some in Hread.
  destruct Hread as (f' & o & els & cs & [= <-] & Hl & Hk & Hcs & ->).
  cbn [Store.deleteComponentRecursive deleteComponentRecursive].
  rewrite (bind_getObject _ _ _ _ Hl).
  destruct (decide (Store.o_id o = i)) as [_|_].
  { exists None, h. split; [reflexivity |]. split; [reflexivity | constructor]. }
  rewrite (bind_getArray _ _ _ _ Hk).
  destruct (forEach_spec
              (fun child => Store.deleteComponentRecursive f child i)
              (fun h e c => Store.readNode f h e = Some c)
              (fun h r c =>
                 option_Forall2 (fun l' t' => Store.readNode f h l' = Some t')
                   r (deleteComponentRecursive c i))
              h
              (fun h1 h2 e c Hext => readNode_prefix f h1 h2 e c Hext))
    with (l := els) (cs := cs) (h := h)
    as (results & h1 & Hrun & Hext1 & Hres).
  { intros h1 h2 r c Hext Hr.
    destruct Hr; constructor. eapply readNode_prefix; eassumption. }
  { intros h1 e c _ Hr. apply IH. exact Hr. }
  { reflexivity. }
  { exact Hcs. }
  rewrite (bind_returned _ _ _ _ _ Hrun), bind_new, bind_new.
  set (h2 := h1 ++ [Store.Array (filterNonNull results)]).
  set (o' := {| Store.o_id := Store.o_id o; Store.o_type := Store.o_type o;
                Store.o_props := Store.o_props o; Store.o_children := length h1 |}).
  assert (Hext2 : h2 `prefix_of` h2 ++ [Store.Object o']) by (apply prefix_app_r; reflexivity).
  assert (Hext12 : h1 `prefix_of` h2 ++ [Store.Object o']).
  { transitivity h2; [apply prefix_app_r; reflexivity | exact Hext2]. }
  exists (Some (length h2)), (h2 ++ [Store.Object o']).
  split; [reflexivity |].
  split; [transitivity h1; assumption |].
  constructor.
  apply (readNode_intro f _ _ o' (filterNonNull results)).
  - apply lookup_new.
  - apply (prefix_lookup_Some h2); [apply lookup_new | exact Hext2].
  - apply Forall2_filterNonNull. apply Forall2_map_r.
    eapply Forall2_impl; [exact Hres |].
    intros r c Hr. destruct Hr; constructor.
    eapply readNode_prefix; eassumption.
Qed.

Lemma readRoots_Some (fuel : nat) (h : Store.heap) (roots : Store.loc)
    (ts : list ComponentNode) :
  Store.readRoots fuel h roots = Some ts ->
  exists elements,
    h !! roots = Some (Store.Array elements)
    /\ Forall2 (fun e c => Store.readNode fuel h e = Some c) elements ts.
Proof.
  unfold Store.readRoots.
  destruct (h !! roots) as [[o|els]|]; try discriminate.
  intros Hts. exists els. split; [reflexivity | apply mapM_Some; exact Hts].
Qed.

Lemma readRoots_intro (fuel : nat) (h : Store.heap) (roots : Store.loc)
    (elements : list Store.loc) (ts : list ComponentNode) :
  h !! roots = Some (Store.Array elements) ->
  Forall2 (fun e c => Store.readNode fuel h e = Some c) elements ts ->
  Store.readRoots fuel h roots = Some ts.
Proof.
  intros Hl Hts. unfold Store.readRoots. rewrite Hl. apply mapM_Some. exact Hts.
Qed.

(** [updateComponentInTree] on the store: it returns, it computes the
    roots of the pure [updateComponentInTree], and every root list that
    could be read before reads the same afterwards. *)
Lemma updateComponentInTree_refines (h0 : Store.heap) (k : nat) (i : string)
    (updater : Store.loc -> Store.M Store.loc) (g : ComponentNode -> ComponentNode)
    (fuel : nat) (h : Store.heap) (roots : Store.loc) (ts : list ComponentNode) :
  refines h0 k updater g ->
  h0 `prefix_of` h ->
  Store.readRoots fuel h roots = Some ts ->
  exists updated h',
    Store.updateComponentInTree fuel roots i updater h = Returned (updated, h')
    /\ Store.readRoots (fuel + k) h' updated = Some (updateComponentInTree ts i g)
    /\ (forall n old ts0,
          Store.readRoots n h old = Some ts0 -> Store.readRoots n h' old = Some ts0).
Proof.
  intros Hupd Hbase Hread.
  destruct (readRoots_Some _ _ _ _ Hread) as (els & Hl & Hts).
  unfold Store.updateComponentInTree. rewrite (bind_getArray _ _ _ _ Hl).
  destruct (forEach_spec
              (fun comp => Store.updateComponentRecursive fuel comp i updater)
              (fun h e c => Store.readNode fuel h e = Some c)
              (fun h e c => Store.readNode (fuel + k) h e
                            = Some (updateComponentRecursive c i g))
              h0
              (fun h1 h2 e c Hext => readNode_prefix fuel h1 h2 e c Hext)
              (fun h1 h2 e c Hext => readNode_prefix (fuel + k) h1 h2 e _ Hext)
              (fun h1 e c Hb Hr =>
                 updateComponentRecursive_refines h0 k i updater g Hupd fuel h1 e c Hb Hr)
              els ts h Hbase Hts)
    as (els' & h1 & Hrun & Hext1 & Hts').
  rewrite (bind_returned _ _ _ _ _ Hrun).
  assert (Hext2 : h1 `prefix_of` h1 ++ [Store.Array els']) by (apply prefix_app_r; reflexivity).
  exists (length h1), (h1 ++ [Store.Array els']).
  split; [reflexivity |]. split.
  - apply (readRoots_intro _ _ _ els'); [apply lookup_new |].
    apply Forall2_map_r. eapply Forall2_impl; [exact Hts' |].
    intros e c. apply readNode_prefix. exact Hext2.
  - intros n old ts0. apply readRoots_prefix. transitivity h1; assumption.
Qed.

Lemma deleteComponentFromTree_refines (i : string) (fuel : nat) (h : Store.heap)
    (roots : Store.loc) (ts : list ComponentNode) :
  Store.readRoots fuel h roots = Some ts ->
  exists updated h',
    Store.deleteComponentFromTree fuel roots i h = Returned (updated, h')
    /\ Store.readRoots fuel h' updated = Some (deleteComponentFromTree ts i)
    /\ (forall n old ts0,
          Store.readRoots n h old = Some ts0 -> Store.readRoots n h' old = Some ts0).
Proof.
  intros Hread.
  destruct (readRoots_Some _ _ _ _ Hread) as (els & Hl & Hts).
  unfold Store.deleteComponentFromTree. rewrite (bind_getArray _ _ _ _ Hl).
  destruct (forEach_spec
              (fun comp => Store.deleteComponentRecursive fuel comp i)
              (fun h e c => Store.readNode fuel h e = Some c)
              (fun h r c =>
                 option_Forall2 (fun l' t' => Store.readNode fuel h l' = Some t')
                   r (deleteComponentRecursive c i))
              h
              (fun h1 h2 e c Hext => readNode_prefix fuel h1 h2 e c Hext))
    with (l := els) (cs := ts) (h := h)
    as (results & h1 & Hrun & Hext1 & Hres).
  { intros h1 h2 r c Hext Hr.
    destruct Hr; constructor. eapply readNode_prefix; eassumption. }
  { intros h1 e c _ Hr.
    destruct (deleteComponentRecursive_refines i fuel h1 e c Hr) as (r & h2 & H1 & H2 & H3).
    exists r, h2. auto. }
  { reflexivity. }
  { exact Hts. }
  rewrite (bind_returned _ _ _ _ _ Hrun).
  assert (Hext2 : h1 `prefix_of` h1 ++ [Store.Array (filterNonNull results)])
    by (apply prefix_app_r; reflexivity).
  exists (length h1), (h1 ++ [Store.Array (filterNonNull results)]).
  split; [reflexivity |]. split.
  - apply (readRoots_intro _ _ _ (filterNonNull results)); [apply lookup_new |].
    unfold deleteComponentFromTree.
    apply Forall2_filterNonNull. apply Forall2_map_r.
    eapply Forall2_impl; [exact Hres |].
    intros r c Hr. destruct Hr; constructor.
    eapply readNode_prefix; eassumption.
  - intros n old ts0. apply readRoots_prefix. transitivity h1; assumption.
Qed.

Lemma createDefaultComponent_refines (type stamp : string) (c : ComponentNode)
    (h : Store.heap) :
  createDefaultComponent type stamp = Returned c ->
  exists newComponent h',
    Store.createDefaultComponent type stamp h = Returned (newComponent, h')
    /\ h `prefix_of` h'
    /\ Store.readNode 1 h' newComponent = Some c.
Proof.
  unfold createDefaultComponent, Store.createDefaultComponent.
  destruct (getWidgetDefinition type) as [d|]; [| discriminate].
  intros [= <-]. rewrite bind_new.
  set (h1 := h ++ [Store.Array []]).
  set (o := {| Store.o_id := type +:+ "-" +:+ stamp; Store.o_type := type;
               Store.o_props := default ∅ (defaultProps d);
               Store.o_children := length h |}).
  assert (Hext : h1 `prefix_of` h1 ++ [Store.Object o]) by (apply prefix_app_r; reflexivity).
  exists (length h1), (h1 ++ [Store.Object o]).
  split; [reflexivity |].
  split; [transitivity h1; [apply prefix_app_r; reflexivity | exact Hext] |].
  apply (readNode_intro 0 _ _ o [] []).
  - apply lookup_new.
  - apply (prefix_lookup_Some h1); [apply lookup_new | exact Hext].
  - constructor.
Qed.

(** X30: the three editing paths built on [updateComponentInTree] and
    [deleteComponentFromTree] return new roots, equal to what the pure
    helpers compute, and leave every existing root list reading as before:
    replacing the props of a node, appending a fresh child to a node, and
    deleting a node. *)
Theorem helpers_leave_their_input_alone (fuel : nat) (h : Store.heap)
    (roots : Store.loc) (ts : list ComponentNode) (i : string) :
  Store.readRoots fuel h roots = Some ts ->
  (forall p,
     exists updated h',
       Store.updateComponentInTree fuel roots i (Store.withProps p) h
       = Returned (updated, h')
       /\ Store.readRoots fuel h' updated = Some (updateComponentInTree ts i (withProps p))
       /\ Store.readRoots fuel h' roots = Some ts)
  /\ (forall childType stamp newChild,
        createDefaultComponent childType stamp = Returned newChild ->
        exists child h1 updated h',
          Store.createDefaultComponent childType stamp h = Returned (child, h1)
          /\ Store.updateComponentInTree fuel roots i (Store.withNewChild child) h1
             = Returned (updated, h')
          /\ Store.readRoots (S fuel) h' updated
             = Some (updateComponentInTree ts i (withNewChild newChild))
          /\ Store.readRoots fuel h' roots = Some ts)
  /\ (exists updated h',
        Store.deleteComponentFromTree fuel roots i h = Returned (updated, h')
        /\ Store.readRoots fuel h' updated = Some (deleteComponentFromTree ts i)
        /\ Store.readRoots fuel h' roots = Some ts).
Proof.
  intros Hread. split; [| split].
  - intros p.
    destruct (updateComponentInTree_refines h 0 i _ _ fuel h roots ts
                (withProps_refines h p)) as (updated & h' & Hrun & Hnew & Hold);
      [reflexivity | exact Hread |].
    exists updated, h'. rewrite Nat.add_0_r in Hnew. auto.
  - intros childType stamp newChild Hcreate.
    destruct (createDefaultComponent_refines childType stamp newChild h Hcreate)
      as (child & h1 & Hrun1 & Hext1 & Hchild).
    destruct (updateComponentInTree_refines h1 1 i _ _ fuel h1 roots ts
                (withNewChild_refines h1 1 child newChild Hchild))
      as (updated & h' & Hrun & Hnew & Hold);
      [reflexivity | exact (readRoots_prefix _ _ _ _ _ Hext1 Hread) |].
    exists child, h1, updated, h'.
    rewrite Nat.add_1_r in Hnew.
    split; [exact Hrun1 |]. split; [exact Hrun |]. split; [exact Hnew |].
    apply Hold. exact (readRoots_prefix _ _ _ _ _ Hext1 Hread).
  - destruct (deleteComponentFromTree_refines i fuel h roots ts Hread)
      as (updated & h' & Hrun & Hnew & Hold).
    exists updated, h'. auto.
Qed.

Example helpers_on_the_fresh_project :
  exists updated h',
    Store.updateComponentInTree 2 2 "Scaffold-0"
      (Store.withProps {[ "backgroundColor" := JStr "#ffffff" ]}) scaffoldStore
    = Returned (updated, h')
    /\ Store.readRoots 2 h' updated
       = Some [Node "Scaffold-0" "Scaffold" {[ "backgroundColor" := JStr "#ffffff" ]} []]
    /\ Store.readRoots 2 h' 2 = Some [Node "Scaffold-0" "Scaffold" ∅ []].
Proof.
  destruct (helpers_leave_their_input_alone 2 scaffoldStore 2
              [Node "Scaffold-0" "Scaffold" ∅ []] "Scaffold-0" eq_refl) as (Hprops & _).
  exact (Hprops {[ "backgroundColor" := JStr "#ffffff" ]}).
Defined.

(** ** Sharing between the old and the new roots *)

(** C3 at the failing input, the root list of a fresh project:
    [handleAddComponent] returns a new root list, but the list it was given
    (reference 2), read again after the call, has changed: its [Scaffold] now
    has the new [Text] child.  The copy of the enhanced page behaves the
    same. *)
Theorem C3_add_component_changes_the_old_roots :
  Store.readRoots 2 scaffoldStore 2 = Some [Node "Scaffold-0" "Scaffold" ∅ []]
  /\ (exists updated h,
        Store.handleAddComponent 2 "Text" "1" scaffoldStore = Returned (updated, h)
        /\ updated <> 2
        /\ Store.readRoots 2 h 2
           = Some [Node "Scaffold-0" "Scaffold" ∅ [Node "Text-1" "Text" ∅ []]])
  /\ (exists newComponent updated h0 h,
        Store.createDefaultComponent "Text" "1" scaffoldStore = Returned (newComponent, h0)
        /\ Store.addComponentToPage 2 newComponent h0 = Returned (updated, h)
        /\ updated <> 2
        /\ Store.readRoots 2 h 2
           = Some [Node "Scaffold-0" "Scaffold" ∅ [Node "Text-1" "Text" ∅ []]]).
Proof.
  split; [reflexivity |]. split.
  - do 2 eexists. split; [vm_compute; reflexivity |]. split; [discriminate | reflexivity].
  - do 4 eexists. split; [vm_compute; reflexivity |].
    split; [vm_compute; reflexivity |]. split; [discriminate | reflexivity].
Qed.

(** * Further properties *)

(** ** The search order, and what updates and deletions keep *)

Lemma find_app_first {A : Type} (f : A -> bool) (l1 l2 : list A) :
  List.find f (l1 ++ l2)
  = match List.find f l1 with
    | Some x => Some x
    | None => List.find f l2
    end.
Proof.
  induction l1 as [|x r IH]; [reflexivity |].
  cbn. destruct (f x); [reflexivity | exact IH].
Qed.

(** X1: [findComponentById] returns the first node carrying the
    identifier in the order parent before children, children left to right;
    it returns [null] exactly when no node carries it. *)
Theorem findComponentById_first_in_order (t : ComponentNode) (i : string) :
  findComponentById t i = List.find (fun n => bool_decide (id n = i)) (nodes t)
  /\ (findComponentById t i = None <-> ~ In i (ids t)).
Proof.
  split.
  - induction t as [ci ty p cs IH] using ComponentNode_forall_ind.
    cbn [findComponentById nodes List.find id].
    destruct (decide (ci = i)) as [->|Hne].
    + rewrite bool_decide_eq_true_2 by reflexivity. reflexivity.
    + rewrite bool_decide_eq_false_2 by exact Hne.
      induction IH as [|x r Hx _ IHr]; [reflexivity |].
      cbn [firstFound flat_map]. rewrite find_app_first, <- Hx.
      destruct (findComponentById x i); [reflexivity | exact IHr].
  - split; [| apply findComponentById_absent].
    intros Hnone Hin. destruct (findComponentById_present t i Hin) as [n Hn]. congruence.
Qed.

Lemma ids_withProps_update (t : ComponentNode) (i : string) (P : gmap string json) :
  ids (updateComponentRecursive t i (withProps P)) = ids t.
Proof.
  induction t as [ci ty p cs IH] using ComponentNode_forall_ind.
  cbn [updateComponentRecursive].
  destruct (decide (ci = i)); [reflexivity |].
  cbn [ids]. f_equal.
  induction IH as [|x r Hx _ IHr]; [reflexivity |].
  cbn [map flat_map]. rewrite Hx, IHr. reflexivity.
Qed.

Lemma find_other_after_update (t : ComponentNode) (i j : string) (P : gmap string json)
    (n : ComponentNode) :
  j <> i ->
  findComponentById t j = Some n ->
  exists n',
    findComponentById (updateComponentRecursive t i (withProps P)) j = Some n'
    /\ type n' = type n /\ props n' = props n.
Proof.
  intros Hji. revert n.
  induction t as [ci ty p cs IH] using ComponentNode_forall_ind.
  intros n. cbn [findComponentById updateComponentRecursive].
  destruct (decide (ci = i)) as [->|Hci].
  - destruct (decide (i = j)) as [->|_]; [contradiction |].
    intros Hfind. exists n. cbn [withProps findComponentById id children].
    destruct (decide (i = j)) as [->|_]; [contradiction |]. auto.
  - cbn [findComponentById].
    destruct (decide (ci = j)) as [->|Hcj].
    + intros [= <-]. eexists. split; [reflexivity |]. split; reflexivity.
    + induction IH as [|x r Hx _ IHr]; [discriminate |].
      cbn [firstFound map].
      destruct (findComponentById x j) as [found|] eqn:Hfound.
      * intros [= <-]. destruct (Hx found eq_refl) as (n' & Hn' & Hty & Hpr).
        exists n'. rewrite Hn'. auto.
      * intros Hrest.
        assert (Hnone : findComponentById (updateComponentRecursive x i (withProps P)) j = None).
        { apply findComponentById_absent. rewrite ids_withProps_update.
          intros Hin. destruct (findComponentById_present x j Hin) as [m Hm]. congruence. }
        rewrite Hnone. apply IHr. exact Hrest.
Qed.

(** X2: replacing the props of the nodes with identifier [i] keeps every
    identifier of the roots in place, and every node with another identifier
    is still found, with the kind and the props it had. *)
Theorem update_props_touches_only_its_target (T : list ComponentNode) (i : string)
    (P : gmap string json) :
  forestIds (updateComponentInTree T i (withProps P)) = forestIds T
  /\ Forall (fun t =>
       forall j n, j <> i -> findComponentById t j = Some n ->
         exists n',
           findComponentById (updateComponentRecursive t i (withProps P)) j = Some n'
           /\ type n' = type n /\ props n' = props n) T.
Proof.
  split.
  - unfold forestIds, updateComponentInTree.
    induction T as [|t r IH]; [reflexivity |].
    cbn [map flat_map]. rewrite ids_withProps_update, IH. reflexivity.
  - apply Forall_forall. intros t _ j n Hji Hfind.
    exact (find_other_after_update t i j P n Hji Hfind).
Qed.

Lemma update_twice (t : ComponentNode) (i : string) (P Q : gmap string json) :
  updateComponentRecursive (updateComponentRecursive t i (withProps P)) i (withProps Q)
  = updateComponentRecursive t i (withProps Q).
Proof.
  induction t as [ci ty p cs IH] using ComponentNode_forall_ind.
  cbn [updateComponentRecursive].
  destruct (decide (ci = i)) as [->|Hne].
  - cbn [withProps updateComponentRecursive id type children].
    destruct (decide (i = i)); [reflexivity | contradiction].
  - cbn [updateComponentRecursive].
    destruct (decide (ci = i)); [contradiction |].
    f_equal. rewrite map_map. apply map_ext_in. intros x Hx.
    rewrite Forall_forall in IH. apply IH. apply list_elem_of_In. exact Hx.
Qed.

(** X3: of two successive replacements of the props of the same
    identifier only the second shows: the result is the one of the second
    replacement alone. *)
Theorem update_props_last_write_wins (T : list ComponentNode) (i : string)
    (P Q : gmap string json) :
  updateComponentInTree (updateComponentInTree T i (withProps P)) i (withProps Q)
  = updateComponentInTree T i (withProps Q).
Proof.
  unfold updateComponentInTree. rewrite map_map.
  apply map_ext. intros t. apply update_twice.
Qed.

Lemma delete_ids_sublist (t t' : ComponentNode) (i : string) :
  deleteComponentRecursive t i = Some t' -> ids t' `sublist_of` ids t.
Proof.
  revert t'. induction t as [ci ty p cs IH] using ComponentNode_forall_ind.
  intros t'. cbn [deleteComponentRecursive].
  destruct (decide (ci = i)); [discriminate |].
  intros [= <-]. cbn [ids]. apply sublist_skip.
  induction IH as [|x r Hx _ IHr]; [reflexivity |].
  cbn [map filterNonNull flat_map].
  destruct (deleteComponentRecursive x i) as [x'|] eqn:Hdel.
  - cbn [flat_map]. apply sublist_app; [apply Hx; reflexivity | exact IHr].
  - apply sublist_inserts_l. exact IHr.
Qed.

(** X4: deleting an identifier removes every occurrence of it, adds
    nothing and reorders nothing (the identifiers left are a subsequence of
    the ones before), keeps every root that does not contain it, and doing it
    again changes nothing. *)
Theorem delete_removes_and_is_idempotent (T : list ComponentNode) (i : string) :
  ~ In i (forestIds (deleteComponentFromTree T i))
  /\ forestIds (deleteComponentFromTree T i) `sublist_of` forestIds T
  /\ (forall root, In root T -> ~ In i (ids root) ->
        In root (deleteComponentFromTree T i))
  /\ deleteComponentFromTree (deleteComponentFromTree T i) i
     = deleteComponentFromTree T i.
Proof.
  split; [apply deleteComponentFromTree_removes |].
  split.
  { unfold deleteComponentFromTree, forestIds.
    induction T as [|t r IH]; [reflexivity |].
    cbn [map filterNonNull flat_map].
    destruct (deleteComponentRecursive t i) as [t'|] eqn:Hdel.
    - cbn [flat_map]. apply sublist_app; [exact (delete_ids_sublist t t' i Hdel) | exact IH].
    - apply sublist_inserts_l. exact IH. }
  split.
  { intros root Hin Hnot. unfold deleteComponentFromTree.
    induction T as [|t r IH]; [destruct Hin |].
    cbn [map filterNonNull].
    destruct Hin as [->|Hin].
    - rewrite (deleteComponentRecursive_absent root i Hnot). left. reflexivity.
    - destruct (deleteComponentRecursive t i); [right |]; apply IH; exact Hin. }
  apply deleteComponentFromTree_absent. apply deleteComponentFromTree_removes.
Qed.

(** ** What the handlers leave selected *)

Lemma firstFound_app {A B : Type} (f : A -> option B) (l1 l2 : list A) :
  firstFound f (l1 ++ l2)
  = match firstFound f l1 with
    | Some x => Some x
    | None => firstFound f l2
    end.
Proof.
  induction l1 as [|x r IH]; [reflexivity |].
  cbn. destruct (f x); [reflexivity | exact IH].
Qed.

(** The page [currentPage] resolves to, after a handler has rewritten the
    roots of the pages that carry the current identifier. *)
Lemma currentPage_after_map (st : State) (page : PageData)
    (f : list ComponentNode -> list ComponentNode) (sel : option string) (tl : list toast) :
  currentPage st = Some page ->
  currentPage
    {| pages :=
         map (fun pg =>
                if decide (page_id pg ≠ currentPageId st) then pg
                else withComponents pg (f (components pg)))
           (pages st);
       currentPageId := currentPageId st;
       selectedComponentId := sel;
       toasts := tl |}
  = Some (withComponents page (f (components page))).
Proof.
  unfold currentPage. cbn [pages currentPageId].
  induction (pages st) as [|p r IH]; [discriminate |].
  cbn [map List.find].
  destruct (decide (page_id p ≠ currentPageId st)) as [Hne|Heq].
  - rewrite bool_decide_eq_false_2 by exact Hne. exact IH.
  - apply dec_stable in Heq.
    rewrite bool_decide_eq_true_2 by exact Heq.
    cbn [withComponents page_id]. rewrite bool_decide_eq_true_2 by exact Heq.
    intros [= <-]. reflexivity.
Qed.

(** X5: when the only root of the current page is selected and deleted,
    the enhanced page is left with an empty root list, and computing its
    selected component then throws; the page of [VisualBuilder.tsx], which
    tests the length first, gets [null]. *)
Theorem deleting_the_only_root (st : State) (page : PageData) (root : ComponentNode) :
  currentPage st = Some page ->
  components page = [root] ->
  selectedComponentId st = Some (id root) ->
  id root <> "" ->
  currentPage (handleDeleteComponent st) = Some (withComponents page [])
  /\ selectedComponent (handleDeleteComponent st) = Threw TypeError
  /\ VisualBuilder.selectedComponent
       (VisualBuilder.handleDeleteComponent
          {| VisualBuilder.components := [root];
             VisualBuilder.selectedId := Some (id root);
             VisualBuilder.toasts := [] |}) = None.
Proof.
  intros Hpage Hroots Hsel Hid.
  assert (Hdel : deleteComponentFromTree [root] (id root) = []).
  { unfold deleteComponentFromTree. destruct root as [ci ty p cs]. cbn.
    destruct (decide (ci = ci)); [reflexivity | contradiction]. }
  assert (Hcur : currentPage (handleDeleteComponent st) = Some (withComponents page [])).
  { unfold handleDeleteComponent. rewrite Hsel, Hpage.
    destruct (id root) as [|a s] eqn:Hi; [contradiction |].
    rewrite (currentPage_after_map st page
               (fun cs => deleteComponentFromTree cs (String a s)) None _ Hpage).
    rewrite Hroots, Hdel. reflexivity. }
  split; [exact Hcur |]. split.
  - unfold selectedComponent. rewrite Hcur. reflexivity.
  - unfold VisualBuilder.handleDeleteComponent, VisualBuilder.selectedComponent.
    cbn [VisualBuilder.selectedId VisualBuilder.components].
    destruct (id root) as [|a s] eqn:Hi; [contradiction |].
    cbn [VisualBuilder.components]. rewrite Hdel. reflexivity.
Qed.

Lemma deleting_the_only_root_witness :
  selectedComponent
    (handleDeleteComponent
       {| pages := [textRootPage]; currentPageId := "page_1";
          selectedComponentId := Some "Text-1"; toasts := [] |})
  = Threw TypeError.
Proof.
  apply (deleting_the_only_root
           {| pages := [textRootPage]; currentPageId := "page_1";
              selectedComponentId := Some "Text-1"; toasts := [] |}
           textRootPage (Node "Text-1" "Text" ∅ [])); try reflexivity.
  discriminate.
Defined.

(** The search after an update whose updater keeps the identifier. *)
Lemma findComponentById_update_keeping_id (t : ComponentNode) (i : string)
    (u : ComponentNode -> ComponentNode) (n : ComponentNode) :
  (forall c, id (u c) = id c) ->
  findComponentById t i = Some n ->
  findComponentById (updateComponentRecursive t i u) i = Some (u n).
Proof.
  intros Hu. revert n. induction t as [ci ty p cs IH] using ComponentNode_forall_ind.
  intros n. cbn [findComponentById updateComponentRecursive].
  destruct (decide (ci = i)) as [->|Hne].
  - intros [= <-].
    pose proof (Hu (Node i ty p cs)) as Hid.
    destruct (u (Node i ty p cs)) as [ui uty up ucs] eqn:Hun. cbn in Hid. subst ui.
    cbn [findComponentById]. destruct (decide (i = i)); [reflexivity | contradiction].
  - cbn [findComponentById]. destruct (decide (ci = i)); [contradiction |].
    induction IH as [|x r Hx _ IHr]; [discriminate |].
    cbn [firstFound map].
    destruct (findComponentById x i) as [found|] eqn:Hfound.
    + intros [= <-]. rewrite (Hx found eq_refl). reflexivity.
    + intros Hrest.
      assert (Hnot : ~ In i (ids x)).
      { intros Hin. destruct (findComponentById_present x i Hin) as [m Hm]. congruence. }
      rewrite (updateComponentRecursive_absent x i _ Hnot), Hfound.
      apply IHr. exact Hrest.
Qed.

Lemma find_the_new_child (t par c : ComponentNode) (parentId : string) :
  findComponentById t parentId = Some par ->
  ~ In (id c) (ids t) ->
  findComponentById (updateComponentRecursive t parentId (withNewChild c)) (id c) = Some c.
Proof.
  assert (Hself : findComponentById c (id c) = Some c).
  { destruct c as [ci ty p cs]. cbn.
    destruct (decide (ci = ci)); [reflexivity | contradiction]. }
  revert par. induction t as [ci ty p cs IH] using ComponentNode_forall_ind.
  intros par Hfind Hfresh. cbn [ids] in Hfresh.
  assert (Hci : ci <> id c) by (intros ->; apply Hfresh; left; reflexivity).
  assert (Hkids : forall x, In x cs -> findComponentById x (id c) = None).
  { intros x Hx. apply findComponentById_absent. intros Hin.
    apply Hfresh. right. apply in_flat_map. exists x. split; assumption. }
  cbn [findComponentById updateComponentRecursive] in *.
  destruct (decide (ci = parentId)) as [->|Hne].
  - cbn [withNewChild findComponentById id children].
    destruct (decide (parentId = id c)); [contradiction |].
    rewrite firstFound_app, (firstFound_None _ cs Hkids). cbn. rewrite Hself. reflexivity.
  - cbn [findComponentById]. destruct (decide (ci = id c)); [contradiction |].
    clear Hfresh Hci n.
    induction IH as [|x r Hx _ IHr]; [discriminate |].
    cbn [firstFound map] in *.
    assert (Hxnone : findComponentById x (id c) = None) by (apply Hkids; left; reflexivity).
    destruct (findComponentById x parentId) as [found|] eqn:Hfound.
    + rewrite (Hx found eq_refl).
      * reflexivity.
      * intros Hin. destruct (findComponentById_present x (id c) Hin) as [m Hm]. congruence.
    + assert (Hnot : ~ In parentId (ids x)).
      { intros Hin. destruct (findComponentById_present x parentId Hin) as [m Hm]. congruence. }
      rewrite (updateComponentRecursive_absent x parentId _ Hnot), Hxnone.
      apply IHr; [exact Hfind |].
      intros y Hy. apply Hkids. right. exact Hy.
Qed.

(** X6: when [handleAddChild] accepts and the new identifier is not yet in
    the first root, the new node becomes the last child of the parent it was
    given and is the selected component afterwards. *)
Theorem added_child_is_last_and_selected (st : State) (page : PageData)
    (first : ComponentNode) (rest : list ComponentNode)
    (parentId childType stamp : string) (par newChild : ComponentNode) :
  currentPage st = Some page ->
  components page = first :: rest ->
  findComponentById first parentId = Some par ->
  canContainWidget (type par) childType = true ->
  createDefaultComponent childType stamp = Returned newChild ->
  ~ In (id newChild) (ids first) ->
  exists st' first',
    handleAddChild st parentId childType stamp = Returned st'
    /\ (components <$> currentPage st')
       = Some (first' :: updateComponentInTree rest parentId (withNewChild newChild))
    /\ findComponentById first' parentId = Some (withNewChild newChild par)
    /\ children (withNewChild newChild par) = children par ++ [newChild]
    /\ selectedComponent st' = Returned (Some newChild).
Proof.
  intros Hpage Hroots Hfind Hcheck Hcreate Hfresh.
  eexists. exists (updateComponentRecursive first parentId (withNewChild newChild)).
  assert (Hrun : handleAddChild st parentId childType stamp
                 = Returned
                     {| pages :=
                          map (fun p =>
                                 if decide (page_id p ≠ currentPageId st) then p
                                 else withComponents p
                                        (updateComponentInTree (components p) parentId
                                           (withNewChild newChild)))
                            (pages st);
                        currentPageId := currentPageId st;
                        selectedComponentId := Some (id newChild);
                        toasts :=
                          toasts st
                          ++ [ToastSuccess ("Added " +:+ childType +:+ " to " +:+ type par)] |}).
  { unfold handleAddChild. rewrite Hpage, Hroots, Hfind, Hcheck, Hcreate. reflexivity. }
  split; [exact Hrun |].
  pose proof (currentPage_after_map st page
                (fun cs => updateComponentInTree cs parentId (withNewChild newChild))
                (Some (id newChild))
                (toasts st ++ [ToastSuccess ("Added " +:+ childType +:+ " to " +:+ type par)])
                Hpage) as Hcur.
  split; [rewrite Hcur, Hroots; reflexivity |].
  split; [apply findComponentById_update_keeping_id; [reflexivity | exact Hfind] |].
  split; [reflexivity |].
  unfold selectedComponent. rewrite Hcur. cbn [withComponents components selectedComponentId].
  rewrite Hroots. cbn [updateComponentInTree map]. unfold default. cbn [from_option]. unfold Datatypes.id.
  rewrite (find_the_new_child first par newChild parentId Hfind Hfresh). reflexivity.
Qed.

Lemma added_child_is_last_and_selected_witness :
  exists st',
    handleAddChild twoPageState "Scaffold-0" "Row" "7" = Returned st'
    /\ selectedComponent st' = Returned (Some (Node "Row-7" "Row" ∅ [])).
Proof.
  destruct (added_child_is_last_and_selected twoPageState
              {| page_id := "page_1"; page_name := "Home"; route := "/";
                 is_home := true; components := [sampleScaffold] |}
              sampleScaffold [] "Scaffold-0" "Row" "7" sampleScaffold
              (Node "Row-7" "Row" ∅ []))
    as (st' & first' & Hrun & _ & _ & _ & Hsel); try reflexivity.
  - cbn. intros [H|[H|[]]]; discriminate.
  - exists st'. split; assumption.
Defined.

Lemma find_appended_child (first c : ComponentNode) :
  ~ In (id c) (ids first) ->
  findComponentById (withNewChild c first) (id c) = Some c.
Proof.
  destruct first as [ci ty p cs]. cbn [ids withNewChild findComponentById id children type props].
  intros Hfresh.
  destruct (decide (ci = id c)) as [->|_]; [exfalso; apply Hfresh; left; reflexivity |].
  rewrite firstFound_app, firstFound_None.
  - cbn [firstFound]. destruct c as [i t q k]. cbn.
    destruct (decide (i = i)); [reflexivity | contradiction].
  - intros x Hx. apply findComponentById_absent. intros Hin.
    apply Hfresh. right. apply in_flat_map. exists x. split; assumption.
Qed.

(** X7: in the page of [VisualBuilder.tsx], adding a component of a
    registered kind always succeeds, and when its identifier is not yet in
    the first root the new component is the selected one afterwards: the
    single root of an empty canvas, or the last child of the first root. *)
Theorem added_component_is_selected (st : VisualBuilder.State) (kind stamp : string)
    (d : WidgetDefinition) :
  getWidgetDefinition kind = Some d ->
  match VisualBuilder.components st with
  | first :: _ => ~ In (kind +:+ "-" +:+ stamp) (ids first)
  | [] => True
  end ->
  exists newComponent st',
    createDefaultComponent kind stamp = Returned newComponent
    /\ VisualBuilder.handleAddComponent st kind stamp = Returned st'
    /\ VisualBuilder.selectedComponent st' = Some newComponent
    /\ VisualBuilder.components st'
       = match VisualBuilder.components st with
         | first :: rest =>
             Node (id first) (type first) (props first)
               (children first ++ [newComponent]) :: rest
         | [] => [newComponent]
         end.
Proof.
  intros Hdef Hfresh.
  unfold VisualBuilder.handleAddComponent, createDefaultComponent. rewrite Hdef.
  do 2 eexists. split; [reflexivity |]. split; [reflexivity |].
  unfold VisualBuilder.selectedComponent.
  cbn [VisualBuilder.components VisualBuilder.selectedId].
  destruct (VisualBuilder.components st) as [|first rest].
  - split; [| reflexivity]. cbn. destruct (decide _); [reflexivity | contradiction].
  - split; [| reflexivity].
    unfold default. cbn [from_option]. unfold Datatypes.id.
    apply (find_appended_child first
             {| id := kind +:+ "-" +:+ stamp; type := kind;
                props := default ∅ (defaultProps d); children := [] |}).
    exact Hfresh.
Qed.

Lemma added_component_is_selected_witness :
  exists st',
    VisualBuilder.handleAddComponent
      {| VisualBuilder.components := [sampleScaffold];
         VisualBuilder.selectedId := None; VisualBuilder.toasts := [] |} "Card" "5"
    = Returned st'
    /\ VisualBuilder.selectedComponent st' = Some (Node "Card-5" "Card" ∅ []).
Proof.
  destruct (added_component_is_selected
              {| VisualBuilder.components := [sampleScaffold];
                 VisualBuilder.selectedId := None; VisualBuilder.toasts := [] |}
              "Card" "5"
              (widget "Card" "Card" Layout true
                 [ prop "elevation" TNumber "Elevation" (Some (JNum 1)) ]))
    as (c & st' & Hc & Hrun & Hsel & _).
  - reflexivity.
  - cbn. intros [H|[H|[]]]; discriminate.
  - exists st'. split; [exact Hrun |]. rewrite Hsel. f_equal.
    injection Hc as <-. reflexivity.
Defined.

(** X8: editing one property of the selected component through the
    property editor keeps its other properties: afterwards the selected
    component is the same node with the edited key set to the new value and
    every other key as before.  In both builder pages. *)
Theorem property_edit_keeps_the_other_properties (comp : ComponentNode)
    (sel k : string) (v : json) :
  sel <> "" ->
  (forall st,
     VisualBuilder.selectedId st = Some sel ->
     VisualBuilder.selectedComponent st = Some comp ->
     VisualBuilder.selectedComponent
       (VisualBuilder.handleUpdateProps st (PropertyEditor.handlePropChange comp k v))
     = Some (withProps (<[k := v]> (props comp)) comp))
  /\ (forall st,
        selectedComponentId st = Some sel ->
        selectedComponent st = Returned (Some comp) ->
        selectedComponent
          (handleUpdateProps st (PropertyEditor.handlePropChange comp k v))
        = Returned (Some (withProps (<[k := v]> (props comp)) comp)))
  /\ props (withProps (<[k := v]> (props comp)) comp) !! k = Some v
  /\ (forall k', k' <> k ->
        props (withProps (<[k := v]> (props comp)) comp) !! k' = props comp !! k').
Proof.
  intros Hsel. destruct sel as [|a s]; [contradiction |].
  split; [| split; [| split]].
  - intros st Hid. unfold VisualBuilder.selectedComponent, VisualBuilder.handleUpdateProps.
    rewrite Hid. cbn [VisualBuilder.components VisualBuilder.selectedId].
    destruct (VisualBuilder.components st) as [|first rest]; [discriminate |].
    unfold default. cbn [from_option updateComponentInTree map]. unfold Datatypes.id.
    intros [= Hfind]. apply findComponentById_update. exact Hfind.
  - intros st Hid. unfold selectedComponent at 1.
    destruct (currentPage st) as [page|] eqn:Hpage; [| discriminate].
    destruct (components page) as [|first rest] eqn:Hroots; [discriminate |].
    rewrite Hid. unfold default. cbn [from_option]. unfold Datatypes.id.
    intros [= Hfind].
    unfold handleUpdateProps. rewrite Hid, Hpage.
    unfold selectedComponent.
    rewrite (currentPage_after_map st page
               (fun cs => updateComponentInTree cs (String a s)
                            (withProps (PropertyEditor.handlePropChange comp k v)))
               (Some (String a s)) (toasts st) Hpage).
    cbn [withComponents components selectedComponentId]. rewrite Hroots.
    cbn [updateComponentInTree map]. unfold default. cbn [from_option]. unfold Datatypes.id.
    rewrite (findComponentById_update first (String a s) _ comp Hfind). reflexivity.
  - cbn [withProps props]. apply lookup_insert_eq.
  - intros k' Hne. cbn [withProps props]. apply lookup_insert_ne. congruence.
Qed.

Lemma property_edit_keeps_the_other_properties_witness :
  selectedComponent
    (handleUpdateProps
       {| pages := pages twoPageState; currentPageId := "page_1";
          selectedComponentId := Some "Text-1"; toasts := [] |}
       (PropertyEditor.handlePropChange sampleText "text" (JStr "Bye")))
  = Returned
      (Some (Node "Text-1" "Text"
               (<["text" := JStr "Bye"]> {[ "text" := JStr "Hi"; "color" := JStr "#ff0000" ]})
               [])).
Proof.
  destruct (property_edit_keeps_the_other_properties sampleText "Text-1" "text" (JStr "Bye"))
    as (_ & Henhanced & _); [discriminate |].
  apply (Henhanced
           {| pages := pages twoPageState; currentPageId := "page_1";
              selectedComponentId := Some "Text-1"; toasts := [] |});
    reflexivity.
Defined.

(** ** Pages *)

Lemma find_in_filtered (ps : list PageData) (cur i : string) :
  cur <> i ->
  List.find (fun p => bool_decide (page_id p = cur)) (filter (fun p => page_id p ≠ i) ps)
  = List.find (fun p => bool_decide (page_id p = cur)) ps.
Proof.
  intros Hne. induction ps as [|p r IH]; [reflexivity |].
  rewrite filter_cons. cbn [List.find].
  destruct (decide (page_id p ≠ i)) as [_|Heq].
  - cbn [List.find]. destruct (bool_decide (page_id p = cur)); [reflexivity | exact IH].
  - apply dec_stable in Heq.
    rewrite bool_decide_eq_false_2 by congruence. exact IH.
Qed.

(** X9: deleting a page other than the one in view never changes the
    page in view: [handleDeletePage] returns, and the current page resolves
    to the same page as before. *)
Theorem deleting_another_page_keeps_the_view (st : State) (i : string) :
  currentPageId st <> i ->
  exists st',
    handleDeletePage st i = Returned st'
    /\ currentPageId st' = currentPageId st
    /\ currentPage st' = currentPage st.
Proof.
  intros Hne. unfold handleDeletePage.
  destruct (decide (length (pages st) = 1)).
  - eexists. split; [reflexivity |]. split; reflexivity.
  - destruct (decide (currentPageId st = i)); [contradiction |].
    eexists. split; [reflexivity |]. split; [reflexivity |].
    unfold currentPage. cbn [pages currentPageId].
    apply find_in_filtered. exact Hne.
Qed.

Lemma deleting_another_page_keeps_the_view_witness :
  exists st',
    handleDeletePage twoPageState "page_2" = Returned st'
    /\ currentPage st' = currentPage twoPageState.
Proof.
  destruct (deleting_another_page_keeps_the_view twoPageState "page_2")
    as (st' & Hrun & _ & Hcur); [discriminate |].
  exists st'. split; assumption.
Defined.





(** ** The registry and the panels that read it *)

(** X11: the entries of the registry are consistent: the key is the
    [id], property names are not repeated, options are listed exactly for
    [enum] properties, and every default value has the declared type (for an
    [enum], it is one of the options). *)
Theorem registry_is_consistent (k : string) (d : WidgetDefinition) :
  getWidgetDefinition k = Some d ->
  def_id d = k
  /\ NoDup (map prop_name (def_props d))
  /\ Forall descriptorOk (def_props d).
Proof.
  each_kind;
    (split; [reflexivity |]; split;
     [ apply (bool_decide_unpack _); vm_compute; exact I
     | repeat (apply Forall_cons; split); try apply Forall_nil_2;
       (split;
        [ split; [intros [? Hopt]; first [discriminate Hopt | reflexivity]
                 | intros Hty; first [discriminate Hty | eexists; reflexivity] ]
        | cbn; first [exact I | eexists; reflexivity
                     | do 2 eexists; split; [reflexivity |]; split; [reflexivity |]; in_list ] ]) ]).
Qed.

Lemma registry_is_consistent_witness :
  Forall descriptorOk
    [ prop "text" TString "Text" (Some (JStr "Hello World"));
      prop "fontSize" TNumber "Font Size" (Some (JNum 14));
      prop "color" TColor "Color" (Some (JStr "#000000"));
      enumProp "fontWeight" "Font Weight" "normal" ["normal"; "bold"];
      enumProp "alignment" "Alignment" "left"
        ["left"; "right"; "center"; "justify"; "start"; "end"] ].
Proof.
  exact (proj2 (proj2 (registry_is_consistent "Text" _ eq_refl))).
Defined.

(** X12: for a freshly created component of any registered kind the
    property editor renders, for every descriptor, the controls of its type
    holding the default value the registry declares for it.  Where none is
    declared, a text field, a number field and a select hold the empty
    string, a checkbox is unchecked, and a colour picker holds [#000000]
    while the text field beside it holds the empty string. *)
Theorem fresh_component_shows_declared_defaults (kind stamp : string)
    (d : WidgetDefinition) :
  getWidgetDefinition kind = Some d ->
  exists n,
    createDefaultComponent kind stamp = Returned n
    /\ PropertyEditor.inputs n
       = Some (map (fun p =>
                      let declared := default (JStr "") (defaultValue p) in
                      (prop_name p,
                       match prop_type p with
                       | TString => [PropertyEditor.TextInput declared]
                       | TNumber => [PropertyEditor.NumberInput declared]
                       | TBoolean =>
                           [PropertyEditor.Checkbox
                              (default (JBool false) (defaultValue p))]
                       | TColor =>
                           [PropertyEditor.ColorInput
                              (default (JStr "#000000") (defaultValue p));
                            PropertyEditor.TextInput declared]
                       | TEnum =>
                           [PropertyEditor.Select declared (default [] (options p))]
                       | TObject => []
                       end))
                 (def_props d)).
Proof.
  each_kind; (eexists; split; [reflexivity | vm_compute; reflexivity]).
Qed.

Lemma fresh_component_shows_declared_defaults_witness :
  exists n,
    createDefaultComponent "Container" "1" = Returned n
    /\ PropertyEditor.inputs n
       = Some [ ("backgroundColor",
                 [PropertyEditor.ColorInput (JStr "#000000");
                  PropertyEditor.TextInput (JStr "")]);
                ("padding", [PropertyEditor.NumberInput (JNum 8)]);
                ("margin", [PropertyEditor.NumberInput (JNum 0)]);
                ("borderRadius", [PropertyEditor.NumberInput (JNum 0)]);
                ("border", [PropertyEditor.Checkbox (JBool false)]) ].
Proof.
  exact (fresh_component_shows_declared_defaults "Container" "1" _ eq_refl).
Defined.

(** X13: the deny table of [validateComponentNesting] and the capability
    check of [canContainWidget] never refuse the same pair: whenever the table
    rejects a child kind under a parent kind, naming both in its message,
    [canContainWidget] accepts that pair. *)
Theorem nesting_table_and_capability_check (parentType childType : string) :
  Validation.isValid (Validation.validateComponentNesting parentType childType) = false ->
  canContainWidget parentType childType = true
  /\ Validation.errors (Validation.validateComponentNesting parentType childType)
     = [ {| Validation.field := "nesting";
            Validation.message := childType +:+ " cannot be a child of " +:+ parentType |} ].
Proof.
  unfold Validation.validateComponentNesting, Validation.invalidCombinations.
  cbn [assoc].
  repeat (case_decide;
          [ subst;
            destruct (bool_decide (parentType ∈ _)) eqn:Hin;
            [ | discriminate ];
            intros _; split; [| reflexivity];
            apply bool_decide_eq_true in Hin; apply list_elem_of_In in Hin;
            cbn in Hin; repeat (destruct Hin as [<-|Hin]; [reflexivity |]); destruct Hin
          |]).
  discriminate.
Qed.

Lemma nesting_table_and_capability_check_witness :
  canContainWidget "Scaffold" "Text" = true.
Proof.
  apply (nesting_table_and_capability_check "Scaffold" "Text"). reflexivity.
Defined.

(** X14: for a node of any registered kind, the component tree shows its
    add-child button exactly when [canContainWidget] accepts a [Container]
    under that kind, except for [AppBar] and [SizedBox]: there the button is
    shown and [handleAddChild] will refuse. *)
Theorem add_button_and_capability_check (node : ComponentNode) (d : WidgetDefinition) :
  getWidgetDefinition (type node) = Some d ->
  EnhancedComponentTree.canHaveChildren node
  = (canContainWidget (type node) EnhancedComponentTree.buttonChildType
     || bool_decide (type node ∈ ["AppBar"; "SizedBox"]))
  /\ (type node ∈ ["AppBar"; "SizedBox"] ->
      canContainWidget (type node) EnhancedComponentTree.buttonChildType = false).
Proof.
  unfold EnhancedComponentTree.canHaveChildren.
  destruct node as [i t p cs]. cbn [type].
  each_kind;
    (split;
     [ vm_compute; reflexivity
     | intros Hmem;
       first
         [ vm_compute; reflexivity
         | exfalso; apply list_elem_of_In in Hmem; cbn in Hmem;
           repeat (destruct Hmem as [Hmem|Hmem]; [discriminate Hmem |]); destruct Hmem ] ]).
Qed.

Lemma add_button_and_capability_check_witness :
  EnhancedComponentTree.canHaveChildren (Node "AppBar-3" "AppBar" ∅ []) = true
  /\ canContainWidget "AppBar" "Container" = false.
Proof.
  destruct (add_button_and_capability_check (Node "AppBar-3" "AppBar" ∅ []) _ eq_refl)
    as [Hshown Hrefused].
  split; [rewrite Hshown; reflexivity |].
  apply Hrefused. apply list_elem_of_In. left. reflexivity.
Defined.

(** X15: every widget the palette lists sits in the group of its own
    category, no group lists a kind twice, and clicking it adds a
    component: [createDefaultComponent] never throws for a palette entry.
    Conversely every registered kind is listed, in the group of its
    category. *)
Theorem palette_lists_every_kind_and_adds_it (stamp : string) :
  (forall key label ws,
     In (key, (label, ws)) ComponentPalette.categories ->
     NoDup (map def_id ws)
     /\ forall w, In w ws ->
          category w = key
          /\ getWidgetDefinition (def_id w) = Some w
          /\ exists n, createDefaultComponent (def_id w) stamp = Returned n
                       /\ type n = def_id w)
  /\ (forall k d,
        getWidgetDefinition k = Some d ->
        exists label ws,
          In (category d, (label, ws)) ComponentPalette.categories /\ In d ws).
Proof.
  split.
  - intros key label ws Hc. vm_compute in Hc.
    destruct Hc as [Hc|[Hc|[Hc|[]]]]; injection Hc as <- <- <-;
      (split;
       [ apply (bool_decide_unpack _); vm_compute; exact I
       | intros w Hw; cbn in Hw;
         repeat (destruct Hw as [<-|Hw];
                 [ split; [reflexivity |]; split; [reflexivity |];
                   eexists; split; reflexivity |]);
         destruct Hw ]).
  - intros k d. each_kind; (do 2 eexists; split; [in_list | in_list]).
Qed.

(** X16: the canvas maps the alignment options the registry offers for
    [Row] and [Column] to pairwise different CSS values, and a node without
    the property is drawn as one that holds the registry's default for
    it. *)
Theorem canvas_alignment_follows_the_registry :
  (forall o1 o2,
     In o1 mainAxisOptions -> In o2 mainAxisOptions ->
     CanvasRenderer.getFlexJustify (Some (JStr o1))
     = CanvasRenderer.getFlexJustify (Some (JStr o2)) -> o1 = o2)
  /\ (forall o1 o2,
        In o1 crossAxisOptions -> In o2 crossAxisOptions ->
        CanvasRenderer.getFlexAlign (Some (JStr o1))
        = CanvasRenderer.getFlexAlign (Some (JStr o2)) -> o1 = o2)
  /\ (forall k d p,
        getWidgetDefinition k = Some d -> In p (def_props d) ->
        (prop_name p = "mainAxisAlignment" ->
         CanvasRenderer.getFlexJustify (defaultValue p)
         = CanvasRenderer.getFlexJustify None)
        /\ (prop_name p = "crossAxisAlignment" ->
            CanvasRenderer.getFlexAlign (defaultValue p)
            = CanvasRenderer.getFlexAlign None)).
Proof.
  split; [| split].
  - intros o1 o2 H1 H2. cbn in H1, H2.
    repeat (destruct H1 as [<-|H1]);
      repeat (destruct H2 as [<-|H2]);
      try contradiction; first [reflexivity | discriminate].
  - intros o1 o2 H1 H2. cbn in H1, H2.
    repeat (destruct H1 as [<-|H1]);
      repeat (destruct H2 as [<-|H2]);
      try contradiction; first [reflexivity | discriminate].
  - intros k d p. each_kind; intros Hp; cbn in Hp;
      repeat (destruct Hp as [<-|Hp]);
      try contradiction; (split; intros Hn; first [discriminate Hn | reflexivity]).
Qed.

(** ** Routes, names and the page dialogs *)

Lemma codes_app (s1 s2 : string) :
  JsString.codes (s1 +:+ s2) = JsString.codes s1 ++ JsString.codes s2.
Proof.
  unfold JsString.codes. induction s1 as [|a s1 IH]; [reflexivity |].
  change (String a s1 +:+ s2) with (String a (s1 +:+ s2)).
  cbn [String.list_ascii_of_string map app]. f_equal. exact IH.
Qed.

Lemma routePattern_starts_with_slash (route : string) :
  JsString.routePattern route = true ->
  route <> "" /\ JsString.trimIsEmpty route = false
  /\ JsString.startsWithSlash route = true.
Proof.
  unfold JsString.routePattern, JsString.trimIsEmpty, JsString.startsWithSlash.
  destruct route as [|a s]; [discriminate |].
  unfold JsString.codes. cbn [String.list_ascii_of_string map].
  intros Hp. apply andb_prop in Hp. destruct Hp as [Hslash _].
  apply Nat.eqb_eq in Hslash. rewrite Hslash.
  split; [discriminate |]. split; [| reflexivity].
  destruct (map Ascii.nat_of_ascii (String.list_ascii_of_string s)) as [|b2 [|b3 r]];
    reflexivity.
Qed.

Lemma validateRoute_checks (route : string) (existingRoutes : list string) :
  (Validation.isValid (Validation.validateRoute route existingRoutes) = true
   <-> JsString.routePattern route = true /\ ~ route ∈ existingRoutes)
  /\ (Validation.isValid (Validation.validateRoute route existingRoutes) = true
      <-> Validation.errors (Validation.validateRoute route existingRoutes) = [])
  /\ Forall (fun e => Validation.field e = "route")
       (Validation.errors (Validation.validateRoute route existingRoutes))
  /\ length (Validation.errors (Validation.validateRoute route existingRoutes)) <= 1.
Proof.
  unfold Validation.validateRoute, Validation.missing.
  destruct (JsString.routePattern route) eqn:Hpat.
  - destruct (routePattern_starts_with_slash route Hpat) as (Hne & Hblank & Hslash).
    rewrite bool_decide_eq_false_2 by exact Hne. rewrite Hblank, Hslash. cbn [orb negb].
    destruct (bool_decide (route ∈ existingRoutes)) eqn:Hin; cbn.
    + apply bool_decide_eq_true in Hin.
      repeat split; try discriminate; try lia; try (repeat constructor).
      intros [_ Hnot]. contradiction.
    + apply bool_decide_eq_false in Hin.
      repeat split; auto; try lia.
  - destruct (bool_decide (route = "") || JsString.trimIsEmpty route);
      [| destruct (negb (JsString.startsWithSlash route))]; cbn;
      (repeat split; try discriminate; try lia; try (repeat constructor);
       intros [Hfalse _]; discriminate Hfalse).
Qed.

(** X17: [validateRoute] accepts a route exactly when it matches the
    route pattern (a slash followed by lowercase letters, digits,
    underscores, hyphens and slashes) and is not among the existing routes;
    its two first tests never decide.  It reports at most one error, for the
    field [route]. *)
Theorem validateRoute_accepts_exactly (route : string) (existingRoutes : list string) :
  (Validation.isValid (Validation.validateRoute route existingRoutes) = true
   <-> JsString.routePattern route = true /\ ~ route ∈ existingRoutes)
  /\ (Validation.isValid (Validation.validateRoute route existingRoutes) = true
      <-> Validation.errors (Validation.validateRoute route existingRoutes) = [])
  /\ Forall (fun e => Validation.field e = "route")
       (Validation.errors (Validation.validateRoute route existingRoutes))
  /\ length (Validation.errors (Validation.validateRoute route existingRoutes)) <= 1.
Proof.
  exact (validateRoute_checks route existingRoutes).
Qed.

Lemma foldl_insert_not_empty (acc : gmap string string)
    (l : list Validation.ValidationError) :
  l <> [] ->
  foldl (fun acc err => <[Validation.field err := Validation.message err]> acc) acc l ≠ ∅.
Proof.
  revert acc. induction l as [|e r IH]; intros acc Hne; [contradiction |].
  cbn [foldl]. destruct r as [|e' r'].
  - cbn. apply insert_non_empty.
  - apply IH. discriminate.
Qed.

Lemma collect_empty (acc : gmap string string) (errs : list Validation.ValidationError) :
  PageManager.collect acc (Validation.result errs) = ∅ <-> acc = ∅ /\ errs = [].
Proof.
  unfold PageManager.collect, Validation.result. cbn [Validation.isValid Validation.errors].
  destruct errs as [|e r].
  - split; [intros ->; auto | intros [-> _]; reflexivity].
  - split; [| intros [_ H]; discriminate H].
    intros Hempty. exfalso.
    exact (foldl_insert_not_empty acc (e :: r) ltac:(discriminate) Hempty).
Qed.

Lemma collect_keeps_key (acc : gmap string string) (v : Validation.ValidationResult)
    (k : string) :
  is_Some (acc !! k) -> is_Some (PageManager.collect acc v !! k).
Proof.
  unfold PageManager.collect. destruct (Validation.isValid v); [auto |].
  revert acc. induction (Validation.errors v) as [|e r IH]; intros acc Hk; [exact Hk |].
  cbn [foldl]. apply IH.
  destruct (decide (Validation.field e = k)) as [->|Hne].
  - rewrite lookup_insert_eq. eauto.
  - rewrite lookup_insert_ne by exact Hne. exact Hk.
Qed.

Lemma pretty_N_char_digit (x : N) :
  JsString.isDigit (Ascii.nat_of_ascii (pretty_N_char x)) = true.
Proof. unfold pretty_N_char. repeat case_match; reflexivity. Qed.

Lemma pretty_N_go_digits (x : N) (s : string) :
  forallb JsString.isDigit (JsString.codes s) = true ->
  forallb JsString.isDigit (JsString.codes (pretty_N_go x s)) = true.
Proof.
  revert s. induction (N.lt_wf_0 x) as [x _ IH]. intros s Hs.
  destruct (decide (x = 0%N)) as [->|Hx]; [rewrite pretty_N_go_0; exact Hs |].
  rewrite pretty_N_go_step by lia.
  apply IH; [apply N.div_lt; lia |].
  unfold JsString.codes. cbn [String.list_ascii_of_string map forallb].
  rewrite pretty_N_char_digit. exact Hs.
Qed.

Lemma pretty_N_digits (x : N) :
  forallb JsString.isDigit (JsString.codes (pretty x)) = true.
Proof.
  unfold pretty, pretty_N. destruct (decide (x = 0%N)); [reflexivity |].
  apply pretty_N_go_digits. reflexivity.
Qed.

Lemma page_id_matches_identifiers (now : N) :
  JsString.identifierPattern ("page_" +:+ pretty now) = true.
Proof.
  unfold JsString.identifierPattern. rewrite codes_app.
  change (JsString.codes "page_") with [112; 97; 103; 101; 95].
  cbn [app]. cbn [forallb]. apply andb_true_intro. split; [reflexivity |].
  repeat (apply andb_true_intro; split; [reflexivity |]).
  pose proof (pretty_N_digits now) as Hd.
  induction (JsString.codes (pretty now)) as [|c r IH]; [reflexivity |].
  cbn [forallb] in *. apply andb_prop in Hd. destruct Hd as [Hc Hr].
  rewrite Hc, (IH Hr). rewrite orb_true_r. reflexivity.
Qed.

Lemma add_dialog_accepted (f f' : PageManager.Form) (ps : list PageData) (now : N)
    (page : EnhancedPages.Page) :
  PageManager.handleAddPage f ps now = (f', Some page) ->
  JsString.routePattern (EnhancedPages.route page) = true
  /\ ~ EnhancedPages.route page ∈ map route ps
  /\ 2 <= JsString.length (EnhancedPages.name page) <= 50
  /\ EnhancedPages.id page = "page_" +:+ pretty now
  /\ JsString.identifierPattern (EnhancedPages.id page) = true
  /\ PageManager.isAddDialogOpen f' = false
  /\ PageManager.errors f' = ∅.
Proof.
  unfold PageManager.handleAddPage.
  set (nameV := Validation.validatePageName (PageManager.pageName f)).
  set (routeV := Validation.validateRoute (PageManager.pageRoute f) (map route ps)).
  destruct (validateRoute_checks (PageManager.pageRoute f) (map route ps))
    as (Hiff & Hnil & Hfield & Hlen).
  fold routeV in Hiff, Hnil, Hfield, Hlen.
  destruct (decide (PageManager.collect (PageManager.collect ∅ nameV) routeV = ∅))
    as [Hempty|_]; [| discriminate].
  intros [= <- <-].
  cbn [EnhancedPages.route EnhancedPages.name EnhancedPages.id
       PageManager.isAddDialogOpen PageManager.errors].
  assert (HrouteV : routeV = Validation.result (Validation.errors routeV)) by reflexivity.
  rewrite HrouteV in Hempty. apply collect_empty in Hempty. destruct Hempty as [Hname Hroute].
  assert (HnameV : nameV = Validation.result (Validation.errors nameV)) by reflexivity.
  rewrite HnameV in Hname. apply collect_empty in Hname. destruct Hname as [_ Hname].
  destruct (proj1 Hiff (proj2 Hnil Hroute)) as [Hpat Hnot].
  split; [exact Hpat |]. split; [exact Hnot |].
  split.
  { subst nameV. unfold Validation.validatePageName in Hname.
    cbn [Validation.result Validation.errors] in Hname.
    destruct (Validation.missing (PageManager.pageName f)); [discriminate Hname |].
    destruct (JsString.length (PageManager.pageName f) <? 2)%nat eqn:Hlo;
      [discriminate Hname |].
    destruct (50 <? JsString.length (PageManager.pageName f))%nat eqn:Hhi;
      [discriminate Hname |].
    apply Nat.ltb_ge in Hlo, Hhi. lia. }
  split; [reflexivity |]. split; [apply page_id_matches_identifiers |].
  split; reflexivity.
Qed.

(** X18: the add-page dialog adds no page whose route is already taken:
    it then hands nothing to [onAddPage], keeps the form open and shows an
    error for the field [route].  A page it does hand over has a route that
    matches the route pattern and differs from every existing one, a name
    of 2 to 50 characters, and an identifier [page_] followed by the digits
    of the time, which matches the identifier pattern of the document. *)
Theorem add_page_dialog_checks_the_route (f : PageManager.Form) (ps : list PageData)
    (now : N) :
  (PageManager.pageRoute f ∈ map route ps ->
   exists f',
     PageManager.handleAddPage f ps now = (f', None)
     /\ is_Some (PageManager.errors f' !! "route")
     /\ PageManager.isAddDialogOpen f' = PageManager.isAddDialogOpen f
     /\ PageManager.pageRoute f' = PageManager.pageRoute f)
  /\ (forall f' page,
        PageManager.handleAddPage f ps now = (f', Some page) ->
        JsString.routePattern (EnhancedPages.route page) = true
        /\ ~ EnhancedPages.route page ∈ map route ps
        /\ 2 <= JsString.length (EnhancedPages.name page) <= 50
        /\ EnhancedPages.id page = "page_" +:+ pretty now
        /\ JsString.identifierPattern (EnhancedPages.id page) = true
        /\ PageManager.isAddDialogOpen f' = false
        /\ PageManager.errors f' = ∅).
Proof.
  unfold PageManager.handleAddPage.
  set (nameV := Validation.validatePageName (PageManager.pageName f)).
  set (routeV := Validation.validateRoute (PageManager.pageRoute f) (map route ps)).
  destruct (validateRoute_checks (PageManager.pageRoute f) (map route ps))
    as (Hiff & Hnil & Hfield & Hlen).
  fold routeV in Hiff, Hnil, Hfield, Hlen.
  split.
  - intros Htaken.
    assert (Hbad : Validation.isValid routeV = false).
    { destruct (Validation.isValid routeV) eqn:Hv; [| reflexivity].
      destruct (proj1 Hiff eq_refl) as [_ Hnot]. contradiction. }
    assert (Hkey : is_Some (PageManager.collect (PageManager.collect ∅ nameV) routeV !! "route")).
    { unfold PageManager.collect at 1. rewrite Hbad.
      destruct (Validation.errors routeV) as [|e [|e' r]] eqn:He.
      - exfalso. rewrite (proj2 Hnil eq_refl) in Hbad. discriminate Hbad.
      - cbn [foldl]. apply Forall_cons in Hfield. destruct Hfield as [-> _].
        rewrite lookup_insert_eq. eauto.
      - cbn in Hlen. lia. }
    destruct (decide (PageManager.collect (PageManager.collect ∅ nameV) routeV = ∅))
      as [Hempty|_].
    + rewrite Hempty, lookup_empty in Hkey. destruct Hkey as [? Hkey]. discriminate Hkey.
    + eexists. split; [reflexivity |]. split; [exact Hkey |]. split; reflexivity.
  - intros f' page. exact (add_dialog_accepted f f' ps now page).
Qed.

Lemma add_page_dialog_checks_the_route_witness :
  exists f',
    PageManager.handleAddPage sampleForm (pages twoPageState) 1700000000000%N = (f', None)
    /\ is_Some (PageManager.errors f' !! "route").
Proof.
  destruct (proj1 (add_page_dialog_checks_the_route sampleForm (pages twoPageState)
                     1700000000000%N))
    as (f' & Hrun & Herr & _).
  - apply list_elem_of_In. cbn. right. left. reflexivity.
  - exists f'. split; assumption.
Defined.

(** X19: a page that the add-page dialog accepts and [handleAddPage]
    appends keeps the routes of the pages pairwise different; the pages that
    were there are unchanged, and the identifiers stay pairwise different
    when the new one is not in use. *)
Theorem adding_a_page_keeps_routes_unique (st : State) (f f' : PageManager.Form)
    (now : N) (stamp : string) (page : EnhancedPages.Page) :
  NoDup (map route (pages st)) ->
  PageManager.handleAddPage f (pages st) now = (f', Some page) ->
  exists st' newPage,
    EnhancedPages.handleAddPage st page stamp = Returned st'
    /\ pages st' = pages st ++ [newPage]
    /\ route newPage = PageManager.pageRoute f
    /\ NoDup (map route (pages st'))
    /\ (NoDup (map page_id (pages st)) ->
        ~ ("page_" +:+ pretty now) ∈ map page_id (pages st) ->
        NoDup (map page_id (pages st'))).
Proof.
  intros Hroutes Hdialog.
  destruct (add_dialog_accepted f f' (pages st) now page Hdialog)
    as (_ & Hnew & _ & Hid & _).
  assert (Hroute : EnhancedPages.route page = PageManager.pageRoute f).
  { unfold PageManager.handleAddPage in Hdialog.
    destruct (decide _) in Hdialog; [| discriminate Hdialog].
    injection Hdialog as _ <-. reflexivity. }
  unfold EnhancedPages.handleAddPage.
  destruct (createDefaultComponent "Scaffold" stamp) as [scaffold|m] eqn:Hcreate;
    [| discriminate Hcreate].
  eexists. eexists. split; [reflexivity |]. cbn [pages].
  split; [reflexivity |]. split; [exact Hroute |].
  split.
  - rewrite map_app. apply NoDup_app. split; [exact Hroutes |]. split.
    + intros x Hx Hlast. cbn in Hlast. apply list_elem_of_In in Hlast.
      destruct Hlast as [<-|[]]. contradiction.
    + cbn. apply NoDup_singleton.
  - intros Hids Hfresh. rewrite map_app. apply NoDup_app. split; [exact Hids |]. split.
    + intros x Hx Hlast. cbn in Hlast. apply list_elem_of_In in Hlast.
      destruct Hlast as [<-|[]]. rewrite Hid in Hx. contradiction.
    + cbn. apply NoDup_singleton.
Qed.

Lemma adding_a_page_keeps_routes_unique_witness :
  exists st',
    EnhancedPages.handleAddPage twoPageState
      {| EnhancedPages.id := "page_5"; EnhancedPages.name := "Settings";
         EnhancedPages.route := "/settings"; EnhancedPages.is_home := false |} "1"
    = Returned st'
    /\ NoDup (map route (pages st')).
Proof.
  destruct (adding_a_page_keeps_routes_unique twoPageState
              {| PageManager.isAddDialogOpen := true;
                 PageManager.isEditDialogOpen := false;
                 PageManager.editingPageId := None;
                 PageManager.pageName := "Settings";
                 PageManager.pageRoute := "/settings";
                 PageManager.isHome := false;
                 PageManager.errors := ∅ |}
              {| PageManager.isAddDialogOpen := false;
                 PageManager.isEditDialogOpen := false;
                 PageManager.editingPageId := None;
                 PageManager.pageName := "";
                 PageManager.pageRoute := "";
                 PageManager.isHome := false;
                 PageManager.errors := ∅ |}
              5%N "1"
              {| EnhancedPages.id := "page_5"; EnhancedPages.name := "Settings";
                 EnhancedPages.route := "/settings"; EnhancedPages.is_home := false |})
    as (st' & newPage & Hrun & _ & _ & Hnd & _).
  - apply (bool_decide_unpack _). vm_compute. exact I.
  - vm_compute. reflexivity.
  - exists st'. split; assumption.
Defined.

Lemma routes_after_update (ps : list PageData) (i r : string)
    (u : EnhancedPages.PageUpdates) :
  EnhancedPages.new_route u = Some r ->
  NoDup (map page_id ps) ->
  NoDup (map route ps) ->
  ~ r ∈ map route (filter (fun p => page_id p ≠ i) ps) ->
  NoDup (map route
           (map (fun p => if decide (page_id p = i) then EnhancedPages.withUpdates p u else p)
              ps))
  /\ forall x,
       x ∈ map route
             (map (fun p => if decide (page_id p = i) then EnhancedPages.withUpdates p u
                            else p) ps) ->
       x = r \/ x ∈ map route ps.
Proof.
  intros Hu. induction ps as [|p rest IH]; intros Hids Hroutes Hfree.
  - split; [constructor | intros x Hx; right; exact Hx].
  - cbn [map] in Hids, Hroutes. apply NoDup_cons in Hids, Hroutes.
    destruct Hids as [Hid Hids]. destruct Hroutes as [Hrt Hroutes].
    rewrite filter_cons in Hfree.
    assert (Hfree' : ~ r ∈ map route (filter (fun p => page_id p ≠ i) rest)).
    { destruct (decide (page_id p ≠ i)); [| exact Hfree].
      cbn [map] in Hfree. intros Hin. apply Hfree. apply elem_of_cons. right. exact Hin. }
    destruct (IH Hids Hroutes Hfree') as [IHnd IHin].
    cbn [map]. destruct (decide (page_id p = i)) as [Heq|Hne].
    + assert (Hsame : map (fun p => if decide (page_id p = i)
                                  then EnhancedPages.withUpdates p u else p) rest = rest).
      { rewrite <- (map_id rest) at 2. apply map_ext_in. intros q Hq.
        destruct (decide (page_id q = i)) as [Hqi|_]; [| reflexivity].
        exfalso. apply Hid. rewrite Heq, <- Hqi.
        apply list_elem_of_In. apply in_map. exact Hq. }
      rewrite Hsame in *.
      assert (Hall : filter (fun p => page_id p ≠ i) rest = rest).
      { clear -Hid Heq. induction rest as [|q rest IH]; [reflexivity |].
        rewrite filter_cons. cbn [map] in Hid.
        destruct (decide (page_id q ≠ i)) as [_|Hq].
        - f_equal. apply IH. intros Hin. apply Hid. apply elem_of_cons. right. exact Hin.
        - exfalso. apply dec_stable in Hq. apply Hid. apply elem_of_cons. left. congruence. }
      rewrite Hall in Hfree'.
      unfold EnhancedPages.withUpdates. cbn [route]. rewrite Hu. unfold default. cbn [from_option].
      unfold Datatypes.id.
      split.
      * apply NoDup_cons. split; assumption.
      * intros x Hx. apply elem_of_cons in Hx. destruct Hx as [->|Hx]; [left; reflexivity |].
        right. apply elem_of_cons. right. exact Hx.
    + destruct (decide (page_id p ≠ i)) as [_|Hc]; [| contradiction].
      cbn [map] in Hfree.
      split.
      * apply NoDup_cons. split; [| exact IHnd].
        intros Hin. destruct (IHin _ Hin) as [Hr|Hold].
        -- apply Hfree. apply elem_of_cons. left. symmetry. exact Hr.
        -- contradiction.
      * intros x Hx. apply elem_of_cons in Hx. destruct Hx as [->|Hx].
        -- right. apply elem_of_cons. left. reflexivity.
        -- destruct (IHin _ Hx) as [Hr|Hold];
             [left; exact Hr | right; apply elem_of_cons; right; exact Hold].
Qed.

Lemma edit_dialog_accepts (f f' : PageManager.Form) (ps : list PageData) (i : string)
    (u : EnhancedPages.PageUpdates) :
  PageManager.handleEditPage f ps = (f', Some (i, u)) ->
  PageManager.editingPageId f = Some i
  /\ u = {| EnhancedPages.new_id := None;
            EnhancedPages.new_name := Some (PageManager.pageName f);
            EnhancedPages.new_route := Some (PageManager.pageRoute f);
            EnhancedPages.new_is_home := Some (PageManager.isHome f) |}
  /\ JsString.routePattern (PageManager.pageRoute f) = true
  /\ ~ PageManager.pageRoute f ∈ map route (filter (fun p => page_id p ≠ i) ps).
Proof.
  unfold PageManager.handleEditPage.
  destruct (PageManager.editingPageId f) as [[|a s]|]; try discriminate.
  set (nameV := Validation.validatePageName (PageManager.pageName f)).
  set (routeV := Validation.validateRoute (PageManager.pageRoute f) _).
  destruct (decide (PageManager.collect (PageManager.collect ∅ nameV) routeV = ∅))
    as [Hempty|_]; [| discriminate].
  intros [= _ <- <-].
  assert (HrouteV : routeV = Validation.result (Validation.errors routeV)) by reflexivity.
  rewrite HrouteV in Hempty. apply collect_empty in Hempty. destruct Hempty as [_ Hroute].
  destruct (validateRoute_checks (PageManager.pageRoute f)
              (map route (filter (fun p => page_id p ≠ String a s) ps)))
    as (Hiff & Hnil & _).
  destruct (proj1 Hiff (proj2 Hnil Hroute)) as [Hpat Hnot].
  repeat split; assumption.
Qed.

(** X20: when the edit-page dialog accepts and [handleUpdatePage] applies
    the change, in a project whose page identifiers are pairwise different,
    the routes stay pairwise different; identifiers, component trees and the
    order of the pages are untouched. *)
Theorem editing_a_page_keeps_routes_unique (st : State) (f f' : PageManager.Form)
    (i : string) (u : EnhancedPages.PageUpdates) :
  NoDup (map page_id (pages st)) ->
  NoDup (map route (pages st)) ->
  PageManager.handleEditPage f (pages st) = (f', Some (i, u)) ->
  NoDup (map route (pages (EnhancedPages.handleUpdatePage st i u)))
  /\ map page_id (pages (EnhancedPages.handleUpdatePage st i u)) = map page_id (pages st)
  /\ map components (pages (EnhancedPages.handleUpdatePage st i u))
     = map components (pages st).
Proof.
  intros Hids Hroutes Hdialog.
  destruct (edit_dialog_accepts f f' (pages st) i u Hdialog) as (_ & Hu & _ & Hfree).
  unfold EnhancedPages.handleUpdatePage. cbn [pages].
  split; [| split].
  - apply (routes_after_update (pages st) i (PageManager.pageRoute f) u);
      [rewrite Hu; reflexivity | assumption ..].
  - rewrite map_map. apply map_ext. intros p.
    destruct (decide (page_id p = i)); [| reflexivity].
    unfold EnhancedPages.withUpdates. rewrite Hu. reflexivity.
  - rewrite map_map. apply map_ext. intros p.
    destruct (decide (page_id p = i)); reflexivity.
Qed.

Lemma editing_a_page_keeps_routes_unique_witness :
  NoDup (map route
           (pages (EnhancedPages.handleUpdatePage twoPageState "page_2"
                     {| EnhancedPages.new_id := None;
                        EnhancedPages.new_name := Some "Account";
                        EnhancedPages.new_route := Some "/account";
                        EnhancedPages.new_is_home := Some false |}))).
Proof.
  apply (editing_a_page_keeps_routes_unique twoPageState
           {| PageManager.isAddDialogOpen := false;
              PageManager.isEditDialogOpen := true;
              PageManager.editingPageId := Some "page_2";
              PageManager.pageName := "Account";
              PageManager.pageRoute := "/account";
              PageManager.isHome := false;
              PageManager.errors := ∅ |}
           {| PageManager.isAddDialogOpen := false;
              PageManager.isEditDialogOpen := false;
              PageManager.editingPageId := None;
              PageManager.pageName := "";
              PageManager.pageRoute := "";
              PageManager.isHome := false;
              PageManager.errors := ∅ |}).
  - apply (bool_decide_unpack _). vm_compute. exact I.
  - apply (bool_decide_unpack _). vm_compute. exact I.
  - vm_compute. reflexivity.
Defined.

Lemma NoDup_map_inj {A B : Type} (g : A -> B) (l : list A) (a b : A) :
  NoDup (map g l) -> In a l -> In b l -> g a = g b -> a = b.
Proof.
  induction l as [|x r IH]; intros Hnd Ha Hb Hg; [destruct Ha |].
  cbn [map] in Hnd. apply NoDup_cons in Hnd. destruct Hnd as [Hx Hr].
  destruct Ha as [->|Ha], Hb as [->|Hb].
  - reflexivity.
  - exfalso. apply Hx. rewrite Hg. apply list_elem_of_In. apply in_map. exact Hb.
  - exfalso. apply Hx. rewrite <- Hg. apply list_elem_of_In. apply in_map. exact Ha.
  - exact (IH Hr Ha Hb Hg).
Qed.

(** X21: opening the edit dialog on a page and saving it without a change
    is accepted and leaves the pages as they were, in a project whose
    identifiers and routes are pairwise different, for a page whose name and
    route pass the checks of the dialog. *)
Theorem saving_a_page_unchanged (st : State) (f : PageManager.Form) (page : PageData) :
  NoDup (map page_id (pages st)) ->
  NoDup (map route (pages st)) ->
  In page (pages st) ->
  page_id page <> "" ->
  Validation.isValid (Validation.validatePageName (page_name page)) = true ->
  JsString.routePattern (route page) = true ->
  exists f' u,
    PageManager.handleEditPage (PageManager.handleOpenEditDialog f page) (pages st)
    = (f', Some (page_id page, u))
    /\ PageManager.isEditDialogOpen f' = false
    /\ pages (EnhancedPages.handleUpdatePage st (page_id page) u) = pages st.
Proof.
  intros Hids Hroutes Hin Hid Hname Hpat.
  unfold PageManager.handleEditPage, PageManager.handleOpenEditDialog.
  cbn [PageManager.editingPageId PageManager.pageName PageManager.pageRoute
       PageManager.isHome PageManager.isAddDialogOpen].
  destruct (page_id page) as [|a s] eqn:Hpid; [contradiction |].
  assert (Hfree : ~ route page ∈ map route (filter (fun p => page_id p ≠ String a s) (pages st))).
  { intros Hmem. apply list_elem_of_In, in_map_iff in Hmem.
    destruct Hmem as (q & Hroute & Hq). apply list_elem_of_In, list_elem_of_filter in Hq.
    destruct Hq as [Hne Hq]. apply list_elem_of_In in Hq.
    apply Hne. rewrite <- Hpid.
    f_equal. exact (NoDup_map_inj route (pages st) q page Hroutes Hq Hin Hroute). }
  destruct (validateRoute_checks (route page)
              (map route (filter (fun p => page_id p ≠ String a s) (pages st))))
    as (Hiff & Hnil & _).
  pose proof (proj1 Hnil (proj2 Hiff (conj Hpat Hfree))) as HrouteErrs.
  assert (HnameErrs : Validation.errors (Validation.validatePageName (page_name page)) = []).
  { unfold Validation.validatePageName, Validation.result in *.
    cbn [Validation.isValid Validation.errors] in *.
    destruct (if Validation.missing (page_name page) then _ else _); [reflexivity | discriminate]. }
  assert (Hempty :
    PageManager.collect
      (PageManager.collect ∅ (Validation.validatePageName (page_name page)))
      (Validation.validateRoute (route page)
         (map route (filter (fun p => page_id p ≠ String a s) (pages st)))) = ∅).
  { change (Validation.validateRoute (route page)
              (map route (filter (fun p => page_id p ≠ String a s) (pages st))))
      with (Validation.result
              (Validation.errors
                 (Validation.validateRoute (route page)
                    (map route (filter (fun p => page_id p ≠ String a s) (pages st)))))).
    apply collect_empty. split; [| exact HrouteErrs].
    change (Validation.validatePageName (page_name page))
      with (Validation.result (Validation.errors (Validation.validatePageName (page_name page)))).
    apply collect_empty. split; [reflexivity | exact HnameErrs]. }
  destruct (decide _) as [_|Hbad]; [| contradiction].
  do 2 eexists. split; [reflexivity |]. split; [reflexivity |].
  unfold EnhancedPages.handleUpdatePage. cbn [pages].
  rewrite <- (map_id (pages st)) at 2. apply map_ext_in. intros p Hp.
  destruct (decide (page_id p = String a s)) as [Heq|_]; [| reflexivity].
  assert (p = page) as ->.
  { apply (NoDup_map_inj page_id (pages st)); try assumption. congruence. }
  destruct page. reflexivity.
Qed.

Lemma saving_a_page_unchanged_witness :
  exists f' u,
    PageManager.handleEditPage
      (PageManager.handleOpenEditDialog sampleForm
         {| page_id := "page_2"; page_name := "Profile"; route := "/profile";
            is_home := false; components := [sampleButton] |})
      (pages twoPageState)
    = (f', Some ("page_2", u))
    /\ pages (EnhancedPages.handleUpdatePage twoPageState "page_2" u) = pages twoPageState.
Proof.
  destruct (saving_a_page_unchanged twoPageState sampleForm
              {| page_id := "page_2"; page_name := "Profile"; route := "/profile";
                 is_home := false; components := [sampleButton] |})
    as (f' & u & Hrun & _ & Hsame).
  - apply (bool_decide_unpack _). vm_compute. exact I.
  - apply (bool_decide_unpack _). vm_compute. exact I.
  - cbn. right. left. reflexivity.
  - discriminate.
  - vm_compute. reflexivity.
  - vm_compute. reflexivity.
  - exists f', u. split; assumption.
Defined.

(** ** Saving *)

Lemma validateScreen_passes (p : PageData) (k : nat) :
  Validation.validateScreen (EnhancedPages.screenOfPage p) k = [] <-> savable p.
Proof.
  unfold Validation.validateScreen, EnhancedPages.screenOfPage, savable.
  cbn [Validation.id Validation.name Validation.route Validation.components].
  destruct (decide (page_id p = "")) as [Hid|Hid].
  { rewrite bool_decide_eq_true_2 by exact Hid. rewrite Hid.
    split; [discriminate | intros [H _]; discriminate H]. }
  rewrite bool_decide_eq_false_2 by exact Hid.
  destruct (JsString.identifierPattern (page_id p));
    [| split; [discriminate | intros [H _]; discriminate H]].
  destruct (decide (page_name p = "")) as [Hn|Hn].
  { rewrite bool_decide_eq_true_2 by exact Hn.
    split; [discriminate | intros (_ & H & _); contradiction]. }
  rewrite bool_decide_eq_false_2 by exact Hn.
  destruct (decide (route p = "")) as [Hr|Hr].
  { rewrite bool_decide_eq_true_2 by exact Hr. rewrite Hr.
    split; [discriminate | intros (_ & _ & H & _); discriminate H]. }
  rewrite bool_decide_eq_false_2 by exact Hr.
  destruct (JsString.startsWithSlash (route p));
    [| split; [discriminate | intros (_ & _ & H & _); discriminate H]].
  destruct (components p) as [|c cs].
  - split; [discriminate | intros (_ & _ & _ & H); contradiction].
  - split; [intros _; repeat split; try assumption; discriminate | reflexivity].
Qed.

Lemma validateScreens_pass (ps : list PageData) (k : nat) :
  Validation.validateScreens (map EnhancedPages.screenOfPage ps) k = []
  <-> Forall savable ps.
Proof.
  revert k. induction ps as [|p r IH]; intros k; cbn [map Validation.validateScreens].
  - split; [constructor | reflexivity].
  - split.
    + intros Hnil. apply app_eq_nil in Hnil. destruct Hnil as [Hp Hr].
      constructor; [apply (validateScreen_passes p k), Hp | apply (IH (S k)), Hr].
    + intros Hall. apply Forall_cons in Hall. destruct Hall as [Hp Hr].
      rewrite (proj2 (validateScreen_passes p k) Hp), (proj2 (IH (S k)) Hr). reflexivity.
Qed.

(** X22: [handleSaveProject] sends the project exactly when the project
    name (or [Untitled Project]) is not blank and has 3 to 100 characters,
    the description has at most 500, the application name matches the
    identifier pattern, there is at least one page, and every page has an
    identifier matching the pattern, a name, a route starting with a slash
    and at least one root.  Otherwise nothing is sent and the pages are as
    before. *)
Theorem save_is_sent_exactly_when (project : option EnhancedPages.Project)
    (app_name : string) (st : State) :
  let name := EnhancedPages.orElse (EnhancedPages.project_name <$> project)
                "Untitled Project" in
  let description := EnhancedPages.orElse (EnhancedPages.project_description <$> project)
                       "" in
  ((exists data, EnhancedPages.handleSaveProject project app_name st = inr data)
   <-> Validation.missing name = false
       /\ 3 <= JsString.length name <= 100
       /\ JsString.length description <= 500
       /\ JsString.identifierPattern app_name = true
       /\ pages st <> []
       /\ Forall savable (pages st))
  /\ (forall st' messages,
        EnhancedPages.handleSaveProject project app_name st = inl (st', messages) ->
        pages st' = pages st /\ messages <> []).
Proof.
  intros name description.
  unfold EnhancedPages.handleSaveProject, Validation.validateProjectForm,
    EnhancedPages.projectData.
  cbn [Validation.project_name Validation.description Validation.json_data].
  fold name. fold description.
  unfold Validation.validateJsonData.
  cbn [Validation.app_name Validation.package_name Validation.screens].
  change (JsString.packagePattern "com.example.app") with true.
  change (bool_decide ("com.example.app" = "")) with false.
  cbn [negb].
  set (nameErrs := if Validation.missing name then _ else _).
  set (descErrs := if negb (bool_decide (description = "")) && _ then _ else _).
  set (appErrs := if bool_decide (app_name = "") then _ else _).
  set (screenErrs := match map EnhancedPages.screenOfPage (pages st) with
                     | [] => _ | _ => _ end).
  assert (Hname : nameErrs = [] <-> Validation.missing name = false
                                    /\ 3 <= JsString.length name <= 100).
  { subst nameErrs. destruct (Validation.missing name);
      [split; [discriminate | intros [H _]; discriminate H] |].
    destruct (JsString.length name <? 3)%nat eqn:Hlo;
      [apply Nat.ltb_lt in Hlo; split; [discriminate | intros [_ H]; lia] |].
    destruct (100 <? JsString.length name)%nat eqn:Hhi;
      [apply Nat.ltb_lt in Hhi; split; [discriminate | intros [_ H]; lia] |].
    apply Nat.ltb_ge in Hlo, Hhi. split; [intros _; split; [reflexivity | lia] | reflexivity]. }
  assert (Hdesc : descErrs = [] <-> JsString.length description <= 500).
  { subst descErrs. destruct (decide (description = "")) as [He|He].
    - rewrite bool_decide_eq_true_2 by exact He. cbn [negb andb]. rewrite He.
      split; [intros _; cbn; lia | reflexivity].
    - rewrite bool_decide_eq_false_2 by exact He. cbn [negb andb].
      destruct (500 <? JsString.length description)%nat eqn:Hhi;
        [apply Nat.ltb_lt in Hhi; split; [discriminate | lia]
        | apply Nat.ltb_ge in Hhi; split; [intros _; exact Hhi | reflexivity]]. }
  assert (Happ : appErrs = [] <-> JsString.identifierPattern app_name = true).
  { subst appErrs. destruct (decide (app_name = "")) as [He|He].
    - rewrite bool_decide_eq_true_2 by exact He. rewrite He.
      split; [discriminate | intros H; discriminate H].
    - rewrite bool_decide_eq_false_2 by exact He.
      destruct (JsString.identifierPattern app_name);
        [split; reflexivity | split; [discriminate | intros H; discriminate H]]. }
  assert (Hscreens : screenErrs = [] <-> pages st <> [] /\ Forall savable (pages st)).
  { subst screenErrs. destruct (pages st) as [|p r] eqn:Hps.
    - cbn. split; [discriminate | intros [H _]; contradiction].
    - change (match map EnhancedPages.screenOfPage (p :: r) with
              | [] => _ | _ :: _ => Validation.validateScreens (map EnhancedPages.screenOfPage (p :: r)) 0
              end) with (Validation.validateScreens (map EnhancedPages.screenOfPage (p :: r)) 0).
      pose proof (validateScreens_pass (p :: r) 0) as Hpass.
      split; [intros H; split; [discriminate | apply Hpass, H] | intros [_ H]; apply Hpass, H]. }
  assert (Hall : nameErrs ++ descErrs ++ appErrs ++ [] ++ screenErrs = []
                 <-> nameErrs = [] /\ descErrs = [] /\ appErrs = [] /\ screenErrs = []).
  { split.
    - intros H. apply app_eq_nil in H. destruct H as [H1 H].
      apply app_eq_nil in H. destruct H as [H2 H].
      apply app_eq_nil in H. destruct H as [H3 H]. cbn in H. auto.
    - intros (-> & -> & -> & ->). reflexivity. }
  unfold Validation.result. cbn [Validation.isValid Validation.errors].
  destruct (nameErrs ++ descErrs ++ appErrs ++ [] ++ screenErrs) as [|e es] eqn:Herrs.
  - cbn [negb]. split.
    + split; [| intros _; eexists; reflexivity].
      intros _. destruct (proj1 Hall eq_refl) as (H1 & H2 & H3 & H4).
      destruct (proj1 Hname H1). destruct (proj1 Hscreens H4).
      repeat split; try assumption; try lia.
      * apply Hdesc, H2.
      * apply Happ, H3.
    + intros st' messages H. discriminate H.
  - cbn [negb]. split.
    + split; [intros [data H]; discriminate H |].
      intros (H1 & H2 & H3 & H4 & H5 & H6). exfalso.
      assert (Hnil : e :: es = []); [| discriminate Hnil].
      apply Hall. repeat split.
      * apply Hname. split; assumption.
      * apply Hdesc, H3.
      * apply Happ, H4.
      * apply Hscreens. split; assumption.
    + intros st' messages [= <- <-]. split; [reflexivity | discriminate].
Qed.

(** X23: a page that the add-page dialog accepts and [handleAddPage]
    appends passes every check of [validateScreen], at any position; pages
    that passed before still do. *)
Theorem dialog_pages_pass_the_screen_checks (st : State) (f f' : PageManager.Form)
    (now : N) (stamp : string) (page : EnhancedPages.Page) :
  PageManager.handleAddPage f (pages st) now = (f', Some page) ->
  exists st' newPage,
    EnhancedPages.handleAddPage st page stamp = Returned st'
    /\ pages st' = pages st ++ [newPage]
    /\ (forall k, Validation.validateScreen (EnhancedPages.screenOfPage newPage) k = [])
    /\ (Forall savable (pages st) -> Forall savable (pages st')).
Proof.
  intros Hdialog.
  destruct (add_dialog_accepted f f' (pages st) now page Hdialog)
    as (Hpat & _ & Hlen & _ & Hid & _).
  unfold EnhancedPages.handleAddPage.
  destruct (createDefaultComponent "Scaffold" stamp) as [scaffold|m] eqn:Hcreate;
    [| discriminate Hcreate].
  assert (Hok : savable {| page_id := EnhancedPages.id page;
                           page_name := EnhancedPages.name page;
                           route := EnhancedPages.route page;
                           is_home := EnhancedPages.is_home page;
                           components := [scaffold] |}).
  { unfold savable. cbn [page_id page_name route components].
    split; [exact Hid |]. split.
    - intros Hempty. rewrite Hempty in Hlen. cbn in Hlen. lia.
    - split; [apply routePattern_starts_with_slash, Hpat | discriminate]. }
  eexists. eexists. split; [reflexivity |]. cbn [pages]. split; [reflexivity |].
  split.
  - intros k. apply validateScreen_passes. exact Hok.
  - intros Hall. apply Forall_app. split; [exact Hall |]. constructor; [exact Hok | constructor].
Qed.

Lemma dialog_pages_pass_the_screen_checks_witness :
  exists st' newPage,
    EnhancedPages.handleAddPage twoPageState
      {| EnhancedPages.id := "page_5"; EnhancedPages.name := "Settings";
         EnhancedPages.route := "/settings"; EnhancedPages.is_home := false |} "1"
    = Returned st'
    /\ pages st' = pages twoPageState ++ [newPage]
    /\ Validation.validateScreen (EnhancedPages.screenOfPage newPage) 2 = [].
Proof.
  destruct (dialog_pages_pass_the_screen_checks twoPageState
              {| PageManager.isAddDialogOpen := true;
                 PageManager.isEditDialogOpen := false;
                 PageManager.editingPageId := None;
                 PageManager.pageName := "Settings";
                 PageManager.pageRoute := "/settings";
                 PageManager.isHome := false;
                 PageManager.errors := ∅ |}
              {| PageManager.isAddDialogOpen := false;
                 PageManager.isEditDialogOpen := false;
                 PageManager.editingPageId := None;
                 PageManager.pageName := "";
                 PageManager.pageRoute := "";
                 PageManager.isHome := false;
                 PageManager.errors := ∅ |}
              5%N "1"
              {| EnhancedPages.id := "page_5"; EnhancedPages.name := "Settings";
                 EnhancedPages.route := "/settings"; EnhancedPages.is_home := false |})
    as (st' & newPage & Hrun & Hpages & Hcheck & _).
  - vm_compute. reflexivity.
  - exists st', newPage. split; [exact Hrun |]. split; [exact Hpages | exact (Hcheck 2)].
Defined.

Lemma validateScreens_at (l : list Validation.Screen) (k0 k : nat)
    (s : Validation.Screen) (e : Validation.ValidationError) :
  l !! k = Some s ->
  In e (Validation.validateScreen s (k0 + k)) ->
  In e (Validation.validateScreens l k0).
Proof.
  revert k0 k. induction l as [|x r IH]; intros k0 k Hk He; [discriminate Hk |].
  cbn [Validation.validateScreens]. apply in_or_app.
  destruct k as [|k].
  - injection Hk as ->. rewrite Nat.add_0_r in He. left. exact He.
  - right. apply (IH (S k0) k); [exact Hk |].
    replace (S k0 + k) with (k0 + S k) by lia. exact He.
Qed.

(** X24: a page left without a root blocks saving.  When the page at
    position [k] has no components, [handleSaveProject] sends nothing,
    whatever the rest of the project is: the validation reports
    [At least one component is required] for the field
    [screens[k].components], and the pages stay as they are. *)
Theorem page_without_roots_blocks_saving (project : option EnhancedPages.Project)
    (app_name : string) (st : State) (k : nat) (p : PageData) :
  pages st !! k = Some p ->
  components p = [] ->
  In {| Validation.field := ("screens[" +:+ pretty k +:+ "]") +:+ ".components";
        Validation.message := "At least one component is required" |}
     (Validation.errors
        (Validation.validateProjectForm (EnhancedPages.projectData project app_name st)))
  /\ exists st' messages,
       EnhancedPages.handleSaveProject project app_name st = inl (st', messages)
       /\ In "At least one component is required" messages
       /\ pages st' = pages st.
Proof.
  intros Hk Hempty.
  set (e := {| Validation.field := ("screens[" +:+ pretty k +:+ "]") +:+ ".components";
               Validation.message := "At least one component is required" |}).
  assert (Hin : In e (Validation.errors
                        (Validation.validateProjectForm
                           (EnhancedPages.projectData project app_name st)))).
  { unfold Validation.validateProjectForm, Validation.result.
    cbn [Validation.errors]. apply in_or_app. right. apply in_or_app. right.
    unfold Validation.validateJsonData, EnhancedPages.projectData.
    cbn [Validation.json_data Validation.screens].
    apply in_or_app. right. apply in_or_app. right.
    assert (Hscreen : map EnhancedPages.screenOfPage (pages st) !! k
                      = Some (EnhancedPages.screenOfPage p)).
    { rewrite list_lookup_fmap, Hk. reflexivity. }
    destruct (map EnhancedPages.screenOfPage (pages st)) as [|s r] eqn:Hmap;
      [discriminate Hscreen |].
    apply (validateScreens_at (s :: r) 0 k (EnhancedPages.screenOfPage p) e Hscreen).
    unfold Validation.validateScreen, EnhancedPages.screenOfPage.
    cbn [Validation.components Validation.id Validation.name Validation.route Nat.add].
    rewrite Hempty. apply in_or_app. right. apply in_or_app. right.
    apply in_or_app. right. left. reflexivity. }
  split; [exact Hin |].
  unfold EnhancedPages.handleSaveProject.
  destruct (Validation.isValid _) eqn:Hvalid.
  - exfalso. unfold Validation.validateProjectForm, Validation.result in Hvalid, Hin.
    cbn [Validation.isValid Validation.errors] in Hvalid, Hin.
    destruct (_ ++ _) in Hvalid, Hin; [destruct Hin | discriminate Hvalid].
  - cbn [negb]. eexists. eexists. split; [reflexivity |]. split; [| reflexivity].
    apply (in_map Validation.message) in Hin. exact Hin.
Qed.

Lemma page_without_roots_blocks_saving_witness :
  exists st' messages,
    EnhancedPages.handleSaveProject None "my_app"
      {| pages := [ {| page_id := "page_1"; page_name := "Home"; route := "/";
                       is_home := true; components := [] |} ];
         currentPageId := "page_1"; selectedComponentId := None; toasts := [] |}
    = inl (st', messages)
    /\ In "At least one component is required" messages.
Proof.
  destruct (page_without_roots_blocks_saving None "my_app"
              {| pages := [ {| page_id := "page_1"; page_name := "Home"; route := "/";
                               is_home := true; components := [] |} ];
                 currentPageId := "page_1"; selectedComponentId := None; toasts := [] |}
              0
              {| page_id := "page_1"; page_name := "Home"; route := "/";
                 is_home := true; components := [] |})
    as (_ & st' & messages & Hrun & Hmsg & _).
  - reflexivity.
  - reflexivity.
  - exists st', messages. split; assumption.
Defined.

(** ** The documents of the two builder pages *)

(** X25: the builder page of [VisualBuilder.tsx] reads back what it
    exports: loading the exported document sets the components to the very
    roots that were exported, an empty canvas included. *)
Theorem basic_builder_export_then_load (app : string) (st st0 : VisualBuilder.State) :
  VisualBuilderDocument.loadProject st0 (VisualBuilderDocument.handleExportJSON app st)
  = Some {| VisualBuilder.components := VisualBuilder.components st;
            VisualBuilder.selectedId := VisualBuilder.selectedId st0;
            VisualBuilder.toasts := VisualBuilder.toasts st0 |}.
Proof.
  unfold VisualBuilderDocument.loadProject, VisualBuilderDocument.handleExportJSON,
    VisualBuilderDocument.exportDocument, VisualBuilderDocument.truthyField.
  cbn. decide_keys. cbn. decide_keys. cbn.
  rewrite nodesOfJson_nodeToJson. reflexivity.
Qed.

(** X26: the builder page of [VisualBuilder.tsx] reads only the first
    screen of a document.  Of a document exported by the enhanced page it
    keeps the roots of the first page and drops every other page; a
    document without pages leaves its state alone. *)
Theorem basic_builder_reads_the_first_page_only (app : string)
    (ps : list PageData) (st0 : VisualBuilder.State) :
  VisualBuilderDocument.loadProject st0 (Document.exportDocument app ps)
  = Some match ps with
         | [] => st0
         | page :: _ =>
             {| VisualBuilder.components := components page;
                VisualBuilder.selectedId := VisualBuilder.selectedId st0;
                VisualBuilder.toasts := VisualBuilder.toasts st0 |}
         end.
Proof.
  unfold VisualBuilderDocument.loadProject, Document.exportDocument,
    VisualBuilderDocument.truthyField.
  cbn. decide_keys. cbn.
  destruct ps as [|page rest]; [reflexivity |].
  destruct page as [i n r h cs]. cbn. decide_keys. cbn.
  rewrite nodesOfJson_nodeToJson. reflexivity.
Qed.

(** X27: the enhanced page reads a document exported by the builder page
    of [VisualBuilder.tsx] as one page, the home page [home] at route [/],
    with the exported roots, and makes it the current page.  An empty canvas
    stays empty: no [Scaffold] is added. *)
Theorem enhanced_builder_reads_the_basic_document (app stamp : string)
    (cs : list ComponentNode) (st : State) :
  Document.loadProject st (VisualBuilderDocument.exportDocument app cs) stamp
  = Some {| pages := [ {| page_id := "home"; page_name := "Home"; route := "/";
                          is_home := true; components := cs |} ];
            currentPageId := "home";
            selectedComponentId := selectedComponentId st;
            toasts := toasts st |}.
Proof.
  unfold Document.loadProject, VisualBuilderDocument.exportDocument.
  cbn. decide_keys. cbn. decide_keys. cbn.
  rewrite nodesOfJson_nodeToJson. reflexivity.
Qed.

(** X28: what [loadProject] of the enhanced page makes of the
    [components] of a stored screen.  A screen without the field, or with
    [null] there, gets one fresh [Scaffold] root without properties and
    children; a screen with an empty array gets no root, and such a page
    does not pass the screen checks of saving. *)
Theorem loaded_screen_roots (stamp i n r : string) (h : bool) :
  let described := [ ("id", JStr i); ("name", JStr n); ("route", JStr r);
                     ("is_home", JBool h) ] in
  let page roots := {| page_id := i; page_name := n; route := r; is_home := h;
                       components := roots |} in
  Document.pageOfScreen stamp (JObj described)
  = Some (page [Node ("Scaffold-" +:+ stamp) "Scaffold" ∅ []])
  /\ Document.pageOfScreen stamp (JObj (described ++ [("components", JNull)]))
     = Some (page [Node ("Scaffold-" +:+ stamp) "Scaffold" ∅ []])
  /\ Document.pageOfScreen stamp (JObj (described ++ [("components", JArr [])]))
     = Some (page [])
  /\ forall k, Validation.validateScreen (EnhancedPages.screenOfPage (page [])) k <> [].
Proof.
  cbn zeta. split; [| split; [| split]].
  - unfold Document.pageOfScreen. cbn. decide_keys. reflexivity.
  - unfold Document.pageOfScreen. cbn. decide_keys. reflexivity.
  - unfold Document.pageOfScreen. cbn. decide_keys. reflexivity.
  - intros k Hnil. apply validateScreen_passes in Hnil.
    destruct Hnil as (_ & _ & _ & Hroots). apply Hroots. reflexivity.
Qed.

(** ** What the old and the new root list share *)

Lemma lookup_grown (h : Store.heap) (cells : list Store.cell) (l : Store.loc) (c : Store.cell) :
  h !! l = Some c -> (h ++ cells) !! l = Some c.
Proof. intros Hl. apply lookup_app_l_Some. exact Hl. Qed.

Lemma push_elsewhere (h : Store.heap) (a l : Store.loc) (c c' : Store.cell) :
  h !! l = Some c -> l <> a -> <[a := c']> h !! l = Some c.
Proof. intros Hl Hne. rewrite list_lookup_insert_ne by congruence. exact Hl. Qed.

(** X29: what [handleAddComponent] does to a non-empty root list, in any
    store.  The new root list is a new array holding the same references as
    the old one, the first root is the same object as before, and the array
    of its children has grown in place by the new component.  So, unless
    that array is the root list itself, the old root list reads exactly as
    the new one after the call, at every depth.  The callback of the
    enhanced page behaves the same. *)
Theorem add_component_shares_the_first_root (h : Store.heap)
    (components first : Store.loc) (rest kids : list Store.loc) (o : Store.object)
    (type stamp : string) (d : WidgetDefinition) :
  h !! components = Some (Store.Array (first :: rest)) ->
  h !! first = Some (Store.Object o) ->
  h !! Store.o_children o = Some (Store.Array kids) ->
  getWidgetDefinition type = Some d ->
  exists newComponent h0,
    Store.createDefaultComponent type stamp h = Returned (newComponent, h0)
    /\ forall run,
         run = Store.handleAddComponent components type stamp h
         \/ run = Store.addComponentToPage components newComponent h0 ->
         exists updated h',
           run = Returned (updated, h')
           /\ updated <> components
           /\ h' !! updated = Some (Store.Array (first :: rest))
           /\ h' !! first = Some (Store.Object o)
           /\ h' !! Store.o_children o = Some (Store.Array (kids ++ [newComponent]))
           /\ (Store.o_children o <> components ->
               forall fuel,
                 Store.readRoots fuel h' components = Store.readRoots fuel h' updated).
Proof.
  intros Hroots Hfirst Hkids Hdef.
  pose proof (lookup_lt_Some _ _ _ Hroots) as Hlt.
  pose proof (lookup_lt_Some _ _ _ Hkids) as Hlta.
  assert (Hfa : first <> Store.o_children o) by (intros Heq; congruence).
  set (created := Store.Object
                    {| Store.o_id := type +:+ "-" +:+ stamp; Store.o_type := type;
                       Store.o_props := default ∅ (defaultProps d);
                       Store.o_children := length h |}).
  set (h0 := (h ++ [Store.Array []]) ++ [created]).
  assert (Hcreate : Store.createDefaultComponent type stamp h
                    = Returned (length (h ++ [Store.Array []]), h0)).
  { unfold Store.createDefaultComponent. rewrite Hdef. reflexivity. }
  exists (length (h ++ [Store.Array []])), h0.
  split; [exact Hcreate |].
  set (h1 := h0 ++ [Store.Array (first :: rest)]).
  assert (H0 : forall l c, h !! l = Some c -> h0 !! l = Some c).
  { intros l c Hl. unfold h0. rewrite <- app_assoc. apply lookup_grown, Hl. }
  assert (H1 : forall l c, h !! l = Some c -> h1 !! l = Some c).
  { intros l c Hl. apply lookup_grown, H0, Hl. }
  assert (Hlen0 : length h0 = S (S (length h))).
  { unfold h0. rewrite !length_app. cbn. lia. }
  assert (Hrun : Store.handleAddComponent components type stamp h
                 = Returned (length h0,
                             <[Store.o_children o :=
                                 Store.Array (kids ++ [length (h ++ [Store.Array []])])]> h1)
                 /\ Store.addComponentToPage components (length (h ++ [Store.Array []])) h0
                    = Returned (length h0,
                                <[Store.o_children o :=
                                    Store.Array (kids ++ [length (h ++ [Store.Array []])])]> h1)).
  { split.
    - unfold Store.handleAddComponent.
      rewrite (bind_returned _ _ _ _ _ Hcreate).
      rewrite (bind_getArray _ _ _ _ (H0 _ _ Hroots)).
      rewrite bind_new. fold h1.
      rewrite (bind_getObject _ _ _ _ (H1 _ _ Hfirst)).
      unfold Store.bind, Store.push. rewrite (H1 _ _ Hkids). reflexivity.
    - unfold Store.addComponentToPage.
      rewrite (bind_getArray _ _ _ _ (H0 _ _ Hroots)).
      rewrite bind_new. fold h1.
      rewrite (bind_getObject _ _ _ _ (H1 _ _ Hfirst)).
      unfold Store.bind, Store.push. rewrite (H1 _ _ Hkids). reflexivity. }
  intros run Hwhich.
  exists (length h0),
    (<[Store.o_children o := Store.Array (kids ++ [length (h ++ [Store.Array []])])]> h1).
  assert (Hupd : <[Store.o_children o :=
                     Store.Array (kids ++ [length (h ++ [Store.Array []])])]> h1 !! length h0
                 = Some (Store.Array (first :: rest))).
  { apply push_elsewhere; [apply lookup_new | lia]. }
  split; [destruct Hwhich as [-> | ->]; [exact (proj1 Hrun) | exact (proj2 Hrun)] |].
  split; [lia |]. split; [exact Hupd |].
  split; [apply push_elsewhere; [exact (H1 _ _ Hfirst) | exact Hfa] |].
  split.
  - apply list_lookup_insert_eq. unfold h1. rewrite length_app. lia.
  - intros Hne fuel. unfold Store.readRoots. rewrite Hupd.
    rewrite (push_elsewhere h1 _ components _ _ (H1 _ _ Hroots)) by congruence.
    reflexivity.
Qed.

Lemma add_component_shares_the_first_root_witness :
  exists updated h',
    Store.handleAddComponent 2 "Text" "1" scaffoldStore = Returned (updated, h')
    /\ updated <> 2
    /\ forall fuel, Store.readRoots fuel h' 2 = Store.readRoots fuel h' updated.
Proof.
  destruct (add_component_shares_the_first_root scaffoldStore 2 1 [] []
              {| Store.o_id := "Scaffold-0"; Store.o_type := "Scaffold";
                 Store.o_props := ∅; Store.o_children := 0 |}
              "Text" "1" _ eq_refl eq_refl eq_refl eq_refl)
    as (newComponent & h0 & _ & Hruns).
  destruct (Hruns _ (or_introl eq_refl)) as (updated & h' & Hrun & Hne & _ & _ & _ & Hsame).
  exists updated, h'. split; [exact Hrun |]. split; [exact Hne |].
  apply Hsame. discriminate.
Defined.
